(** * ibm_zos_core: the data set reconciliation engine and its validators

    A shallow embedding of [plugins/module_utils/data_set.py] (class
    [DataSet]) and of the argument validators of
    [plugins/modules/zos_data_set.py], with the properties of the
    specification stated and proved over it.

    Conventions.
    - Python [str] is [string]; only ASCII text is in scope.
    - Python [int] is [Z].
    - A Python exception is a value of [exn]; a call either returns
      ([Ok]) or raises ([Raise]); the state reached before a [raise] is
      kept, as in Python.
    - The managed z/OS system (command executor, ZOAU, the VTOC reader,
      temporary files) is the class [Host]: an unknown world together
      with the answers it gives.  Its calls answer and do not raise.
      Every call that crosses that boundary is recorded, in order, in
      the [calls] journal.
    - A [return] inside an [except] clause is rendered by a flag that
      the code after the [try] statement tests first.

    Layout: the Python primitives ([PyStr], [PyRe]); values, exceptions
    and the effect monad; [DataSet]; [ZosDataSet]; a scripted host and
    scenarios; the vocabulary of the properties; then the proofs. *)

From Stdlib Require Import String Ascii List ZArith Bool Arith Lia.
Import ListNotations.
Local Open Scope list_scope.
Local Open Scope string_scope.

Set Implicit Arguments.

(* ===================================================================== *)
(** ** Python string primitives *)
(* ===================================================================== *)

Module PyStr.

Definition chars (s : string) : list ascii := list_ascii_of_string s.
Definition str (l : list ascii) : string := string_of_list_ascii l.

Definition is_lower (c : ascii) : bool :=
  let n := nat_of_ascii c in (97 <=? n)%nat && (n <=? 122)%nat.
Definition is_upper (c : ascii) : bool :=
  let n := nat_of_ascii c in (65 <=? n)%nat && (n <=? 90)%nat.

Definition upper_char (c : ascii) : ascii :=
  if is_lower c then ascii_of_nat (nat_of_ascii c - 32) else c.
Definition lower_char (c : ascii) : ascii :=
  if is_upper c then ascii_of_nat (nat_of_ascii c + 32) else c.

(** [s.upper()] *)
Fixpoint upper (s : string) : string :=
  match s with
  | EmptyString => EmptyString
  | String c t => String (upper_char c) (upper t)
  end.

(** [needle in s] for strings; the empty needle is in every string. *)
Fixpoint contains (needle s : string) : bool :=
  if prefix needle s then true
  else match s with
       | EmptyString => false
       | String _ t => contains needle t
       end.

(** [s.find(needle)]: [None] stands for Python's [-1]. *)
Fixpoint find_from (needle s : string) (i : nat) : option nat :=
  if prefix needle s then Some i
  else match s with
       | EmptyString => None
       | String _ t => find_from needle t (S i)
       end.
Definition find (needle s : string) : option nat := find_from needle s 0.

(** [s[:n]] for [n >= 0]. *)
Definition take (n : nat) (s : string) : string := substring 0 n s.

(** [s[:k]] for any Python index [k]; [k = -1] drops the last character. *)
Definition slice_to (k : option nat) (s : string) : string :=
  match k with
  | Some n => take n s
  | None => take (String.length s - 1) s
  end.

Fixpoint drop (n : nat) (s : string) : string :=
  match n, s with
  | O, _ => s
  | S n', String _ t => drop n' t
  | S _, EmptyString => EmptyString
  end.

(** [s.split(sep)] for a non-empty separator: the pieces between the
    occurrences of [sep], scanned left to right. *)
Fixpoint split_aux (sep : string) (acc : list ascii) (s : string) (fuel : nat)
  : list string :=
  match fuel with
  | O => [str (rev acc)]
  | S fuel' =>
      match s with
      | EmptyString => [str (rev acc)]
      | String c t =>
          if prefix sep s
          then str (rev acc) :: split_aux sep [] (drop (String.length sep) s) fuel'
          else split_aux sep (c :: acc) t fuel'
      end
  end.
Definition split (sep s : string) : list string :=
  split_aux sep [] s (S (String.length s)).

(** [sep.join(items)] *)
Fixpoint join (sep : string) (items : list string) : string :=
  match items with
  | [] => ""
  | [x] => x
  | x :: rest => x ++ sep ++ join sep rest
  end.

(** ["{line: <{n}}".format(line=s, n=n)]: pad with blanks on the right
    up to width [n], never truncating. *)
Fixpoint blanks (n : nat) : string :=
  match n with O => "" | S k => String " " (blanks k) end.
Definition ljust (n : nat) (s : string) : string :=
  s ++ blanks (n - String.length s).

(** [str(n)] for an integer. *)
Definition digit (n : nat) : ascii := ascii_of_nat (48 + n).
Fixpoint digits_of (fuel n : nat) (acc : string) : string :=
  match fuel with
  | O => acc
  | S fuel' =>
      let acc' := String (digit (n mod 10)) acc in
      if (n / 10 =? 0)%nat then acc' else digits_of fuel' (n / 10) acc'
  end.
Definition of_nat (n : nat) : string := digits_of (S n) n "".
Definition of_Z (z : Z) : string :=
  match z with
  | Z0 => "0"
  | Zpos p => of_nat (Pos.to_nat p)
  | Zneg p => "-" ++ of_nat (Pos.to_nat p)
  end.

(** [list(set(l))]: the distinct elements.  Python leaves their order
    unspecified; the order of first occurrence is used here and nothing
    below depends on it. *)
Fixpoint distinct (l : list string) : list string :=
  match l with
  | [] => []
  | x :: t => x :: filter (fun y => negb (String.eqb x y)) (distinct t)
  end.

(** [bool(set(a) & set(b))] *)
Definition intersects (a b : list string) : bool :=
  existsb (fun x => existsb (String.eqb x) b) a.

End PyStr.

(* ===================================================================== *)
(** ** Python regular expressions ([re]) *)
(* ===================================================================== *)

(** The fragment of [re] that the repository's patterns and validated
    data set names are written in: literals, [.], [^], [$], [[...]] sets
    with ranges, the escapes [\s \S \d \D \w \W \n \t \r \f \v] and
    escaped punctuation, groups [(...)] and [(?:...)], alternation and
    the quantifiers [* + ? {m} {m,n} {m,} {,n}] (greedy or lazy: the
    two accept the same texts).  [compile] answers [None] where Python
    raises [re.error] and for syntax outside this fragment. *)
Module PyRe.

Record flags : Type := Flags { ignorecase : bool; multiline : bool }.

Definition NOFLAGS : flags := Flags false false.
Definition IGNORECASE : flags := Flags true false.
Definition MULTILINE : flags := Flags false true.

Inductive regex : Type :=
| REps
| RSet (neg : bool) (items : list (ascii * ascii))
| RDot
| RBol
| REol
| RCat (a b : regex)
| RAlt (a b : regex)
| RRep (a : regex) (lo : nat) (hi : option nat).

(** A position in the subject: the character just before it (if any)
    and the text still to be read. *)
Definition pos : Type := (option ascii * list ascii)%type.

Definition in_range (c : ascii) (r : ascii * ascii) : bool :=
  (nat_of_ascii (fst r) <=? nat_of_ascii c)%nat
  && (nat_of_ascii c <=? nat_of_ascii (snd r))%nat.

Definition in_items (fl : flags) (items : list (ascii * ascii)) (c : ascii) : bool :=
  existsb (in_range c) items
  || (ignorecase fl
      && (existsb (in_range (PyStr.upper_char c)) items
          || existsb (in_range (PyStr.lower_char c)) items)).

Definition newline : ascii := ascii_of_nat 10.

Definition at_bol (fl : flags) (p : pos) : bool :=
  match fst p with
  | None => true
  | Some c => multiline fl && Ascii.eqb c newline
  end.

Definition at_eol (fl : flags) (p : pos) : bool :=
  match snd p with
  | [] => true
  | c :: t =>
      Ascii.eqb c newline
      && (multiline fl || match t with [] => true | _ => false end)
  end.

Section Repeat.
Variable step : pos -> list pos.

Fixpoint iter_exact (n : nat) (p : pos) : list pos :=
  match n with
  | O => [p]
  | S k => flat_map (iter_exact k) (step p)
  end.

Fixpoint iter_upto (n : nat) (p : pos) : list pos :=
  p :: match n with
       | O => []
       | S k => flat_map (iter_upto k) (step p)
       end.

(** Between [lo] and [hi] rounds of [step]; without an upper bound the
    rounds that read something are at most as many as the characters
    left, and a round that reads nothing reaches nothing new. *)
Definition repeat (lo : nat) (hi : option nat) (p : pos) : list pos :=
  flat_map
    (fun q => iter_upto (match hi with
                         | Some h => h - lo
                         | None => List.length (snd q)
                         end) q)
    (iter_exact lo p).
End Repeat.

(** All the positions that [r] can reach from [p]. *)
Fixpoint rmatch (fl : flags) (r : regex) (p : pos) : list pos :=
  match r with
  | REps => [p]
  | RSet neg items =>
      match snd p with
      | c :: t => if xorb neg (in_items fl items c) then [(Some c, t)] else []
      | [] => []
      end
  | RDot =>
      match snd p with
      | c :: t => if Ascii.eqb c newline then [] else [(Some c, t)]
      | [] => []
      end
  | RBol => if at_bol fl p then [p] else []
  | REol => if at_eol fl p then [p] else []
  | RCat a b => flat_map (rmatch fl b) (rmatch fl a p)
  | RAlt a b => (rmatch fl a p ++ rmatch fl b p)%list
  | RRep a lo hi => repeat (rmatch fl a) lo hi p
  end.

Definition at_end (p : pos) : bool :=
  match snd p with [] => true | _ => false end.

Definition fullmatch_re (fl : flags) (r : regex) (s : list ascii) : bool :=
  existsb at_end (rmatch fl r (None, s)).

Fixpoint search_from (fl : flags) (r : regex) (prev : option ascii)
  (s : list ascii) : bool :=
  match rmatch fl r (prev, s) with
  | _ :: _ => true
  | [] => match s with
          | [] => false
          | c :: t => search_from fl r (Some c) t
          end
  end.

Definition search_re (fl : flags) (r : regex) (s : list ascii) : bool :=
  search_from fl r None s.

(** *** Pattern syntax *)

Definition lit (c : ascii) : regex := RSet false [(c, c)].

Definition space_items : list (ascii * ascii) :=
  [(ascii_of_nat 9, ascii_of_nat 13); (ascii_of_nat 28, ascii_of_nat 32)].
Definition digit_items : list (ascii * ascii) := [("0", "9")]%char.
Definition word_items : list (ascii * ascii) :=
  [("a", "z"); ("A", "Z"); ("0", "9"); ("_", "_")]%char.

Definition is_digit (c : ascii) : bool :=
  let n := nat_of_ascii c in (48 <=? n)%nat && (n <=? 57)%nat.
Definition is_alnum (c : ascii) : bool :=
  is_digit c || PyStr.is_lower c || PyStr.is_upper c.

(** The character an escape such as [\n] stands for. *)
Definition escape_char (c : ascii) : option ascii :=
  match c with
  | "n" => Some (ascii_of_nat 10)
  | "t" => Some (ascii_of_nat 9)
  | "r" => Some (ascii_of_nat 13)
  | "f" => Some (ascii_of_nat 12)
  | "v" => Some (ascii_of_nat 11)
  | "a" => Some (ascii_of_nat 7)
  | _ => if is_alnum c then None else Some c
  end%char.

(** The set an escape such as [\s] stands for, with its polarity. *)
Definition escape_class (c : ascii) : option (bool * list (ascii * ascii)) :=
  match c with
  | "s" => Some (false, space_items)
  | "S" => Some (true, space_items)
  | "d" => Some (false, digit_items)
  | "D" => Some (true, digit_items)
  | "w" => Some (false, word_items)
  | "W" => Some (true, word_items)
  | _ => None
  end%char.

Definition parse_escape (c : ascii) : option regex :=
  match escape_class c with
  | Some (neg, items) => Some (RSet neg items)
  | None => option_map lit (escape_char c)
  end.

(** One member of a set: a character, or the ranges of a class escape. *)
Definition set_atom (s : list ascii)
  : option ((ascii + list (ascii * ascii)) * list ascii) :=
  match s with
  | "\"%char :: c :: t =>
      match escape_class c with
      | Some (false, items) => Some (inr items, t)
      | Some (true, _) => None
      | None => match escape_char c with
                | Some e => Some (inl e, t)
                | None => None
                end
      end
  | "\"%char :: [] => None
  | c :: t => Some (inl c, t)
  | [] => None
  end.

Fixpoint parse_set_items (fuel : nat) (first : bool) (s : list ascii)
  : option (list (ascii * ascii) * list ascii) :=
  match fuel with
  | O => None
  | S fuel' =>
      match s with
      | [] => None
      | "]"%char :: t =>
          if first
          then match parse_set_items fuel' false t with
               | Some (items, rest) => Some (("]", "]")%char :: items, rest)
               | None => None
               end
          else Some ([], t)
      | _ =>
          match set_atom s with
          | None => None
          | Some (inr items, t) =>
              match parse_set_items fuel' false t with
              | Some (more, rest) => Some ((items ++ more)%list, rest)
              | None => None
              end
          | Some (inl lo, t) =>
              match t with
              | "-"%char :: "]"%char :: rest =>
                  Some ([(lo, lo); ("-", "-")%char], rest)
              | "-"%char :: t' =>
                  match set_atom t' with
                  | Some (inl hi, t'') =>
                      if (nat_of_ascii lo <=? nat_of_ascii hi)%nat
                      then match parse_set_items fuel' false t'' with
                           | Some (more, rest) => Some ((lo, hi) :: more, rest)
                           | None => None
                           end
                      else None
                  | _ => None
                  end
              | _ =>
                  match parse_set_items fuel' false t with
                  | Some (more, rest) => Some ((lo, lo) :: more, rest)
                  | None => None
                  end
              end
          end
      end
  end.

Definition parse_set (s : list ascii) : option (regex * list ascii) :=
  let '(neg, body) :=
    match s with
    | "^"%char :: t => (true, t)
    | _ => (false, s)
    end in
  match parse_set_items (S (List.length body)) true body with
  | Some (items, rest) => Some (RSet neg items, rest)
  | None => None
  end.

Fixpoint read_nat (s : list ascii) (acc : option nat)
  : option nat * list ascii :=
  match s with
  | c :: t =>
      if is_digit c
      then read_nat t (Some (10 * match acc with Some a => a | None => 0 end
                             + (nat_of_ascii c - 48)))
      else (acc, s)
  | [] => (acc, s)
  end.

(** The text after an opening brace, read as a repeat count. *)
Definition parse_braces (s : list ascii)
  : option (nat * option nat * list ascii) :=
  match s with
  | "}"%char :: _ => None
  | _ =>
      let '(lo, s1) := read_nat s None in
      let '(hi, s2) :=
        match s1 with
        | ","%char :: t => read_nat t None
        | _ => (lo, s1)
        end in
      match s2 with
      | "}"%char :: rest =>
          Some (match lo with Some n => n | None => 0 end, hi, rest)
      | _ => None
      end
  end.

Inductive quantifier : Type :=
| QNone
| QBad
| QRep (lo : nat) (hi : option nat).

Definition parse_quantifier (s : list ascii) : quantifier * list ascii :=
  match s with
  | "*"%char :: t => (QRep 0 None, t)
  | "+"%char :: t => (QRep 1 None, t)
  | "?"%char :: t => (QRep 0 (Some 1), t)
  | "{"%char :: t =>
      match parse_braces t with
      | Some (lo, hi, rest) =>
          match hi with
          | Some h => if (h <? lo)%nat then (QBad, rest) else (QRep lo hi, rest)
          | None => (QRep lo hi, rest)
          end
      | None => (QNone, s)
      end
  | _ => (QNone, s)
  end.

Definition is_anchor (r : regex) : bool :=
  match r with RBol | REol => true | _ => false end.

(** An atom followed by its quantifier, if any. *)
Definition quantified (r : regex) (s : list ascii) : option (regex * list ascii) :=
  match parse_quantifier s with
  | (QNone, _) => Some (r, s)
  | (QBad, _) => None
  | (QRep lo hi, rest) =>
      if is_anchor r then None
      else
        let rest' := match rest with "?"%char :: t => t | _ => rest end in
        match parse_quantifier rest' with
        | (QNone, _) => Some (RRep r lo hi, rest')
        | _ => None
        end
  end.

Fixpoint parse_alt (fuel : nat) (s : list ascii) : option (regex * list ascii) :=
  match fuel with
  | O => None
  | S fuel' =>
      match parse_seq fuel' s with
      | Some (a, "|"%char :: rest) =>
          match parse_alt fuel' rest with
          | Some (b, rest') => Some (RAlt a b, rest')
          | None => None
          end
      | other => other
      end
  end
with parse_seq (fuel : nat) (s : list ascii) : option (regex * list ascii) :=
  match fuel with
  | O => None
  | S fuel' =>
      match s with
      | [] => Some (REps, s)
      | "|"%char :: _ => Some (REps, s)
      | ")"%char :: _ => Some (REps, s)
      | _ =>
          match parse_item fuel' s with
          | Some (a, rest) =>
              match parse_seq fuel' rest with
              | Some (REps, rest') => Some (a, rest')
              | Some (b, rest') => Some (RCat a b, rest')
              | None => None
              end
          | None => None
          end
      end
  end
with parse_item (fuel : nat) (s : list ascii) : option (regex * list ascii) :=
  match fuel with
  | O => None
  | S fuel' =>
      match s with
      | [] => None
      | "("%char :: t =>
          let body :=
            match t with
            | "?"%char :: ":"%char :: t' => Some t'
            | "?"%char :: _ => None
            | _ => Some t
            end in
          match body with
          | None => None
          | Some b =>
              match parse_alt fuel' b with
              | Some (r, ")"%char :: rest) => quantified r rest
              | _ => None
              end
          end
      | "["%char :: t =>
          match parse_set t with
          | Some (r, rest) => quantified r rest
          | None => None
          end
      | "\"%char :: c :: t =>
          match parse_escape c with
          | Some r => quantified r t
          | None => None
          end
      | "\"%char :: [] => None
      | "."%char :: t => quantified RDot t
      | "^"%char :: t => quantified RBol t
      | "$"%char :: t => quantified REol t
      | "*"%char :: _ => None
      | "+"%char :: _ => None
      | "?"%char :: _ => None
      | "{"%char :: t =>
          match parse_braces t with
          | Some _ => None
          | None => quantified (lit "{"%char) t
          end
      | c :: t => quantified (lit c) t
      end
  end.

(** [re.compile(pattern)] *)
Definition compile (pattern : string) : option regex :=
  let s := PyStr.chars pattern in
  match parse_alt (4 * List.length s + 4) s with
  | Some (r, []) => Some r
  | _ => None
  end.

(** [re.search(pattern, text, flags) is not None] *)
Definition search (fl : flags) (pattern text : string) : option bool :=
  option_map (fun r => search_re fl r (PyStr.chars text)) (compile pattern).

(** [re.fullmatch(pattern, text, flags) is not None] *)
Definition fullmatch (fl : flags) (pattern text : string) : option bool :=
  option_map (fun r => fullmatch_re fl r (PyStr.chars text)) (compile pattern).

End PyRe.

(* ===================================================================== *)
(** ** Values, exceptions and the effect monad *)
(* ===================================================================== *)

Definition nl : string := String (ascii_of_nat 10) "".
Definition dq : string := String (ascii_of_nat 34) "".

(** Keyword-argument values handed to ZOAU. *)
Inductive pyval : Type :=
| VStr (s : string)
| VInt (z : Z)
| VBool (b : bool).

(** The exception classes of [data_set.py] (each carries its [msg]),
    and the built-in ones the modelled code can raise. *)
Inductive exn : Type :=
| DatasetDeleteError (msg : string)
| DatasetCreateError (msg : string)
| DatasetCatalogError (msg : string)
| DatasetUncatalogError (msg : string)
| DatasetWriteError (msg : string)
| DatasetFormatError (msg : string)
| MVSCmdExecError (msg : string)
| ValueError (msg : string)
| IndexError
| ReError.

Definition exn_msg (e : exn) : string :=
  match e with
  | DatasetDeleteError m | DatasetCreateError m | DatasetCatalogError m
  | DatasetUncatalogError m | DatasetWriteError m | DatasetFormatError m
  | MVSCmdExecError m | ValueError m => m
  | IndexError => "list index out of range"
  | ReError => "re.error"
  end.

Definition is_DatasetDeleteError (e : exn) : bool :=
  match e with DatasetDeleteError _ => true | _ => false end.
Definition is_DatasetCreateError (e : exn) : bool :=
  match e with DatasetCreateError _ => true | _ => false end.
Definition is_DatasetCatalogError (e : exn) : bool :=
  match e with DatasetCatalogError _ => true | _ => false end.
Definition is_DatasetUncatalogError (e : exn) : bool :=
  match e with DatasetUncatalogError _ => true | _ => false end.

(** The constructors of the exception classes. *)
Definition mkDatasetDeleteError (data_set : string) (rc : Z) : exn :=
  DatasetDeleteError
    ("An error occurred during deletion of data set " ++ dq ++ data_set ++ dq
     ++ ". RC=" ++ PyStr.of_Z rc).

Definition mkDatasetCreateError (data_set : string) (rc : Z) (msg : string) : exn :=
  DatasetCreateError
    ("An error occurred during creation of data set " ++ dq ++ data_set ++ dq
     ++ ". RC=" ++ PyStr.of_Z rc ++ ", " ++ msg).

(** [rc] is an integer at some call sites and the text ["-1"] at
    another: it arrives here already printed. *)
Definition mkDatasetCatalogError (data_set : string) (volumes : list string)
  (rc : string) (message : string) : exn :=
  DatasetCatalogError
    ("An error occurred during cataloging of data set " ++ dq ++ data_set ++ dq
     ++ " on volume(s) " ++ dq ++ PyStr.join ", " volumes ++ dq
     ++ ". RC=" ++ rc ++ ". " ++ message).

Definition mkDatasetUncatalogError (data_set : string) (rc : Z) : exn :=
  DatasetUncatalogError
    ("An error occurred during uncatalog of data set " ++ dq ++ data_set ++ dq
     ++ ". RC=" ++ PyStr.of_Z rc).

Definition mkDatasetWriteError (data_set : string) (rc : Z) (message : string) : exn :=
  DatasetWriteError
    ("An error occurred during write of data set " ++ dq ++ data_set ++ dq
     ++ ". RC=" ++ PyStr.of_Z rc ++ ". " ++ message).

Definition mkMVSCmdExecError (rc : Z) (out err : string) : exn :=
  MVSCmdExecError
    ("Failure during execution of mvscmd; Return code: " ++ PyStr.of_Z rc
     ++ "; stdout: " ++ out ++ "; stderr: " ++ err).

Definition mkDatasetFormatError (data_set : string) (rc : Z) (message : string) : exn :=
  DatasetFormatError
    ("An error occurred during format of data set " ++ dq ++ data_set ++ dq
     ++ ". RC=" ++ PyStr.of_Z rc ++ ". " ++ message).

(** An entry of a volume table of contents: a dictionary of texts. *)
Definition entry : Type := list (string * string).

Fixpoint entry_get (key : string) (default : string) (e : entry) : string :=
  match e with
  | [] => default
  | (k, v) :: t => if String.eqb k key then v else entry_get key default t
  end.

(** The response object of [datasets._create]. *)
Record response : Type := Response {
  rc : Z;
  stdout_response : string;
  stderr_response : string
}.

(** A call that leaves the process. *)
Inductive call : Type :=
| RunCommand (cmd : string) (data : option string)
| DatasetsCreate (args : list (string * pyval))
| DatasetsDelete (name : string)
| DatasetsHlq
| DatasetsTmpName (hlq : string)
| VtocGetVolumeEntry (volume : string)
| VtocGetDataSetEntry (name volume : string)
| NamedTemporaryFile
| FileWrite (path contents : string).

(** The collaborators outside [data_set.py]: Ansible's [run_command],
    ZOAU's [datasets], Python's [tempfile], and the repository's [vtoc]
    module, which is not among the sources at hand and is taken as it is
    used: [get_volume_entry] lists the entries of a volume,
    [get_data_set_entry] answers one entry or [None], and
    [find_data_set_in_volume_output] picks an entry out of a listing. *)
Class Host (W : Type) : Type := {
  host_run_command : string -> option string -> W -> (Z * string * string) * W;
  host_datasets_create : list (string * pyval) -> W -> response * W;
  host_datasets_delete : string -> W -> Z * W;
  host_datasets_hlq : W -> string * W;
  host_datasets_tmp_name : string -> W -> string * W;
  host_vtoc_get_volume_entry : string -> W -> list entry * W;
  host_vtoc_get_data_set_entry : string -> string -> W -> option entry * W;
  vtoc_find_data_set_in_volume_output : string -> list entry -> option entry;
  host_named_temporary_file : W -> string * W;
  host_file_write : string -> string -> W -> W
}.

Inductive result (A : Type) : Type :=
| Ok (a : A)
| Raise (e : exn).
Arguments Ok {A} a.
Arguments Raise {A} e.

(** The state of a run: the world, and the journal of the calls made. *)
Record st (W : Type) : Type := St {
  world : W;
  calls : list call
}.

Definition M (W A : Type) : Type := st W -> result A * st W.

Definition ret {W A} (a : A) : M W A := fun s => (Ok a, s).

Definition bind {W A B} (m : M W A) (k : A -> M W B) : M W B :=
  fun s => match m s with
           | (Ok a, s') => k a s'
           | (Raise e, s') => (Raise e, s')
           end.

Definition raise {W A} (e : exn) : M W A := fun s => (Raise e, s).

(** [try: body  except <class>: handler]; [handles e] tells whether the
    [except] clause is for [e]; the handler may look at [e] and re-raise. *)
Definition try_except {W A} (body : M W A) (handles : exn -> bool)
  (handler : exn -> M W A) : M W A :=
  fun s => match body s with
           | (Ok a, s') => (Ok a, s')
           | (Raise e, s') => if handles e then handler e s' else (Raise e, s')
           end.

(** [try: body  finally: cleanup] *)
Definition try_finally {W A} (body : M W A) (cleanup : M W unit) : M W A :=
  fun s => match body s with
           | (r, s') => match cleanup s' with
                        | (Ok _, s'') => (r, s'')
                        | (Raise e, s'') => (Raise e, s'')
                        end
           end.

(** A pure computation that may fail with [re.error]. *)
Definition of_re {W} (r : option bool) : M W bool :=
  match r with
  | Some b => ret b
  | None => raise ReError
  end.

Declare Scope py_scope.
Delimit Scope py_scope with py.
Notation "x <- m ;; k" := (bind m (fun x => k))
  (at level 61, m at next level, right associativity) : py_scope.
Notation "' pat <- m ;; k" := (bind m (fun x => match x with pat => k end))
  (at level 61, pat pattern, m at next level, right associativity) : py_scope.
Notation "m ;; k" := (bind m (fun _ => k))
  (at level 61, right associativity) : py_scope.
Local Open Scope py_scope.

(** The boundary calls, journalled. *)
Section Boundary.
Context {W : Type} {H : Host W}.

Definition journal (c : call) (w : W) (s : st W) : st W :=
  St w (calls s ++ [c])%list.

Definition run_command (cmd : string) (data : option string)
  : M W (Z * string * string) :=
  fun s => let '(r, w) := host_run_command cmd data (world s) in
           (Ok r, journal (RunCommand cmd data) w s).

Definition datasets_create (args : list (string * pyval)) : M W response :=
  fun s => let '(r, w) := host_datasets_create args (world s) in
           (Ok r, journal (DatasetsCreate args) w s).

Definition datasets_delete (name : string) : M W Z :=
  fun s => let '(r, w) := host_datasets_delete name (world s) in
           (Ok r, journal (DatasetsDelete name) w s).

Definition datasets_hlq : M W string :=
  fun s => let '(r, w) := host_datasets_hlq (world s) in
           (Ok r, journal DatasetsHlq w s).

Definition datasets_tmp_name (hlq : string) : M W string :=
  fun s => let '(r, w) := host_datasets_tmp_name hlq (world s) in
           (Ok r, journal (DatasetsTmpName hlq) w s).

Definition vtoc_get_volume_entry (volume : string) : M W (list entry) :=
  fun s => let '(r, w) := host_vtoc_get_volume_entry volume (world s) in
           (Ok r, journal (VtocGetVolumeEntry volume) w s).

Definition vtoc_get_data_set_entry (name volume : string) : M W (option entry) :=
  fun s => let '(r, w) := host_vtoc_get_data_set_entry name volume (world s) in
           (Ok r, journal (VtocGetDataSetEntry name volume) w s).

Definition named_temporary_file : M W string :=
  fun s => let '(r, w) := host_named_temporary_file (world s) in
           (Ok r, journal NamedTemporaryFile w s).

Definition file_write (path contents : string) : M W unit :=
  fun s => (Ok tt, journal (FileWrite path contents)
                     (host_file_write path contents (world s)) s).
End Boundary.

(* ===================================================================== *)
(** ** [plugins/module_utils/data_set.py]: class [DataSet] *)
(* ===================================================================== *)

(** The keyword arguments shared by [ensure_present], [replace] and
    [create] ([locals()] of those functions, in parameter order). *)
Record create_args : Type := CreateArgs {
  name : string;
  type : string;
  space_primary : option Z;
  space_secondary : option Z;
  space_type : option string;
  record_format : option string;
  record_length : option Z;
  block_size : option Z;
  directory_blocks : option Z;
  key_length : option Z;
  key_offset : option Z;
  sms_storage_class : option string;
  sms_data_class : option string;
  sms_management_class : option string;
  volumes : option (list string);
  tmp_hlq : option string;
  force : option bool
}.

(** Truth value of an optional list ([if volumes:]) and of a text. *)
Definition truthy {A} (l : option (list A)) : bool :=
  match l with
  | Some (_ :: _) => true
  | _ => false
  end.

Definition nonempty (s : string) : bool :=
  match s with EmptyString => false | _ => true end.

Module DataSet.
Section WithHost.
Context {W : Type} {H : Host W}.

Definition IDCAMS : string :=
  "mvscmdauth --pgm=idcams --sysprint=* --sysin=stdin".
Definition IEHPROGM : string :=
  "mvscmdauth --pgm=iehprogm --sysprint=* --sysin=stdin".

Definition _VSAM_CATALOG_COMMAND_NOT_INDEXED (a0 a1 a2 : string) : string :=
  " DEFINE CLUSTER -" ++ nl ++
  "    (NAME('" ++ a0 ++ "') -" ++ nl ++
  "    VOLUMES(" ++ a1 ++ ") -" ++ nl ++
  "    RECATALOG " ++ a2 ++ ") -" ++ nl ++
  "    DATA(NAME('" ++ a0 ++ ".DATA'))" ++ nl ++
  "    ".

Definition _VSAM_CATALOG_COMMAND_INDEXED (a0 a1 a2 : string) : string :=
  " DEFINE CLUSTER -" ++ nl ++
  "    (NAME('" ++ a0 ++ "') -" ++ nl ++
  "    VOLUMES(" ++ a1 ++ ") -" ++ nl ++
  "    RECATALOG " ++ a2 ++ ") -" ++ nl ++
  "    DATA(NAME('" ++ a0 ++ ".DATA')) -" ++ nl ++
  "    INDEX(NAME('" ++ a0 ++ ".INDEX'))" ++ nl ++
  "    ".

Definition _NON_VSAM_UNCATALOG_COMMAND (a0 : string) : string :=
  " UNCATLG DSNAME=" ++ a0.

Definition _VSAM_UNCATALOG_COMMAND (a0 : string) : string :=
  " DELETE '" ++ a0 ++ "' NOSCRATCH".

Definition NORMAL_END : string := "NORMAL END OF TASK RETURNED".

(** *** Catalog inspection *)

Definition data_set_cataloged_volume_list (name : string) : M W (list string) :=
  let name := PyStr.upper name in
  let stdin := " LISTCAT ENTRIES('" ++ name ++ "') ALL" in
  '(rc, stdout, stderr) <- run_command IDCAMS (Some stdin) ;;
  let delimiter := "VOLSER------------" in
  let arr := PyStr.split delimiter stdout in
  let volume_list :=
    PyStr.distinct
      (map (fun x => PyStr.slice_to (PyStr.find " " x) x) (tl arr)) in
  ret volume_list.

Definition data_set_cataloged (name : string) (volumes : option (list string))
  : M W bool :=
  let name := PyStr.upper name in
  let stdin := " LISTCAT ENTRIES('" ++ name ++ "')" in
  '(rc, stdout, stderr) <- run_command IDCAMS (Some stdin) ;;
  match volumes with
  | Some (v :: vs) =>
      cataloged_volume_list <- data_set_cataloged_volume_list name ;;
      if PyStr.intersects (v :: vs) cataloged_volume_list
      then ret true
      else ret false
  | _ =>
      found <- of_re (PyRe.search PyRe.NOFLAGS
                        ("-\s" ++ name ++ "\s*\n\s+IN-CAT") stdout) ;;
      if found then ret true else ret false
  end.

Definition _get_listcat_data (name : string) : M W string :=
  let name := PyStr.upper name in
  let stdin := " LISTCAT ENT('" ++ name ++ "') DATA ALL" in
  '(rc, stdout, stderr) <- run_command IDCAMS (Some stdin) ;;
  if negb (rc =? 0)%Z
  then raise (mkMVSCmdExecError rc stdout stderr)
  else ret stdout.

(** *** Type classification *)

Definition _is_vsam_from_vtoc (name volume : string) : M W bool :=
  data_sets <- vtoc_get_volume_entry volume ;;
  let vsam_name := name ++ ".DATA" in
  let data_set := vtoc_find_data_set_in_volume_output vsam_name data_sets in
  let data_set :=
    match data_set with
    | None => vtoc_find_data_set_in_volume_output name data_sets
    | Some _ => data_set
    end in
  match data_set with
  | Some e =>
      if String.eqb (entry_get "data_set_organization" "" e) "VS"
      then ret true
      else ret false
  | None => ret false
  end.

Definition _is_vsam_from_listcat (name : string) : M W bool :=
  let stdin := " LISTCAT ENTRIES('" ++ PyStr.upper name ++ "')" in
  '(rc, stdout, stderr) <- run_command IDCAMS (Some stdin) ;;
  found <- of_re (PyRe.search PyRe.MULTILINE
                    ("^0CLUSTER[ ]+-+[ ]+" ++ name ++ "[ ]*$") stdout) ;;
  if found then ret true else ret false.

Definition is_vsam (name : string) (volumes : option (list string)) : M W bool :=
  match volumes with
  | Some (v0 :: _) => _is_vsam_from_vtoc name v0
  | _ => _is_vsam_from_listcat name
  end.

(** *** Command text builders *)

Definition _format_jcl_line (s : string) : string :=
  let formatted := PyStr.ljust 71 s in
  let formatted := formatted ++ "X" in
  formatted ++ nl.

Definition _build_volume_string_idcams (volumes : list string) : string :=
  PyStr.join (" -" ++ nl ++ "    ") volumes.

Fixpoint _build_volume_string_iehprogm_from (index len : nat)
  (volumes : list string) : string :=
  match volumes with
  | [] => ""
  | volume :: rest =>
      let single_volume_string :=
        if (index =? 0)%nat
        then "               VOL=3390=(" ++ PyStr.upper volume
        else "               " ++ PyStr.upper volume in
      (if negb (index + 1 =? len)%nat
       then _format_jcl_line (single_volume_string ++ ",")
       else single_volume_string ++ ")" ++ nl)
      ++ _build_volume_string_iehprogm_from (S index) len rest
  end.

Definition _build_volume_string_iehprogm (volumes : list string) : string :=
  _build_volume_string_iehprogm_from 0 (List.length volumes) volumes.

Definition _build_non_vsam_catalog_command (name : string)
  (volumes : list string) : string :=
  let command_part_1 := _format_jcl_line ("    CATLG DSNAME=" ++ name ++ ",") in
  let command_part_2 := _build_volume_string_iehprogm volumes in
  command_part_1 ++ command_part_2.

(** *** Primitive operators *)

Definition opt_str (o : option string) : list pyval :=
  match o with Some s => [VStr s] | None => [] end.
Definition opt_int (o : option Z) : list pyval :=
  match o with Some z => [VInt z] | None => [] end.
Definition opt_bool (o : option bool) : list pyval :=
  match o with Some b => [VBool b] | None => [] end.
Definition keyed (k : string) (v : list pyval) : list (string * pyval) :=
  map (fun x => (k, x)) v.

(** The renamed keyword arguments, [None] values left out, in the
    order of the dictionary. *)
Definition _build_zoau_args (a : create_args) : list (string * pyval) :=
  let with_unit (o : option Z) : option string :=
    match o with
    | Some z =>
        Some (PyStr.of_Z z ++ match space_type a with
                              | Some u => if nonempty u then u else ""
                              | None => ""
                              end)
    | None => None
    end in
  let primary := with_unit (space_primary a) in
  let secondary := with_unit (space_secondary a) in
  let type' := if String.eqb (type a) "ZFS" then "LDS" else type a in
  let volumes' :=
    if truthy (volumes a)
    then option_map (PyStr.join ",") (volumes a)
    else None in
  (keyed "name" [VStr (name a)]
  ++ keyed "type" [VStr type']
  ++ keyed "primary_space" (opt_str primary)
  ++ keyed "secondary_space" (opt_str secondary)
  ++ keyed "record_format" (opt_str (record_format a))
  ++ keyed "record_length" (opt_int (record_length a))
  ++ keyed "block_size" (opt_int (block_size a))
  ++ keyed "directory_blocks" (opt_int (directory_blocks a))
  ++ keyed "key_length" (opt_int (key_length a))
  ++ keyed "key_offset" (opt_int (key_offset a))
  ++ keyed "storage_class_name" (opt_str (sms_storage_class a))
  ++ keyed "data_class_name" (opt_str (sms_data_class a))
  ++ keyed "management_class_name" (opt_str (sms_management_class a))
  ++ keyed "volumes" (opt_str volumes')
  ++ keyed "tmp_hlq" (opt_str (tmp_hlq a))
  ++ keyed "force" (opt_bool (force a)))%list.

Definition create (a : create_args) : M W Z :=
  let formatted_args := _build_zoau_args a in
  response <- datasets_create formatted_args ;;
  if (rc response >? 0)%Z
  then raise (mkDatasetCreateError (name a) (rc response)
                (stdout_response response ++ stderr_response response))
  else ret (rc response).

Definition delete (name : string) : M W unit :=
  rc <- datasets_delete name ;;
  if (rc >? 0)%Z
  then raise (mkDatasetDeleteError name rc)
  else ret tt.

Definition _catalog_non_vsam (name : string) (volumes : list string) : M W unit :=
  let iehprogm_input :=
    _build_non_vsam_catalog_command (PyStr.upper name) volumes in
  '(rc, stdout, stderr) <- run_command IEHPROGM (Some iehprogm_input) ;;
  if negb (rc =? 0)%Z || negb (PyStr.contains NORMAL_END stdout)
  then raise (mkDatasetCatalogError name volumes (PyStr.of_Z rc) "")
  else ret tt.

Definition entry_truthy (e : option entry) : bool :=
  match e with
  | Some (_ :: _) => true
  | _ => false
  end.

Definition _catalog_vsam (name : string) (volumes : list string) : M W unit :=
  let data_set_name := PyStr.upper name in
  match volumes with
  | [] => raise IndexError
  | v0 :: _ =>
      ds_vtoc_data_entry <- vtoc_get_data_set_entry (name ++ ".DATA") v0 ;;
      ds_vtoc_index_entry <- vtoc_get_data_set_entry (name ++ ".INDEX") v0 ;;
      let data_set_type_vsam :=
        if entry_truthy ds_vtoc_data_entry && entry_truthy ds_vtoc_index_entry
        then "INDEXED"
        else "NONINDEXED" in
      let command :=
        if negb (String.eqb data_set_type_vsam "INDEXED")
        then _VSAM_CATALOG_COMMAND_NOT_INDEXED data_set_name
               (_build_volume_string_idcams volumes) data_set_type_vsam
        else _VSAM_CATALOG_COMMAND_INDEXED data_set_name
               (_build_volume_string_idcams volumes) data_set_type_vsam in
      '(command_rc, stdout, stderr) <- run_command IDCAMS (Some command) ;;
      let success := (command_rc =? 0)%Z in
      '(success, command_rc) <-
        (if negb success
         then
           let command :=
             _VSAM_CATALOG_COMMAND_NOT_INDEXED data_set_name
               (_build_volume_string_idcams volumes) "LINEAR" in
           '(command_rc, stdout, stderr) <- run_command IDCAMS (Some command) ;;
           ret ((command_rc =? 0)%Z, command_rc)
         else ret (success, command_rc)) ;;
      if negb success
      then raise (mkDatasetCatalogError name volumes (PyStr.of_Z command_rc)
                    "Attempt to catalog VSAM data set failed.")
      else ret tt
  end.

Definition catalog (name : string) (volumes : list string) : M W unit :=
  vsam <- is_vsam name (Some volumes) ;;
  if vsam
  then _catalog_vsam name volumes
  else _catalog_non_vsam name volumes.

Definition temp_name (hlq : string) : M W string :=
  hlq <- (if negb (nonempty hlq) then datasets_hlq else ret hlq) ;;
  datasets_tmp_name hlq.

Definition create_temp (hlq : string) : M W string :=
  temp_name <- temp_name hlq ;;
  create (CreateArgs temp_name "SEQ" (Some 5%Z) (Some 5%Z) (Some "M")
            (Some "FB") (Some 80%Z) None None None None None None None
            None None None) ;;
  ret temp_name.

Definition write (name contents : string) : M W unit :=
  temp <- named_temporary_file ;;
  file_write temp contents ;;
  '(rc, stdout, stderr) <-
    run_command ("cp -O u " ++ temp ++ " " ++ dq ++ "//'" ++ name ++ "'" ++ dq)
      None ;;
  if negb (rc =? 0)%Z
  then raise (mkDatasetWriteError name rc "")
  else ret tt.

(** [name.split(".")[0]] *)
Definition first_qualifier (name : string) : string :=
  hd "" (PyStr.split "." name).

(** The [try] body of [_uncatalog_non_vsam] once [temp_name] is bound. *)
Definition _uncatalog_non_vsam_body (name temp_name : string) : M W unit :=
  let iehprogm_input := _NON_VSAM_UNCATALOG_COMMAND name in
  write temp_name iehprogm_input ;;
  '(rc, stdout, stderr) <-
    run_command ("mvscmdauth --pgm=iehprogm --sysprint=* --sysin=" ++ temp_name)
      None ;;
  if negb (rc =? 0)%Z || negb (PyStr.contains NORMAL_END stdout)
  then raise (mkDatasetUncatalogError name rc)
  else ret tt.

(** [temp_name] is [None] until [create_temp] returns: when that call
    raises, the [finally] clause finds nothing to delete. *)
Definition _uncatalog_non_vsam (name : string) : M W unit :=
  fun s =>
    match create_temp (first_qualifier name) s with
    | (Raise e, s') => (Raise e, s')
    | (Ok temp_name, s') =>
        try_finally
          (_uncatalog_non_vsam_body name temp_name)
          (if nonempty temp_name
           then (datasets_delete temp_name ;; ret tt)
           else ret tt)
          s'
    end.

Definition _uncatalog_vsam (name : string) : M W unit :=
  let idcams_input := _VSAM_UNCATALOG_COMMAND name in
  '(rc, stdout, stderr) <- run_command IDCAMS (Some idcams_input) ;;
  if negb (rc =? 0)%Z
  then raise (mkDatasetUncatalogError name rc)
  else ret tt.

Definition uncatalog (name : string) : M W unit :=
  vsam <- is_vsam name None ;;
  if vsam
  then _uncatalog_vsam name
  else _uncatalog_non_vsam name.

Definition replace (a : create_args) : M W unit :=
  delete (name a) ;;
  create a ;;
  ret tt.

Definition format_zfs (name : string) : M W unit :=
  '(rc, stdout, stderr) <-
    run_command ("zfsadm format -aggregate " ++ name) None ;;
  if negb (rc =? 0)%Z
  then raise (mkDatasetFormatError name rc (stdout ++ " " ++ stderr))
  else ret tt.

(** *** The reconciliation engine *)

Definition attempt_catalog_if_necessary (name : string)
  (volumes : option (list string)) : M W (bool * bool) :=
  let changed := false in
  let present := false in
  cataloged <- data_set_cataloged name None ;;
  if cataloged then
    let present := true in
    ret (present, changed)
  else
    match volumes with
    | Some vols =>
        errors <- try_except (catalog name vols ;; ret false)
                    is_DatasetCatalogError (fun _ => ret true) ;;
        if negb errors then
          let changed := true in
          let present := true in
          ret (present, changed)
        else ret (present, changed)
    | None => ret (present, changed)
    end.

(** [try: catalog(name, volumes)  except DatasetCatalogError: pass] *)
Definition catalog_or_pass (name : string) (volumes : list string) : M W unit :=
  try_except (catalog name volumes) is_DatasetCatalogError (fun _ => ret tt).

Definition attempt_catalog_if_necessary_and_delete (name : string)
  (volumes : option (list string)) : M W (bool * bool) :=
  let changed := false in
  let present := true in
  match volumes with
  | Some (v :: vs) =>
      let volumes := v :: vs in
      (* Check if the data set is cataloged *)
      present <- data_set_cataloged name None ;;
      if present then
        (* cataloged: is it cataloged on the provided volumes? *)
        present <- data_set_cataloged name (Some volumes) ;;
        if present then
          delete name ;;
          let changed := true in
          let present := false in
          ret (changed, present)
        else
          cataloged_volume_list_original <- data_set_cataloged_volume_list name ;;
          failed <- try_except (uncatalog name ;; ret false)
                      is_DatasetUncatalogError (fun _ => ret true) ;;
          if failed then ret (changed, present) else
          (* Catalog the data set for the provided volumes *)
          failed <- try_except (catalog name volumes ;; ret false)
                      is_DatasetCatalogError
                      (fun _ =>
                         (* recatalog the original on the original volumes *)
                         catalog_or_pass name cataloged_volume_list_original ;;
                         ret true) ;;
          if failed then ret (changed, present) else
          (* Check the recatalog before trying to remove *)
          present <- data_set_cataloged name (Some volumes) ;;
          if present then
            failed <- try_except (delete name ;; ret false)
                        is_DatasetDeleteError
                        (fun _ =>
                           try_except (uncatalog name)
                             is_DatasetUncatalogError
                             (fun _ =>
                                catalog_or_pass name
                                  cataloged_volume_list_original) ;;
                           ret true) ;;
            if failed then ret (changed, present) else
            try_except
              (catalog name cataloged_volume_list_original ;;
               let changed := true in
               let present := false in
               ret (changed, present))
              is_DatasetCatalogError
              (fun _ =>
                 let changed := true in
                 let present := false in
                 ret (changed, present))
          else ret (changed, present)
      else
        failed <- try_except (catalog name volumes ;; ret false)
                    is_DatasetCatalogError (fun _ => ret true) ;;
        if failed then ret (changed, present) else
        present <- data_set_cataloged name (Some volumes) ;;
        if present then
          delete name ;;
          let changed := true in
          let present := false in
          ret (changed, present)
        else ret (changed, present)
  | _ =>
      present <- data_set_cataloged name None ;;
      if present then
        try_except
          (delete name ;;
           let changed := true in
           let present := false in
           ret (changed, present))
          is_DatasetDeleteError
          (fun _ => ret (changed, present))
      else ret (changed, present)
  end.

(** [a] holds the arguments other than the [replace] flag. *)
Definition ensure_present (a : create_args) (replace' : bool) : M W bool :=
  let present := false in
  let changed := false in
  cataloged <- data_set_cataloged (name a) None ;;
  let present := if cataloged then true else present in
  '(present, changed) <-
    (if negb present then
       try_except (create a ;; ret (present, changed))
         is_DatasetCreateError
         (fun e =>
            let raise_error := true in
            (* data set exists on volume *)
            '(present, changed, raise_error) <-
              (if PyStr.contains "Error Code: 0x4704" (exn_msg e) then
                 '(present, changed) <-
                   attempt_catalog_if_necessary (name a) (volumes a) ;;
                 if present && changed
                 then ret (present, changed, false)
                 else ret (present, changed, raise_error)
               else ret (present, changed, raise_error)) ;;
            if raise_error then raise e else ret (present, changed))
     else ret (present, changed)) ;;
  if present && negb replace' then ret changed else
  (if present then replace a else ret tt) ;;
  (if String.eqb (PyStr.upper (type a)) "ZFS"
   then format_zfs (name a)
   else ret tt) ;;
  ret true.

Definition ensure_absent (name : string) (volumes : option (list string))
  : M W bool :=
  '(changed, present) <- attempt_catalog_if_necessary_and_delete name volumes ;;
  ret changed.

(** [volumes] is a list here: the module's validator refuses
    [state=cataloged] without volumes. *)
Definition ensure_cataloged (name : string) (volumes : list string) : M W bool :=
  cataloged <- data_set_cataloged name None ;;
  if cataloged then ret false else
  try_except (catalog name volumes)
    is_DatasetCatalogError
    (fun _ => raise (mkDatasetCatalogError name volumes "-1"
                       "Data set was not found. Unable to catalog.")) ;;
  ret true.

Definition ensure_uncataloged (name : string) : M W bool :=
  cataloged <- data_set_cataloged name None ;;
  if cataloged then
    uncatalog name ;;
    ret true
  else ret false.
End WithHost.
End DataSet.

(* ===================================================================== *)
(** ** [plugins/modules/zos_data_set.py]: argument validators *)
(* ===================================================================== *)

Module ZosDataSet.

(** The [dependencies] dictionary handed to a validator; a key that is
    missing and a key bound to [None] read the same through [.get]. *)
Record dependencies : Type := Dependencies {
  dep_batch : option (list (list (string * pyval)));
  dep_state : option string;
  dep_type : option string;
  dep_tmp_hlq : option string;
  dep_record_format : option string
}.

Definition DEFAULT_RECORD_LENGTHS : list (string * Z) :=
  [("FB", 80%Z); ("FBA", 80%Z); ("VB", 137%Z); ("VBA", 137%Z); ("U", 0%Z)].

(** [d.get(key, None)] where [key] itself may be [None]. *)
Fixpoint dict_get (d : list (string * Z)) (key : option string) : option Z :=
  match key, d with
  | Some k, (k', v) :: t => if String.eqb k' k then Some v else dict_get t key
  | _, _ => None
  end.

Definition opt_is (o : option string) (s : string) : bool :=
  match o with
  | Some x => String.eqb x s
  | None => false
  end.

Definition DATA_SET_NAME_PATTERN : string :=
  "^(?:(?:[A-Z$#@]{1}[A-Z0-9$#@-]{0,7})(?:[.]{1})){1,21}[A-Z$#@]{1}[A-Z0-9$#@-]{0,7}$".

Definition DATA_SET_MEMBER_PATTERN : string :=
  "^(?:(?:[A-Z$#@]{1}[A-Z0-9$#@-]{0,7})(?:[.]{1})){1,21}[A-Z$#@]{1}[A-Z0-9$#@-]{0,7}(?:\([A-Z$#@]{1}[A-Z0-9$#@]{0,7}\)){0,1}$".

Definition invalid_data_set_name (dsname : string) : exn :=
  ValueError ("Value " ++ dsname ++ " is invalid for data set argument.").

Section WithHost.
Context {W : Type} {H : Host W}.

Definition data_set_name (contents : option string) (deps : dependencies)
  : M W (option string) :=
  if truthy (dep_batch deps) then ret None else
  contents <-
    match contents with
    | Some c => ret c
    | None =>
        if negb (opt_is (dep_state deps) "present") then
          raise (ValueError ("Data set name must be provided when "
                             ++ dq ++ "state!=present" ++ dq))
        else if negb (opt_is (dep_type deps) "MEMBER") then
          let tmphlq := match dep_tmp_hlq deps with
                        | Some h => h
                        | None => ""
                        end in
          DataSet.temp_name tmphlq
        else
          raise (ValueError ("Data set and member name must be provided when "
                             ++ dq ++ "type=MEMBER" ++ dq))
    end ;;
  let dsname := contents in
  plain <- of_re (PyRe.fullmatch PyRe.IGNORECASE DATA_SET_NAME_PATTERN dsname) ;;
  if negb plain then
    member <- of_re (PyRe.fullmatch PyRe.IGNORECASE
                       DATA_SET_MEMBER_PATTERN dsname) ;;
    if negb (member && opt_is (dep_type deps) "MEMBER")
    then raise (invalid_data_set_name dsname)
    else ret (Some (PyStr.upper dsname))
  else ret (Some (PyStr.upper dsname)).
End WithHost.

(** [contents] is an integer or [None]: the module declares the
    option with [type="int"], so [int(contents)] leaves it as it is. *)
Definition record_length (contents : option Z) (deps : dependencies)
  : result (option Z) :=
  if opt_is (dep_state deps) "absent" then Ok None else
  let contents :=
    match contents with
    | None => dict_get DEFAULT_RECORD_LENGTHS (dep_record_format deps)
    | Some c => Some c
    end in
  match contents with
  | None => Ok None
  | Some c =>
      match PyRe.fullmatch PyRe.NOFLAGS "[0-9]*" (PyStr.of_Z c) with
      | None => Raise ReError
      | Some digits =>
          if negb digits || ((c <? 0)%Z || (c >? 32768)%Z)
          then Raise (ValueError
                        ("Value " ++ PyStr.of_Z c
                         ++ " is invalid for record_length argument. record_length must be between 0 and 32768 bytes."))
          else Ok (Some c)
      end
  end.

End ZosDataSet.

(* ===================================================================== *)
(** ** A scripted host *)
(* ===================================================================== *)

(** A host that answers from a script, one reply per call, the way a
    test double with a list of canned answers does.  It serves to run
    the model on concrete scenarios. *)
Module Scripted.

Inductive reply : Type :=
| CommandReply (rc : Z) (stdout stderr : string)
| CreateReply (r : response)
| CodeReply (rc : Z)
| TextReply (s : string)
| EntriesReply (l : list entry)
| EntryReply (e : option entry).

Definition script : Type := list reply.

Definition next (sc : script) : option reply * script :=
  match sc with
  | [] => (None, [])
  | r :: t => (Some r, t)
  end.

(** Modelled from the spec: the [vtoc] module is not among the sources
    at hand; the specification has the core search the entries of a
    volume for a named entry, and an entry expose its name.  The first
    entry whose [data_set_name] is the name sought stands for
    [find_data_set_in_volume_output]. *)
Definition find_entry (name : string) (data_sets : list entry) : option entry :=
  List.find (fun e => String.eqb (entry_get "data_set_name" "" e) name) data_sets.

#[export] Instance scripted_host : Host script := {
  host_run_command _ _ sc :=
    match next sc with
    | (Some (CommandReply rc out err), t) => ((rc, out, err), t)
    | (_, t) => ((16%Z, "", ""), t)
    end;
  host_datasets_create _ sc :=
    match next sc with
    | (Some (CreateReply r), t) => (r, t)
    | (_, t) => (Response 16 "" "", t)
    end;
  host_datasets_delete _ sc :=
    match next sc with
    | (Some (CodeReply rc), t) => (rc, t)
    | (_, t) => (16%Z, t)
    end;
  host_datasets_hlq sc :=
    match next sc with
    | (Some (TextReply s), t) => (s, t)
    | (_, t) => ("", t)
    end;
  host_datasets_tmp_name _ sc :=
    match next sc with
    | (Some (TextReply s), t) => (s, t)
    | (_, t) => ("", t)
    end;
  host_vtoc_get_volume_entry _ sc :=
    match next sc with
    | (Some (EntriesReply l), t) => (l, t)
    | (_, t) => ([], t)
    end;
  host_vtoc_get_data_set_entry _ _ sc :=
    match next sc with
    | (Some (EntryReply e), t) => (e, t)
    | (_, t) => (None, t)
    end;
  vtoc_find_data_set_in_volume_output := find_entry;
  host_named_temporary_file sc :=
    match next sc with
    | (Some (TextReply s), t) => (s, t)
    | (_, t) => ("/tmp/tmp", t)
    end;
  host_file_write _ _ sc := sc
}.

(** A fresh run over a script. *)
Definition start (sc : script) : st script := St sc [].

End Scripted.

(* ===================================================================== *)
(** ** Scenarios and vocabulary for the properties *)
(* ===================================================================== *)

(** The calls that run a system command (the catalog facility among
    them), counted in a journal. *)
Definition is_run_command (c : call) : bool :=
  match c with RunCommand _ _ => true | _ => false end.

Definition facility_invocations (journal : list call) : nat :=
  List.length (filter is_run_command journal).

(** What a run added to the journal. *)
Definition added {W} (before after : st W) : list call :=
  skipn (List.length (calls before)) (calls after).

(** The two command texts of [_catalog_vsam]: the one chosen from the
    volume table, and the last resort. *)
Definition first_attempt_command (name : string) (volumes : list string)
  (data_entry index_entry : option entry) : string :=
  if DataSet.entry_truthy data_entry && DataSet.entry_truthy index_entry
  then DataSet._VSAM_CATALOG_COMMAND_INDEXED (PyStr.upper name)
         (DataSet._build_volume_string_idcams volumes) "INDEXED"
  else DataSet._VSAM_CATALOG_COMMAND_NOT_INDEXED (PyStr.upper name)
         (DataSet._build_volume_string_idcams volumes) "NONINDEXED".

Definition linear_command (name : string) (volumes : list string) : string :=
  DataSet._VSAM_CATALOG_COMMAND_NOT_INDEXED (PyStr.upper name)
    (DataSet._build_volume_string_idcams volumes) "LINEAR".

Definition listcat_command (name : string) : string :=
  " LISTCAT ENTRIES('" ++ PyStr.upper name ++ "')".

(** The pattern that [data_set_volume] and [DataSetUtils] read as
    "not found" in a catalog listing. *)
Definition NOT_FOUND_PATTERN : string := "NOT FOUND|NOT LISTED".

Definition NOT_FOUND_CANNOT_CATALOG : string :=
  "Data set was not found. Unable to catalog.".

(** Host answers as the facilities print them. *)
Module Scenario.
Import Scripted.

Definition listcat_found (name : string) : string :=
  " IDCAMS  SYSTEM SERVICES" ++ nl
  ++ "0NONVSAM ------- " ++ name ++ nl
  ++ "     IN-CAT --- CATALOG.MASTER" ++ nl.

Definition listcat_volumes (name volume : string) : string :=
  listcat_found name
  ++ "   VOLUMES" ++ nl
  ++ "     VOLSER------------" ++ volume
  ++ "     DEVTYPE------X'3010200F'" ++ nl.

Definition listcat_missing (name : string) : string :=
  " IDCAMS  SYSTEM SERVICES" ++ nl
  ++ "IDC3012I ENTRY " ++ name ++ " NOT FOUND" ++ nl
  ++ "IDC1566I ** " ++ name ++ " NOT LISTED" ++ nl.

Definition found (name : string) : reply := CommandReply 0 (listcat_found name) "".
Definition on_volume (name volume : string) : reply :=
  CommandReply 0 (listcat_volumes name volume) "".
Definition missing (name : string) : reply :=
  CommandReply 4 (listcat_missing name) "".
Definition normal_end : reply :=
  CommandReply 0 (" SYSTEM SUPPORT UTILITIES ---- IEHPROGM" ++ nl
                  ++ " NORMAL END OF TASK RETURNED" ++ nl) "".
Definition sequential (name : string) : reply :=
  EntriesReply [[("data_set_name", name); ("data_set_organization", "PS")]].

(** The non-VSAM uncatalog helper going well: VSAM probe, scratch data
    set named and created, command written and copied, IEHPROGM run,
    scratch data set deleted. *)
Definition uncatalog_ok (name scratch : string) : script :=
  [ found name; TextReply scratch; CreateReply (Response 0 "" "");
    TextReply "/tmp/tmpq1w2e3"; CommandReply 0 "" ""; normal_end; CodeReply 0 ].

(** USER.DATA is cataloged on VOLA and also lies, uncataloged, on VOLB;
    the caller asks for its removal from VOLB. *)
Definition divergence_before_recatalog : script :=
  ([ found "USER.DATA";
     found "USER.DATA"; on_volume "USER.DATA" "VOLA";
     on_volume "USER.DATA" "VOLA" ]
   ++ uncatalog_ok "USER.DATA" "USER.T0000001.SCRATCH"
   ++ [ sequential "USER.DATA"; normal_end;
        found "USER.DATA"; on_volume "USER.DATA" "VOLB";
        CodeReply 0;
        sequential "USER.DATA" ])%list.

Definition divergence : script :=
  (divergence_before_recatalog ++ [normal_end])%list.

(** The same, but the last recatalog on VOLA is refused. *)
Definition divergence_recatalog_refused : script :=
  (divergence_before_recatalog ++ [CommandReply 8 "" ""])%list.

(** USER.NOPE never existed. *)
Definition never_existed : script := [ missing "USER.NOPE" ].

(** USER.DATA is cataloged, gets deleted, and is looked up again. *)
Definition removed_then_looked_up : script :=
  [ found "USER.DATA"; CodeReply 0; missing "USER.DATA" ].

(** USER.DATA is cataloged on VOLA only. *)
Definition cataloged_on_vola : script :=
  [ found "USER.DATA"; on_volume "USER.DATA" "VOLA" ].

(** The catalog facility fails outright, naming no missing entry. *)
Definition facility_failure : script :=
  [ CommandReply 12 ("IDC3009I ** VSAM CATALOG RETURN CODE IS 8" ++ nl) "" ].

(** USER.DATA is not cataloged and cannot be cataloged from VOLB. *)
Definition cannot_catalog : script :=
  [ missing "USER.DATA"; sequential "USER.DATA"; CommandReply 8 "" "" ].

(** A VSAM cluster whose every recatalog attempt is refused. *)
Definition vsam_refused : script :=
  [ EntryReply None; EntryReply None;
    CommandReply 12 "" ""; CommandReply 12 "" "" ].

(** USER.DATA lies uncataloged on VOLB: creation reports that it exists
    on the volume, cataloging it from VOLB goes well, and the deletion
    that [replace] starts with is refused. *)
Definition exists_on_volume : response :=
  Response 8 ("BGYSC1506E Allocation failed. Error Code: 0x4704" ++ nl) "".

Definition recovered : script :=
  [ missing "USER.DATA"; CreateReply exists_on_volume;
    missing "USER.DATA"; sequential "USER.DATA"; normal_end ].

Definition recovered_then_delete_refused : script :=
  (recovered ++ [CodeReply 8])%list.

Definition user_data (volumes : option (list string)) : create_args :=
  CreateArgs "USER.DATA" "SEQ" None None None None None None None None None
    None None None volumes None None.

(** The scratch data set of the uncatalog helper, with an IEHPROGM run
    that ends with return code 8. *)
Definition scratch_created : script :=
  [ TextReply "USER.T0000001.SCRATCH"; CreateReply (Response 0 "" "") ].
Definition uncatalog_refused : script :=
  (scratch_created
   ++ [ TextReply "/tmp/tmpq1w2e3"; CommandReply 0 "" "";
        CommandReply 8 "" ""; CodeReply 0 ])%list.

(** The dependencies of the name validator for a sequential data set
    and for a member, both with [state=present]. *)
Definition sequential_present : ZosDataSet.dependencies :=
  ZosDataSet.Dependencies None (Some "present") (Some "SEQ") None None.
Definition member_present : ZosDataSet.dependencies :=
  ZosDataSet.Dependencies None (Some "present") (Some "MEMBER") None None.

End Scenario.

(* ===================================================================== *)
(** ** Data set names, structurally *)
(* ===================================================================== *)

(** What the two patterns of [data_set_name] accept, said without
    regular expressions: qualifiers separated by dots, and an optional
    member in parentheses. *)
Module NameRules.

Definition national (c : ascii) : bool :=
  Ascii.eqb c "$" || Ascii.eqb c "#" || Ascii.eqb c "@".

Definition letter (c : ascii) : bool := PyStr.is_upper c || PyStr.is_lower c.

Definition first_char (c : ascii) : bool := letter c || national c.
Definition later_char (c : ascii) : bool :=
  first_char c || PyRe.is_digit c || Ascii.eqb c "-".
Definition member_char (c : ascii) : bool := first_char c || PyRe.is_digit c.

(** One qualifier: 1 to 8 characters, the first a letter or national. *)
Definition qualifier (q : list ascii) : bool :=
  match q with
  | [] => false
  | c :: t => first_char c && forallb later_char t && (List.length t <=? 7)%nat
  end.

(** A member name: as a qualifier, without the hyphen. *)
Definition member (m : list ascii) : bool :=
  match m with
  | [] => false
  | c :: t => first_char c && forallb member_char t && (List.length t <=? 7)%nat
  end.

(** The pieces of [s] between the occurrences of [sep]. *)
Fixpoint split_on (sep : ascii) (s : list ascii) : list (list ascii) :=
  match s with
  | [] => [[]]
  | c :: t =>
      if Ascii.eqb c sep then [] :: split_on sep t
      else match split_on sep t with
           | piece :: rest => (c :: piece) :: rest
           | [] => [[c]]
           end
  end.

(** [s] cut at the first [sep]: what is before it and, if there is one,
    what is after it. *)
Fixpoint break_at (sep : ascii) (s : list ascii)
  : list ascii * option (list ascii) :=
  match s with
  | [] => ([], None)
  | c :: t =>
      if Ascii.eqb c sep then ([], Some t)
      else let '(before, after) := break_at sep t in (c :: before, after)
  end.

(** Pieces put back in a row, a dot after each. *)
Definition with_dots (pieces : list (list ascii)) : list ascii :=
  concat (map (fun q => (q ++ ["."%char])%list) pieces).

Definition free_of (sep : ascii) (s : list ascii) : bool :=
  forallb (fun c => negb (Ascii.eqb c sep)) s.

(** The qualifiers of a name: the dotted pieces of what comes before
    the member, if any. *)
Definition qualifiers (s : list ascii) : list (list ascii) :=
  split_on "." (fst (break_at "(" s)).

(** 2 to 22 qualifiers, no member. *)
Definition dotted_name (s : list ascii) : bool :=
  let qs := split_on "." s in
  (2 <=? List.length qs)%nat && (List.length qs <=? 22)%nat
  && forallb qualifier qs.

(** A dotted name followed by a member in parentheses. *)
Definition member_name (s : list ascii) : bool :=
  match break_at "(" s with
  | (base, Some rest) =>
      dotted_name base
      && match rev rest with
         | ")"%char :: m => member (rev m)
         | _ => false
         end
  | (_, None) => false
  end.

(** What [data_set_name] lets through. *)
Definition accepted (dsname : string) (deps : ZosDataSet.dependencies) : bool :=
  dotted_name (PyStr.chars dsname)
  || (member_name (PyStr.chars dsname)
      && ZosDataSet.opt_is (ZosDataSet.dep_type deps) "MEMBER").

End NameRules.

(** The format of a name in the words of the specification: dotted
    qualifiers, each 1-8 characters from A-Z, 0-9, the national
    characters and the hyphen, each starting with a letter or national
    character, 1 to 22 qualifiers in all, and an optional member in
    parentheses. *)
Module SpecName.

Definition spec_char (c : ascii) : bool :=
  PyStr.is_upper c || PyRe.is_digit c || NameRules.national c
  || Ascii.eqb c "-".
Definition spec_first (c : ascii) : bool :=
  PyStr.is_upper c || NameRules.national c.

Definition spec_qualifier (q : list ascii) : bool :=
  match q with
  | [] => false
  | c :: t => spec_first c && forallb spec_char t && (List.length q <=? 8)%nat
  end.

Definition spec_member_suffix (after : option (list ascii)) : bool :=
  match after with
  | None => true
  | Some rest =>
      match rev rest with
      | ")"%char :: m => spec_qualifier (rev m)
      | _ => false
      end
  end.

Definition spec_data_set_name (dsname : string) : bool :=
  let '(base, after) := NameRules.break_at "(" (PyStr.chars dsname) in
  let qs := NameRules.split_on "." base in
  (1 <=? List.length qs)%nat && (List.length qs <=? 22)%nat
  && forallb spec_qualifier qs
  && spec_member_suffix after.

End SpecName.

(* ===================================================================== *)
(** ** What a regular expression denotes *)
(* ===================================================================== *)

Module ReLang.
Import PyRe.

(** [n] pieces in a row, each in [P]. *)
Fixpoint power (P : list ascii -> Prop) (n : nat) (x : list ascii) : Prop :=
  match n with
  | O => x = []
  | S k => exists a b, x = (a ++ b)%list /\ P a /\ power P k b
  end.

(** The texts an anchor-free expression matches from end to end. *)
Fixpoint lang (fl : flags) (r : regex) (x : list ascii) : Prop :=
  match r with
  | REps => x = []
  | RSet neg items => exists c, x = [c] /\ xorb neg (in_items fl items c) = true
  | RDot => exists c, x = [c] /\ Ascii.eqb c newline = false
  | RBol => False
  | REol => False
  | RCat a b => exists u v, x = (u ++ v)%list /\ lang fl a u /\ lang fl b v
  | RAlt a b => lang fl a x \/ lang fl b x
  | RRep a lo (Some hi) =>
      exists k, k <= hi - lo /\ power (lang fl a) (lo + k) x
  | RRep a lo None => exists n, lo <= n /\ power (lang fl a) n x
  end.

(** No anchor, and every repetition has an upper bound. *)
Fixpoint bounded (r : regex) : bool :=
  match r with
  | REps | RSet _ _ | RDot => true
  | RBol | REol => false
  | RCat a b | RAlt a b => bounded a && bounded b
  | RRep a _ (Some _) => bounded a
  | RRep _ _ None => false
  end.

(** The character before the position reached after reading [x]. *)
Definition advance (prev : option ascii) (x : list ascii) : option ascii :=
  fold_left (fun _ c => Some c) x prev.

(** The expression before a final [$], along the right spine. *)
Fixpoint before_eol (r : regex) : option regex :=
  match r with
  | RCat a REol => Some a
  | RCat a b => option_map (RCat a) (before_eol b)
  | _ => None
  end.

(** The expression after a leading [^]. *)
Definition after_bol (r : regex) : option regex :=
  match r with
  | RCat RBol b => Some b
  | _ => None
  end.

End ReLang.

(** The two patterns of [data_set_name], piece by piece, as [compile]
    reads them. *)
Module NamePatterns.
Import PyRe.

Definition FIRST : list (ascii * ascii) :=
  [("A", "Z"); ("$", "$"); ("#", "#"); ("@", "@")]%char.
Definition LATER : list (ascii * ascii) :=
  [("A", "Z"); ("0", "9"); ("$", "$"); ("#", "#"); ("@", "@"); ("-", "-")]%char.
Definition MEMBER_LATER : list (ascii * ascii) :=
  [("A", "Z"); ("0", "9"); ("$", "$"); ("#", "#"); ("@", "@")]%char.

Definition re_first : regex := RRep (RSet false FIRST) 1 (Some 1).
Definition re_later : regex := RRep (RSet false LATER) 0 (Some 7).
Definition re_member_later : regex := RRep (RSet false MEMBER_LATER) 0 (Some 7).
Definition re_dot : regex := RRep (lit ".") 1 (Some 1).

(** [[A-Z$#@]{1}[A-Z0-9$#@-]{0,7}] *)
Definition re_qualifier : regex := RCat re_first re_later.
(** a qualifier and its dot *)
Definition re_dotted : regex := RCat re_qualifier re_dot.
Definition re_prefix : regex := RRep re_dotted 1 (Some 21).
(** the member in parentheses *)
Definition re_member : regex :=
  RCat (lit "(") (RCat re_first (RCat re_member_later (lit ")"))).

(** What stands between [^] and [$] in each pattern. *)
Definition re_name_body : regex := RCat re_prefix (RCat re_first re_later).
Definition re_member_body : regex :=
  RCat re_prefix
    (RCat re_first (RCat re_later (RRep re_member 0 (Some 1)))).

End NamePatterns.

(* ===================================================================== *)
(** ** More of [data_set.py] and [zos_data_set.py] *)
(* ===================================================================== *)

(** More of Python's [str] and of [os.path]. *)
Module PyMore.

(** [s.replace(c, "")] for a one-character [c]. *)
Fixpoint remove_char (c : ascii) (s : string) : string :=
  match s with
  | EmptyString => EmptyString
  | String x t =>
      if Ascii.eqb x c then remove_char c t else String x (remove_char c t)
  end.

(** [s.rfind(c)] for a one-character [c]; [None] stands for [-1]. *)
Fixpoint rfind_char (c : ascii) (s : string) : option nat :=
  match s with
  | EmptyString => None
  | String x t =>
      match rfind_char c t with
      | Some i => Some (S i)
      | None => if Ascii.eqb x c then Some 0 else None
      end
  end.

(** The characters of [s] before the first [c]. *)
Fixpoint until_char (c : ascii) (s : string) : string :=
  match s with
  | EmptyString => EmptyString
  | String x t => if Ascii.eqb x c then EmptyString else String x (until_char c t)
  end.

(** [os.path.splitext(p)]: the extension starts at the last dot, when
    that dot comes after the last slash and some character between the
    slash and the dot is not a dot. *)
Definition splitext (p : string) : string * string :=
  let sepIndex := rfind_char "/" p in
  let dotIndex := rfind_char "." p in
  match dotIndex with
  | None => (p, "")
  | Some d =>
      let filenameIndex := match sepIndex with Some i => S i | None => 0 end in
      if (filenameIndex <=? d)%nat
         && existsb (fun x => negb (Ascii.eqb x "."))
              (PyStr.chars (substring filenameIndex (d - filenameIndex) p))
      then (PyStr.take d p, PyStr.drop d p)
      else (p, "")
  end.

End PyMore.

(** More functions of [data_set.py]: those that need no more of the
    host than [Host] provides. *)
Module DataSetRest.

(** [DataSet.get_member_name_from_file] *)
Definition get_member_name_from_file (file_name : string) : string :=
  let member_name := fst (PyMore.splitext file_name) in
  let member_name := substring 0 8 (PyMore.remove_char "." member_name) in
  member_name.

(** [extract_dsname] *)
Definition extract_dsname (data_set : string) : string :=
  PyMore.until_char "(" data_set.

(** [extract_member_name]: [find] answers [-1] when there is no opening
    parenthesis, and the scan then starts at index 0. *)
Definition extract_member_name (data_set : string) : string :=
  let start := PyStr.find "(" data_set in
  let from := match start with Some i => S i | None => 0 end in
  PyMore.until_char ")" (PyStr.drop from data_set).

Section WithHost.
Context {W : Type} {H : Host W}.

(** [DataSet._is_in_vtoc] *)
Definition _is_in_vtoc (name volume : string) : M W bool :=
  (data_sets <- vtoc_get_volume_entry volume ;;
   match vtoc_find_data_set_in_volume_output name data_sets with
   | Some _ => ret true
   | None =>
       let vsam_name := name ++ ".data" in
       match vtoc_find_data_set_in_volume_output vsam_name data_sets with
       | Some _ => ret true
       | None => ret false
       end
   end)%py.

(** [DataSet.data_set_exists] *)
Definition data_set_exists (name : string) (volume : option string) : M W bool :=
  (cataloged <- DataSet.data_set_cataloged name None ;;
   if cataloged then ret true
   else match volume with
        | Some v => _is_in_vtoc name v
        | None => ret false
        end)%py.

End WithHost.

End DataSetRest.

(** More validators of [zos_data_set.py]. *)
Module ZosDataSetRest.
Import ZosDataSet.

Definition DATA_SET_TYPES : list string :=
  ["KSDS"; "ESDS"; "RRDS"; "LDS"; "SEQ"; "PDS"; "PDSE"; "BASIC"; "LARGE";
   "LIBRARY"; "MEMBER"; "HFS"; "ZFS"].

Definition DATA_SET_FORMATS : list string :=
  ["FB"; "VB"; "FBA"; "VBA"; "U"; "F"].

Definition SPACE_TYPE_PATTERN : string := "(M|G|K|TRK|CYL)".
Definition VOLUME_PATTERN : string := "^[A-Z0-9]{1,6}$".

Definition invalid_space_type (contents : string) : exn :=
  ValueError ("Value " ++ contents
              ++ " is invalid for space_type argument. Valid space types are "
              ++ dq ++ "K" ++ dq ++ ", " ++ dq ++ "M" ++ dq ++ ", "
              ++ dq ++ "G" ++ dq ++ ", " ++ dq ++ "TRK" ++ dq ++ " or "
              ++ dq ++ "CYL" ++ dq ++ ".").

Definition invalid_record_format (contents : string) : exn :=
  ValueError ("Value " ++ contents
              ++ " is invalid for format argument. format must be of of the following: "
              ++ PyStr.join ", " DATA_SET_FORMATS ++ ".").

Definition invalid_data_set_type (contents : string) : exn :=
  ValueError ("Value " ++ contents
              ++ " is invalid for type argument. type must be of of the following: "
              ++ PyStr.join ", " DATA_SET_TYPES ++ ".").

Definition invalid_volume (vol : string) : exn :=
  ValueError ("Invalid argument type for " ++ dq ++ vol ++ dq
              ++ ". expected volume name").

Definition invalid_record_length (c : Z) : exn :=
  ValueError ("Value " ++ PyStr.of_Z c
              ++ " is invalid for record_length argument. record_length must be between 0 and 32768 bytes.").

(** A test by [re.fullmatch]: the answer, or [re.error]. *)
Definition matching (r : option bool) (yes no : result (option string))
  : result (option string) :=
  match r with
  | None => Raise ReError
  | Some true => yes
  | Some false => no
  end.

(** [space_type] *)
Definition space_type (contents : option string) (deps : dependencies)
  : result (option string) :=
  if opt_is (dep_state deps) "absent" then Ok None else
  match contents with
  | None => Ok None
  | Some c =>
      matching (PyRe.fullmatch PyRe.IGNORECASE SPACE_TYPE_PATTERN c)
        (Ok (Some c)) (Raise (invalid_space_type c))
  end.

(** [record_format] *)
Definition record_format (contents : option string) (deps : dependencies)
  : result (option string) :=
  if opt_is (dep_state deps) "absent" then Ok None else
  match contents with
  | None => Ok None
  | Some c =>
      let formats := PyStr.join "|" DATA_SET_FORMATS in
      matching (PyRe.fullmatch PyRe.IGNORECASE formats c)
        (Ok (Some (PyStr.upper c))) (Raise (invalid_record_format c))
  end.

(** [data_set_type] *)
Definition data_set_type (contents : option string) (deps : dependencies)
  : result (option string) :=
  match contents with
  | None => Ok (Some "PDS")
  | Some c =>
      let types := PyStr.join "|" DATA_SET_TYPES in
      matching (PyRe.fullmatch PyRe.IGNORECASE types c)
        (Ok (Some (PyStr.upper c))) (Raise (invalid_data_set_type c))
  end.

(** The loop of [volumes]: the first volume that does not match stops
    it; [vol = vol.upper()] rebinds the loop variable only. *)
Fixpoint check_volumes (contents : list string) : result unit :=
  match contents with
  | [] => Ok tt
  | vol :: rest =>
      match PyRe.fullmatch PyRe.IGNORECASE VOLUME_PATTERN vol with
      | None => Raise ReError
      | Some false => Raise (invalid_volume vol)
      | Some true => check_volumes rest
      end
  end.

(** [volumes]: [contents] is [None], one text, or a list of texts. *)
Definition volumes (contents : option (string + list string))
  (deps : dependencies) : result (option (list string)) :=
  match contents with
  | None =>
      if opt_is (dep_state deps) "cataloged"
      then Raise (ValueError "Volume is required when state==cataloged.")
      else Ok None
  | Some given =>
      let contents := match given with
                      | inl one => [one]
                      | inr several => several
                      end in
      match check_volumes contents with
      | Ok _ => Ok (Some contents)
      | Raise e => Raise e
      end
  end.

End ZosDataSetRest.

(** The expressions that [compile] builds from words joined by bars,
    and what the validators accept, said without a pattern. *)
Module Words.
Import PyRe.

Fixpoint word_re (w : list ascii) : regex :=
  match w with
  | [] => REps
  | [c] => lit c
  | c :: t => RCat (lit c) (word_re t)
  end.

Fixpoint any_of (ws : list (list ascii)) : regex :=
  match ws with
  | [] => REps
  | [w] => word_re w
  | w :: t => RAlt (word_re w) (any_of t)
  end.

(** A word of upper-case letters, not empty. *)
Definition upper_word (w : list ascii) : bool :=
  match w with [] => false | _ => forallb PyStr.is_upper w end.

(** [contents], put in upper case, is one of [words]. *)
Definition listed (words : list string) (contents : string) : bool :=
  existsb (String.eqb (PyStr.upper contents)) words.

(** One to six letters or digits. *)
Definition volume_serial (vol : string) : bool :=
  (1 <=? String.length vol)%nat && (String.length vol <=? 6)%nat
  && forallb is_alnum (PyStr.chars vol).

Definition SPACE_TYPES : list string := ["M"; "G"; "K"; "TRK"; "CYL"].

End Words.

(** Vocabulary for the properties of that code. *)
Module Journal.

(** The run from [s] to [s'] only added calls to the journal. *)
Definition grows {W} (s s' : st W) : Prop :=
  exists l, calls s' = (calls s ++ l)%list.

(** [m] only ever adds calls. *)
Definition appends {W A} (m : M W A) : Prop :=
  forall s r s', m s = (r, s') -> grows s s'.

End Journal.

Module ZoauArgs.

(** The keywords that [datasets._create] can be handed, in the order
    [_build_zoau_args] puts them. *)
Definition KEYWORDS : list string :=
  ["name"; "type"; "primary_space"; "secondary_space"; "record_format";
   "record_length"; "block_size"; "directory_blocks"; "key_length";
   "key_offset"; "storage_class_name"; "data_class_name";
   "management_class_name"; "volumes"; "tmp_hlq"; "force"].

(** [d.get(key)] on an ordered dictionary. *)
Fixpoint lookup (key : string) (d : list (string * pyval)) : option pyval :=
  match d with
  | [] => None
  | (k, v) :: t => if String.eqb k key then Some v else lookup key t
  end.

(** [l] is [full] with some elements left out. *)
Fixpoint subsequence (l full : list string) : Prop :=
  match l, full with
  | [], _ => True
  | _ :: _, [] => False
  | x :: l', y :: full' =>
      (x = y /\ subsequence l' full') \/ subsequence l full'
  end.

End ZoauArgs.

(** More answers of the host, for the runs of the properties below. *)
Module MoreScenarios.
Import Scripted Scenario.

(** USER.DATA is cataloged on VOLA; the caller names VOLB; the engine
    has looked the name up, found it off VOLB and recorded VOLA. *)
Definition divergence_recorded : script :=
  [ found "USER.DATA";
    found "USER.DATA"; on_volume "USER.DATA" "VOLA";
    on_volume "USER.DATA" "VOLA" ].

(** The uncatalog helper with an IEHPROGM run that ends with code 8. *)
Definition divergence_uncatalog_refused : script :=
  (divergence_recorded
   ++ [ found "USER.DATA"; TextReply "USER.T0000001.SCRATCH";
        CreateReply (Response 0 "" ""); TextReply "/tmp/tmpq1w2e3";
        CommandReply 0 "" ""; CommandReply 8 "" ""; CodeReply 0 ])%list.

(** The uncatalog helper whose scratch data set cannot be created. *)
Definition divergence_scratch_refused : script :=
  (divergence_recorded
   ++ [ found "USER.DATA"; TextReply "USER.T0000001.SCRATCH";
        CreateReply (Response 8 "" "") ])%list.

Definition divergence_uncataloged : script :=
  (divergence_recorded ++ uncatalog_ok "USER.DATA" "USER.T0000001.SCRATCH")%list.

(** Cataloging on VOLB is refused; cataloging back on VOLA goes well. *)
Definition divergence_catalog_refused : script :=
  (divergence_uncataloged
   ++ [ sequential "USER.DATA"; CommandReply 8 "" "";
        sequential "USER.DATA"; normal_end ])%list.

Definition divergence_moved : script :=
  (divergence_uncataloged ++ [ sequential "USER.DATA"; normal_end ])%list.

(** After the move the catalog still lists VOLA only. *)
Definition divergence_unverified : script :=
  (divergence_moved ++ [ found "USER.DATA"; on_volume "USER.DATA" "VOLA" ])%list.

(** The move is verified, the deletion is refused, and the uncatalog
    that follows goes well. *)
Definition divergence_delete_refused : script :=
  (divergence_moved
   ++ [ found "USER.DATA"; on_volume "USER.DATA" "VOLB"; CodeReply 8 ]
   ++ uncatalog_ok "USER.DATA" "USER.T0000002.SCRATCH")%list.

(** USER.DATA is cataloged and its deletion is refused. *)
Definition delete_refused : script := [ found "USER.DATA"; CodeReply 8 ].

(** USER.DATA is cataloged on VOLB and its deletion is refused. *)
Definition delete_refused_on_volb : script :=
  [ found "USER.DATA"; found "USER.DATA"; on_volume "USER.DATA" "VOLB";
    CodeReply 8 ].

(** USER.DATA is cataloged and gets deleted. *)
Definition removed : script := [ found "USER.DATA"; CodeReply 0 ].

(** USER.DATA is not cataloged and lies on VOLB as a sequential data
    set that IEHPROGM catalogs. *)
Definition cataloged_from_volb : script :=
  [ missing "USER.DATA"; sequential "USER.DATA"; normal_end ].

(** USER.DATA is not cataloged and gets created; or its creation is
    refused for want of space. *)
Definition created : script :=
  [ missing "USER.DATA"; CreateReply (Response 0 "" "") ].
Definition creation_refused : script :=
  [ missing "USER.DATA";
    CreateReply (Response 8 "BGYSC1506E Allocation failed. No space." "") ].

(** A VSAM cluster that the first recatalog attempt catalogs. *)
Definition vsam_cataloged : script :=
  [ EntryReply None; EntryReply None; CommandReply 0 "" "" ].

(** IEHPROGM answers code 0 without its closing line. *)
Definition no_normal_end : script :=
  [ sequential "USER.DATA"; CommandReply 0 " SYSTEM SUPPORT UTILITIES" "" ].

(** The host names a temporary data set under the user's qualifier. *)
Definition temporary_name : script :=
  [ TextReply "USER"; TextReply "USER.T0000001.SCRATCH" ].

Definition present_without_type : ZosDataSet.dependencies :=
  ZosDataSet.Dependencies None (Some "present") None None None.

End MoreScenarios.

Module JclLines.

(** A line of 72 characters whose last one is the continuation mark. *)
Definition continued (line : list ascii) : Prop :=
  List.length line = 72 /\ nth_error line 71 = Some "X"%char.

End JclLines.

(** Sentences of the specification that the code does not bear out, put
    down the way they are written. *)
Module AsWritten.
Section WithHost.
Context {W : Type} {H : Host W}.

(** "Exactly three facility invocations occur in the worst case":
    whenever [_catalog_vsam] ends in a catalog error it has invoked
    the facility three times. *)
Definition three_invocations_before_error (name : string)
  (volumes : list string) (s : st W) : Prop :=
  forall m s',
    DataSet._catalog_vsam name volumes s = (Raise (DatasetCatalogError m), s') ->
    facility_invocations (added s s') = 3.

(** "[ensure_cataloged] is a no-op exactly when the data set is
    already cataloged under the given volumes". *)
Definition noop_exactly_when_cataloged_on_volumes (name : string)
  (volumes : list string) (s : st W) : Prop :=
  fst (DataSet.ensure_cataloged name volumes s) = Ok false
  <-> fst (DataSet.data_set_cataloged name (Some volumes) s) = Ok true.

(** "A non-zero executor return code is surfaced as an execution
    error unless the response text matches a recognized not-found
    pattern, in which case the lookup returns a negative result". *)
Definition nonzero_code_is_an_error (name : string)
  (volumes : option (list string)) (s : st W) : Prop :=
  forall rc out err w,
    host_run_command DataSet.IDCAMS (Some (listcat_command name)) (world s)
      = ((rc, out, err), w) ->
    rc <> 0%Z ->
    match PyRe.search PyRe.NOFLAGS NOT_FOUND_PATTERN out with
    | Some true => fst (DataSet.data_set_cataloged name volumes s) = Ok false
    | _ => exists m,
        fst (DataSet.data_set_cataloged name volumes s)
          = Raise (MVSCmdExecError m)
    end.

(** "If the recovery reports present and changed, no error is raised
    and the object is reported present/changed; otherwise the original
    creation error propagates". *)
Definition recovery_settles_the_outcome (a : create_args) (replace' : bool)
  (s : st W) : Prop :=
  forall s1 m s2 present changed s3,
    DataSet.data_set_cataloged (name a) None s = (Ok false, s1) ->
    DataSet.create a s1 = (Raise (DatasetCreateError m), s2) ->
    PyStr.contains "Error Code: 0x4704" m = true ->
    DataSet.attempt_catalog_if_necessary (name a) (volumes a) s2
      = (Ok (present, changed), s3) ->
    fst (DataSet.ensure_present a replace' s)
      = if present && changed then Ok true else Raise (DatasetCreateError m).

(** "The data set name validator accepts exactly the names made of
    dotted qualifiers ... 1 to 22 qualifiers total, with an optional
    parenthesized member suffix". *)
Definition accepts_exactly_the_specified_names (dsname : string)
  (deps : ZosDataSet.dependencies) (s : st W) : Prop :=
  (exists validated,
      fst (ZosDataSet.data_set_name (Some dsname) deps s) = Ok validated)
  <-> SpecName.spec_data_set_name dsname = true.
End WithHost.
End AsWritten.

(* ===================================================================== *)
(** ** The matcher computes the denotation *)
(* ===================================================================== *)

Module ReFacts.
Import PyRe ReLang.

Lemma advance_app (prev : option ascii) (x y : list ascii) :
  advance prev (x ++ y) = advance (advance prev x) y.
Proof. unfold advance. apply fold_left_app. Qed.

Lemma power_app (P : list ascii -> Prop) (m n : nat) (x y : list ascii) :
  power P m x -> power P n y -> power P (m + n) (x ++ y).
Proof.
  revert x. induction m as [|m IH]; intros x Hx Hy; cbn in *.
  - subst x. exact Hy.
  - destruct Hx as (a & b & -> & Ha & Hb).
    exists a, (b ++ y)%list. rewrite app_assoc. auto.
Qed.

Lemma power_split (P : list ascii -> Prop) (m n : nat) (z : list ascii) :
  power P (m + n) z ->
  exists x y, z = (x ++ y)%list /\ power P m x /\ power P n y.
Proof.
  revert z. induction m as [|m IH]; intros z Hz; cbn in *.
  - exists [], z. auto.
  - destruct Hz as (a & b & -> & Ha & Hb).
    destruct (IH _ Hb) as (x & y & -> & Hx & Hy).
    exists (a ++ x)%list, y. rewrite app_assoc. split; [reflexivity|].
    split; [exists a, x; auto | exact Hy].
Qed.

Lemma power_iff (P Q : list ascii -> Prop) :
  (forall x, P x <-> Q x) -> forall n x, power P n x <-> power Q n x.
Proof.
  intros HPQ n. induction n as [|n IH]; intros x; cbn; [tauto|].
  split; intros (a & b & -> & Ha & Hb); exists a, b;
    (split; [reflexivity | split; [apply HPQ; exact Ha | apply IH; exact Hb]]).
Qed.

Section Steps.
Variable step : pos -> list pos.
Variable P : list ascii -> Prop.

(** [step] reads exactly the texts of [P]. *)
Definition reads : Prop :=
  forall prev s q,
    In q (step (prev, s))
    <-> exists x rest, s = (x ++ rest)%list /\ P x /\ q = (advance prev x, rest).

Hypothesis Hstep : reads.

Lemma iter_exact_reads (n : nat) (prev : option ascii) (s : list ascii)
  (q : pos) :
  In q (iter_exact step n (prev, s))
  <-> exists x rest,
      s = (x ++ rest)%list /\ power P n x /\ q = (advance prev x, rest).
Proof.
  revert prev s. induction n as [|n IH]; intros prev s; cbn [iter_exact power].
  - split.
    + intros [<- | []]. exists [], s. auto.
    + intros (x & rest & -> & -> & ->). left. reflexivity.
  - rewrite in_flat_map. split.
    + intros ([prev' s'] & Hin & Hq).
      apply Hstep in Hin. destruct Hin as (a & rest1 & -> & Ha & E).
      inversion E; subst; clear E.
      apply IH in Hq. destruct Hq as (b & rest & -> & Hb & ->).
      exists (a ++ b)%list, rest. rewrite <- app_assoc, advance_app.
      split; [reflexivity|]. split; [exists a, b; auto | reflexivity].
    + intros (x & rest & -> & (a & b & -> & Ha & Hb) & ->).
      exists (advance prev a, (b ++ rest)%list). split.
      * apply Hstep. exists a, (b ++ rest)%list.
        rewrite app_assoc. auto.
      * apply IH. exists b, rest. rewrite advance_app. auto.
Qed.

Lemma iter_upto_reads (n : nat) (prev : option ascii) (s : list ascii)
  (q : pos) :
  In q (iter_upto step n (prev, s))
  <-> exists k x rest,
      k <= n /\ s = (x ++ rest)%list /\ power P k x
      /\ q = (advance prev x, rest).
Proof.
  revert prev s. induction n as [|n IH]; intros prev s; cbn [iter_upto].
  - split.
    + intros [<- | []]. exists 0, [], s. cbn. auto.
    + intros (k & x & rest & Hk & -> & Hx & ->).
      assert (k = 0) by lia. subst k. cbn in Hx. subst x. left. reflexivity.
  - cbn [In]. rewrite in_flat_map. split.
    + intros [<- | ([prev' s'] & Hin & Hq)].
      * exists 0, [], s. cbn. repeat split; auto; lia.
      * apply Hstep in Hin. destruct Hin as (a & rest1 & -> & Ha & E).
        inversion E; subst; clear E.
        apply IH in Hq. destruct Hq as (k & b & rest & Hk & -> & Hb & ->).
        exists (S k), (a ++ b)%list, rest.
        rewrite <- app_assoc, advance_app.
        split; [lia|]. split; [reflexivity|].
        split; [exists a, b; auto | reflexivity].
    + intros (k & x & rest & Hk & -> & Hx & ->).
      destruct k as [|k]; cbn in Hx.
      * subst x. left. reflexivity.
      * right. destruct Hx as (a & b & -> & Ha & Hb).
        exists (advance prev a, (b ++ rest)%list). split.
        -- apply Hstep. exists a, (b ++ rest)%list.
           rewrite app_assoc. auto.
        -- apply IH. exists k, b, rest. rewrite advance_app.
           repeat split; auto; lia.
Qed.

Lemma repeat_reads (lo hi : nat) (prev : option ascii) (s : list ascii)
  (q : pos) :
  In q (repeat step lo (Some hi) (prev, s))
  <-> exists x rest,
      s = (x ++ rest)%list
      /\ (exists k, k <= hi - lo /\ power P (lo + k) x)
      /\ q = (advance prev x, rest).
Proof.
  unfold repeat. rewrite in_flat_map. split.
  - intros ([prev' s'] & Hin & Hq).
    apply iter_exact_reads in Hin. destruct Hin as (a & rest1 & -> & Ha & E).
    inversion E; subst; clear E.
    apply iter_upto_reads in Hq.
    destruct Hq as (k & b & rest & Hk & -> & Hb & ->).
    exists (a ++ b)%list, rest. rewrite <- app_assoc, advance_app.
    split; [reflexivity|]. split; [|reflexivity].
    exists k. split; [exact Hk | apply power_app; assumption].
  - intros (x & rest & -> & (k & Hk & Hx) & ->).
    apply power_split in Hx. destruct Hx as (a & b & -> & Ha & Hb).
    exists (advance prev a, (b ++ rest)%list). split.
    + apply iter_exact_reads. exists a, (b ++ rest)%list.
      rewrite app_assoc. auto.
    + apply iter_upto_reads. exists k, b, rest. rewrite advance_app. auto.
Qed.
End Steps.

(** From a position, a bounded anchor-free expression reaches exactly
    the positions that lie after a text of its denotation. *)
Lemma rmatch_reads (fl : flags) (r : regex) :
  bounded r = true -> reads (rmatch fl r) (lang fl r).
Proof.
  induction r as [ | neg items | | | | a IHa b IHb | a IHa b IHb | a IHa lo hi ];
    intros Hb prev s q; cbn [rmatch lang bounded] in *; try discriminate Hb.
  - split.
    + intros [<- | []]. exists [], s. auto.
    + intros (x & rest & -> & -> & ->). left. reflexivity.
  - cbn [snd]. destruct s as [|c t].
    + split; [intros [] | intros (x & rest & E & (c & -> & _) & _); discriminate E].
    + destruct (xorb neg (in_items fl items c)) eqn:Hc.
      * split.
        -- intros [<- | []]. exists [c], t. split; [reflexivity|].
           split; [exists c; auto | reflexivity].
        -- intros (x & rest & E & (c' & -> & _) & ->).
           inversion E; subst. left. reflexivity.
      * split; [intros [] |].
        intros (x & rest & E & (c' & -> & Hc') & _).
        inversion E; subst. congruence.
  - cbn [snd]. destruct s as [|c t].
    + split; [intros [] | intros (x & rest & E & (c & -> & _) & _); discriminate E].
    + destruct (Ascii.eqb c newline) eqn:Hc.
      * split; [intros [] |].
        intros (x & rest & E & (c' & -> & Hc') & _).
        inversion E; subst. congruence.
      * split.
        -- intros [<- | []]. exists [c], t. split; [reflexivity|].
           split; [exists c; auto | reflexivity].
        -- intros (x & rest & E & (c' & -> & _) & ->).
           inversion E; subst. left. reflexivity.
  - apply andb_true_iff in Hb. destruct Hb as [Ha Hb].
    specialize (IHa Ha). specialize (IHb Hb).
    rewrite in_flat_map. split.
    + intros ([prev' s'] & Hin & Hq).
      apply IHa in Hin. destruct Hin as (u & rest1 & -> & Hu & E).
      inversion E; subst; clear E.
      apply IHb in Hq. destruct Hq as (v & rest & -> & Hv & ->).
      exists (u ++ v)%list, rest. rewrite <- app_assoc, advance_app.
      split; [reflexivity|]. split; [exists u, v; auto | reflexivity].
    + intros (x & rest & -> & (u & v & -> & Hu & Hv) & ->).
      exists (advance prev u, (v ++ rest)%list). split.
      * apply IHa. exists u, (v ++ rest)%list. rewrite app_assoc. auto.
      * apply IHb. exists v, rest. rewrite advance_app. auto.
  - apply andb_true_iff in Hb. destruct Hb as [Ha Hb].
    specialize (IHa Ha). specialize (IHb Hb).
    rewrite in_app_iff. split.
    + intros [Hin | Hin]; [apply IHa in Hin | apply IHb in Hin];
        destruct Hin as (x & rest & -> & Hx & ->); exists x, rest; auto.
    + intros (x & rest & -> & [Hx | Hx] & ->);
        [left; apply IHa | right; apply IHb]; exists x, rest; auto.
  - destruct hi as [hi|]; [|discriminate Hb].
    apply (repeat_reads (IHa Hb)).
Qed.

Lemma at_end_at_eol (fl : flags) (q : pos) : at_end q = true -> at_eol fl q = true.
Proof. unfold at_end, at_eol. destruct (snd q); [reflexivity | discriminate]. Qed.

Lemma before_eol_cat (a b body : regex) :
  before_eol (RCat a b) = Some body ->
  (b = REol /\ body = a)
  \/ (exists b', before_eol b = Some b' /\ body = RCat a b').
Proof.
  intros Hr. destruct b; try (cbn in Hr; discriminate Hr).
  - left. cbn in Hr. inversion Hr. auto.
  - right.
    change (before_eol (RCat a (RCat b1 b2)))
      with (option_map (RCat a) (before_eol (RCat b1 b2))) in Hr.
    destruct (before_eol (RCat b1 b2)) as [b'|]; [|discriminate Hr].
    exists b'. inversion Hr. auto.
Qed.

(** An expression that ends with [$]: it reaches the end of the text
    exactly on the denotation of what stands before the [$]. *)
Lemma rmatch_to_the_end (fl : flags) (r body : regex) :
  before_eol r = Some body -> bounded body = true ->
  forall prev s,
    existsb at_end (rmatch fl r (prev, s)) = true <-> lang fl body s.
Proof.
  revert body. induction r as [ | | | | | a IHa b IHb | | ];
    intros body Hr Hb prev s; try discriminate Hr.
  assert (Hlast : forall q, existsb at_end (rmatch fl REol q) = at_end q).
  { intros q. cbn [rmatch]. destruct (at_eol fl q) eqn:Hq; cbn.
    - apply orb_false_r.
    - destruct (at_end q) eqn:He; [|reflexivity].
      rewrite (at_end_at_eol fl q He) in Hq. discriminate. }
  cbn [rmatch]. rewrite existsb_exists.
  assert (Hcat : forall b',
             (forall prev' s', existsb at_end (rmatch fl b (prev', s')) = true
                               <-> lang fl b' s') ->
             bounded a = true ->
             (exists q, In q (flat_map (rmatch fl b) (rmatch fl a (prev, s)))
                        /\ at_end q = true)
             <-> lang fl (RCat a b') s).
  { intros b' Hb' Ha. cbn [lang]. split.
    - intros (q & Hin & Hq). apply in_flat_map in Hin.
      destruct Hin as ([prev' s'] & Hin & Hq').
      apply (rmatch_reads fl a Ha) in Hin.
      destruct Hin as (u & rest & -> & Hu & E). inversion E; subst; clear E.
      exists u, rest. split; [reflexivity|]. split; [exact Hu|].
      apply (Hb' (advance prev u)). apply existsb_exists. exists q. auto.
    - intros (u & v & -> & Hu & Hv).
      apply (Hb' (advance prev u)) in Hv. apply existsb_exists in Hv.
      destruct Hv as (q & Hin & Hq). exists q. split; [|exact Hq].
      apply in_flat_map. exists (advance prev u, v). split; [|exact Hin].
      apply (rmatch_reads fl a Ha). exists u, v. auto. }
  destruct (before_eol_cat a b Hr) as [[-> ->] | (b' & Eb & ->)].
  2: { cbn [bounded] in Hb. apply andb_true_iff in Hb. destruct Hb as [Ha Hb].
       apply Hcat; [intros prev' s'; apply (IHb b' Eb Hb) | exact Ha]. }
  (* the expression is [a $] *)
  split.
  - intros (q & Hin & Hq). apply in_flat_map in Hin.
    destruct Hin as ([prev' s'] & Hin & Hq').
    apply (rmatch_reads fl a Hb) in Hin.
    destruct Hin as (u & rest & -> & Hu & E). inversion E; subst; clear E.
    assert (He : existsb at_end (rmatch fl REol (advance prev u, rest)) = true)
      by (apply existsb_exists; exists q; auto).
    rewrite Hlast in He. unfold at_end in He. cbn [snd] in He.
    destruct rest; [|discriminate He]. rewrite app_nil_r. exact Hu.
  - intros Hs. exists (advance prev s, []). split; [|reflexivity].
    apply in_flat_map. exists (advance prev s, []). split.
    + apply (rmatch_reads fl a Hb). exists s, []. rewrite app_nil_r. auto.
    + cbn [rmatch]. unfold at_eol. cbn [snd]. left. reflexivity.
Qed.

(** [re.fullmatch] with a pattern of the form [^ body $]. *)
Lemma fullmatch_anchored (fl : flags) (r inner body : regex) (s : list ascii) :
  after_bol r = Some inner -> before_eol inner = Some body ->
  bounded body = true ->
  fullmatch_re fl r s = true <-> lang fl body s.
Proof.
  intros Hr Hinner Hb.
  destruct r; try discriminate Hr. destruct r1; try discriminate Hr.
  inversion Hr; subst; clear Hr.
  unfold fullmatch_re. cbn [rmatch at_bol fst flat_map].
  rewrite app_nil_r. apply rmatch_to_the_end; assumption.
Qed.

End ReFacts.

(* ===================================================================== *)
(** ** The name patterns accept the structured names *)
(* ===================================================================== *)

Module NameFacts.
Import PyRe ReLang ReFacts NameRules NamePatterns.

Unset Implicit Arguments.

Ltac each_ascii c :=
  destruct c as [[] [] [] [] [] [] [] []]; vm_compute; try reflexivity.

Lemma first_items (c : ascii) : in_items IGNORECASE FIRST c = first_char c.
Proof. each_ascii c. Qed.

Lemma later_items (c : ascii) : in_items IGNORECASE LATER c = later_char c.
Proof. each_ascii c. Qed.

Lemma member_later_items (c : ascii) :
  in_items IGNORECASE MEMBER_LATER c = member_char c.
Proof. each_ascii c. Qed.

Lemma dot_items (c : ascii) : in_items IGNORECASE [(".", ".")%char] c = Ascii.eqb c ".".
Proof. each_ascii c. Qed.

Lemma open_items (c : ascii) : in_items IGNORECASE [("(", "(")%char] c = Ascii.eqb c "(".
Proof. each_ascii c. Qed.

Lemma close_items (c : ascii) : in_items IGNORECASE [(")", ")")%char] c = Ascii.eqb c ")".
Proof. each_ascii c. Qed.

Lemma later_char_plain (c : ascii) :
  later_char c = true -> Ascii.eqb c "." = false /\ Ascii.eqb c "(" = false.
Proof. each_ascii c; intros Hc; try discriminate Hc; split; reflexivity. Qed.

Lemma first_char_later (c : ascii) : first_char c = true -> later_char c = true.
Proof. unfold later_char. intros ->. reflexivity. Qed.

(** [n] characters in a row, each of a class. *)
Lemma power_chars (f : ascii -> bool) (n : nat) (x : list ascii) :
  power (fun y => exists c, y = [c] /\ f c = true) n x
  <-> List.length x = n /\ forallb f x = true.
Proof.
  revert x. induction n as [|n IH]; intros x; cbn [power].
  - split.
    + intros ->. auto.
    + intros [Hl _]. destruct x; [reflexivity | discriminate Hl].
  - split.
    + intros (a & b & -> & (c & -> & Hc) & Hb).
      apply IH in Hb. destruct Hb as [Hl Hf]. cbn. rewrite Hl, Hc, Hf. auto.
    + intros [Hl Hf]. destruct x as [|c t]; [discriminate Hl|].
      cbn in Hl, Hf. apply andb_true_iff in Hf. destruct Hf as [Hc Hf].
      exists [c], t. split; [reflexivity|].
      split; [exists c; auto | apply IH; split; [lia | exact Hf]].
Qed.

Lemma lang_class (items : list (ascii * ascii)) (f : ascii -> bool)
  (lo hi : nat) (x : list ascii) :
  (forall c, in_items IGNORECASE items c = f c) ->
  lang IGNORECASE (RRep (RSet false items) lo (Some hi)) x
  <-> (lo <= List.length x <= lo + (hi - lo) /\ forallb f x = true).
Proof.
  intros Hf. cbn [lang].
  assert (Hpow : forall n y,
             power (fun y0 => exists c, y0 = [c]
                                        /\ xorb false (in_items IGNORECASE items c) = true)
               n y
             <-> List.length y = n /\ forallb f y = true).
  { intros n y. rewrite <- power_chars. apply power_iff. intros z.
    split; intros (c & -> & Hc); exists c; (split; [reflexivity|]);
      cbn [xorb] in *; rewrite Hf in *; exact Hc. }
  split.
  - intros (k & Hk & Hx). apply Hpow in Hx. destruct Hx as [Hl Hx].
    split; [lia | exact Hx].
  - intros [Hl Hx]. exists (List.length x - lo). split; [lia|].
    apply Hpow. split; [lia | exact Hx].
Qed.

Lemma lang_one (items : list (ascii * ascii)) (f : ascii -> bool) (x : list ascii) :
  (forall c, in_items IGNORECASE items c = f c) ->
  lang IGNORECASE (RRep (RSet false items) 1 (Some 1)) x
  <-> exists c, x = [c] /\ f c = true.
Proof.
  intros Hf. rewrite (@lang_class items f 1 1 x Hf). split.
  - intros [Hl Hx]. destruct x as [|c [|d t]]; cbn in Hl; try lia.
    cbn in Hx. rewrite andb_true_r in Hx. exists c. auto.
  - intros (c & -> & Hc). cbn. rewrite Hc. split; [lia | reflexivity].
Qed.

Lemma lang_lit (k : ascii) (x : list ascii) :
  (forall c, in_items IGNORECASE [(k, k)] c = Ascii.eqb c k) ->
  lang IGNORECASE (lit k) x <-> x = [k].
Proof.
  intros Hk. unfold lit. cbn [lang xorb]. split.
  - intros (c & -> & Hc). rewrite Hk in Hc. apply Ascii.eqb_eq in Hc.
    subst. reflexivity.
  - intros ->. exists k. split; [reflexivity|]. rewrite Hk.
    apply Ascii.eqb_refl.
Qed.

Lemma lang_qualifier (q : list ascii) :
  lang IGNORECASE re_qualifier q <-> qualifier q = true.
Proof.
  unfold re_qualifier, re_first, re_later. cbn [lang]. fold lang.
  split.
  - intros (u & v & -> & Hu & Hv).
    apply (@lang_one _ _ u first_items) in Hu. destruct Hu as (c & -> & Hc).
    apply (@lang_class _ _ 0 7 v later_items) in Hv. destruct Hv as [Hl Hv].
    cbn. rewrite Hc, Hv. cbn. apply Nat.leb_le. lia.
  - intros Hq. destruct q as [|c t]; [discriminate Hq|]. cbn in Hq.
    apply andb_true_iff in Hq. destruct Hq as [Hq Hl].
    apply andb_true_iff in Hq. destruct Hq as [Hc Ht].
    apply Nat.leb_le in Hl.
    exists [c], t. split; [reflexivity|]. split.
    + apply (@lang_one _ _ [c] first_items). exists c. auto.
    + apply (@lang_class _ _ 0 7 t later_items). split; [lia | exact Ht].
Qed.

Lemma lang_dotted (x : list ascii) :
  lang IGNORECASE re_dotted x
  <-> exists q, qualifier q = true /\ x = (q ++ ["."%char])%list.
Proof.
  unfold re_dotted, re_dot. cbn [lang]. fold lang. split.
  - intros (u & v & -> & Hu & Hv). apply lang_qualifier in Hu.
    apply (@lang_one _ _ v dot_items) in Hv. destruct Hv as (c & -> & Hc).
    apply Ascii.eqb_eq in Hc. subst c. exists u. auto.
  - intros (q & Hq & ->). exists q, ["."%char]. split; [reflexivity|].
    split; [apply lang_qualifier; exact Hq|].
    apply (@lang_one _ _ ["."%char] dot_items). exists "."%char. auto.
Qed.


(** *** Dots and pieces *)

Lemma split_on_pieces (s : list ascii) :
  exists init v,
    split_on "." s = (init ++ [v])%list /\ s = (with_dots init ++ v)%list.
Proof.
  induction s as [|c t (init & v & Hsplit & Ht)].
  - exists [], []. auto.
  - cbn [split_on]. destruct (Ascii.eqb c ".") eqn:Hc.
    + apply Ascii.eqb_eq in Hc. subst c.
      exists ([] :: init), v. rewrite Hsplit. split; [reflexivity|].
      unfold with_dots in *. cbn. rewrite Ht at 1. reflexivity.
    + rewrite Hsplit. destruct init as [|p init]; cbn.
      * exists [], (c :: v). split; [reflexivity|]. rewrite Ht. reflexivity.
      * exists ((c :: p) :: init), v. split; [reflexivity|].
        rewrite Ht at 1. unfold with_dots. cbn. reflexivity.
Qed.

Lemma split_on_free (v : list ascii) :
  free_of "." v = true -> split_on "." v = [v].
Proof.
  induction v as [|c t IH]; intros Hv; [reflexivity|].
  cbn in Hv. apply andb_true_iff in Hv. destruct Hv as [Hc Ht].
  cbn [split_on]. apply negb_true_iff in Hc. rewrite Hc, (IH Ht). reflexivity.
Qed.

Lemma split_on_dot (q rest : list ascii) :
  free_of "." q = true ->
  split_on "." (q ++ "."%char :: rest) = q :: split_on "." rest.
Proof.
  induction q as [|c t IH]; intros Hq; [reflexivity|].
  cbn in Hq. apply andb_true_iff in Hq. destruct Hq as [Hc Ht].
  cbn [app split_on]. apply negb_true_iff in Hc. rewrite Hc, (IH Ht).
  reflexivity.
Qed.

Lemma split_on_with_dots (init : list (list ascii)) (v : list ascii) :
  forallb (free_of ".") init = true -> free_of "." v = true ->
  split_on "." (with_dots init ++ v) = (init ++ [v])%list.
Proof.
  intros Hinit Hv. induction init as [|q init IH].
  - cbn. apply split_on_free. exact Hv.
  - cbn in Hinit. apply andb_true_iff in Hinit. destruct Hinit as [Hq Hinit].
    unfold with_dots in *. cbn [map concat].
    rewrite <- !app_assoc. cbn [app].
    rewrite (split_on_dot q _ Hq), (IH Hinit). reflexivity.
Qed.

Lemma qualifier_later (q : list ascii) :
  qualifier q = true -> forallb later_char q = true.
Proof.
  destruct q as [|c t]; [discriminate|]. cbn.
  intros Hq. apply andb_true_iff in Hq. destruct Hq as [Hq _].
  apply andb_true_iff in Hq. destruct Hq as [Hc Ht].
  rewrite (first_char_later c Hc), Ht. reflexivity.
Qed.

Lemma later_free (sep : ascii) (q : list ascii) :
  (sep = "." \/ sep = "(")%char ->
  forallb later_char q = true -> free_of sep q = true.
Proof.
  intros Hsep Hq. unfold free_of. apply forallb_forall. intros c Hc.
  assert (Hl : later_char c = true)
    by (apply (proj1 (forallb_forall _ _) Hq); exact Hc).
  destruct (later_char_plain c Hl) as [Hdot Hopen].
  destruct Hsep as [-> | ->]; [rewrite Hdot | rewrite Hopen]; reflexivity.
Qed.

Lemma qualifier_free (sep : ascii) (q : list ascii) :
  (sep = "." \/ sep = "(")%char -> qualifier q = true -> free_of sep q = true.
Proof. intros Hsep Hq. apply later_free; [exact Hsep | apply qualifier_later; exact Hq]. Qed.

Lemma qualifiers_free (sep : ascii) (qs : list (list ascii)) :
  (sep = "." \/ sep = "(")%char ->
  forallb qualifier qs = true -> forallb (free_of sep) qs = true.
Proof.
  intros Hsep Hqs. apply forallb_forall. intros q Hq.
  apply qualifier_free; [exact Hsep|].
  apply (proj1 (forallb_forall _ _) Hqs). exact Hq.
Qed.

Lemma qualifier_length (q : list ascii) :
  qualifier q = true -> 1 <= List.length q <= 8.
Proof.
  destruct q as [|c t]; [discriminate|]. cbn. intros Hq.
  apply andb_true_iff in Hq. destruct Hq as [_ Hl].
  apply Nat.leb_le in Hl. lia.
Qed.

(** A dotted name is 1 to 21 qualifiers with their dots and one more
    qualifier. *)
Lemma dotted_name_iff (s : list ascii) :
  dotted_name s = true
  <-> exists init v,
      1 <= List.length init <= 21
      /\ forallb qualifier init = true /\ qualifier v = true
      /\ s = (with_dots init ++ v)%list.
Proof.
  unfold dotted_name. split.
  - intros Hs. destruct (split_on_pieces s) as (init & v & Hsplit & Hjoin).
    rewrite Hsplit in Hs. rewrite length_app, forallb_app in Hs.
    cbn [List.length forallb] in Hs.
    apply andb_true_iff in Hs. destruct Hs as [Hs Hq].
    apply andb_true_iff in Hs. destruct Hs as [Hlo Hhi].
    apply andb_true_iff in Hq. destruct Hq as [Hinit Hv].
    rewrite andb_true_r in Hv.
    apply Nat.leb_le in Hlo, Hhi.
    exists init, v. repeat split; try assumption; lia.
  - intros (init & v & [Hlo Hhi] & Hinit & Hv & ->).
    rewrite (split_on_with_dots init v
               (qualifiers_free "."%char init (or_introl eq_refl) Hinit)
               (qualifier_free "."%char v (or_introl eq_refl) Hv)).
    rewrite length_app, forallb_app. cbn [List.length forallb].
    rewrite Hinit, Hv. cbn [andb]. rewrite andb_true_r.
    apply andb_true_iff. split; apply Nat.leb_le; lia.
Qed.

Lemma power_dotted (n : nat) (u : list ascii) :
  power (lang IGNORECASE re_dotted) n u
  <-> exists init,
      List.length init = n /\ forallb qualifier init = true
      /\ u = with_dots init.
Proof.
  revert u. induction n as [|n IH]; intros u; cbn [power].
  - split.
    + intros ->. exists []. auto.
    + intros (init & Hl & _ & ->). destruct init; [reflexivity | discriminate Hl].
  - split.
    + intros (a & b & -> & Ha & Hb). apply lang_dotted in Ha.
      destruct Ha as (q & Hq & ->). apply IH in Hb.
      destruct Hb as (init & Hl & Hinit & ->).
      exists (q :: init). cbn. rewrite Hl, Hq, Hinit. auto.
    + intros (init & Hl & Hinit & ->). destruct init as [|q init];
        [discriminate Hl|].
      cbn in Hl, Hinit. apply andb_true_iff in Hinit.
      destruct Hinit as [Hq Hinit].
      exists (q ++ ["."%char])%list, (with_dots init).
      split; [reflexivity|]. split.
      * apply lang_dotted. exists q. auto.
      * apply IH. exists init. repeat split; [lia | exact Hinit].
Qed.

Lemma lang_prefix (u : list ascii) :
  lang IGNORECASE re_prefix u
  <-> exists init,
      1 <= List.length init <= 21 /\ forallb qualifier init = true
      /\ u = with_dots init.
Proof.
  unfold re_prefix. cbn [lang]. fold lang. split.
  - intros (k & Hk & Hu). apply power_dotted in Hu.
    destruct Hu as (init & Hl & Hinit & ->). exists init.
    repeat split; try assumption; lia.
  - intros (init & [Hlo Hhi] & Hinit & ->).
    exists (List.length init - 1). split; [lia|].
    apply power_dotted. exists init. repeat split; [lia | exact Hinit].
Qed.

Lemma lang_name_body (s : list ascii) :
  lang IGNORECASE re_name_body s <-> dotted_name s = true.
Proof.
  rewrite dotted_name_iff.
  change re_name_body with (RCat re_prefix re_qualifier).
  cbn [lang]. fold lang. split.
  - intros (u & v & -> & Hu & Hv). apply lang_prefix in Hu.
    destruct Hu as (init & Hl & Hinit & ->). apply lang_qualifier in Hv.
    exists init, v. auto.
  - intros (init & v & Hl & Hinit & Hv & ->).
    exists (with_dots init), v. split; [reflexivity|].
    split; [apply lang_prefix; exists init; auto | apply lang_qualifier; exact Hv].
Qed.

Lemma bool_of_iff (a b : bool) : (a = true <-> b = true) -> a = b.
Proof.
  destruct a, b; intros [H1 H2]; try reflexivity.
  - symmetry. apply H1. reflexivity.
  - apply H2. reflexivity.
Qed.

(** [re.fullmatch] with the first pattern of [data_set_name]. *)
Lemma fullmatch_name (dsname : string) :
  PyRe.fullmatch IGNORECASE ZosDataSet.DATA_SET_NAME_PATTERN dsname
  = Some (dotted_name (PyStr.chars dsname)).
Proof.
  unfold PyRe.fullmatch.
  assert (Hc : exists r inner,
             compile ZosDataSet.DATA_SET_NAME_PATTERN = Some r
             /\ after_bol r = Some inner
             /\ before_eol inner = Some re_name_body)
    by (eexists _, _; repeat split; vm_compute; reflexivity).
  destruct Hc as (r & inner & -> & Hr & Hinner). cbn [option_map]. f_equal.
  apply bool_of_iff. rewrite <- lang_name_body.
  apply (@fullmatch_anchored IGNORECASE r inner re_name_body
           (PyStr.chars dsname) Hr Hinner eq_refl).
Qed.


(** *** The member in parentheses *)

Lemma member_iff (m : list ascii) :
  member m = true
  <-> exists c t,
      m = c :: t /\ first_char c = true
      /\ List.length t <= 7 /\ forallb member_char t = true.
Proof.
  destruct m as [|c t]; cbn [member].
  - split; [discriminate | intros (c & t & E & _); discriminate E].
  - rewrite !andb_true_iff, Nat.leb_le. split.
    + intros [[Hc Ht] Hl]. exists c, t. auto.
    + intros (c' & t' & E & Hc & Hl & Ht). inversion E; subst. auto.
Qed.

Lemma lang_member (x : list ascii) :
  lang IGNORECASE re_member x
  <-> exists m, member m = true /\ x = ("("%char :: m ++ [")"%char])%list.
Proof.
  unfold re_member, re_first, re_member_later. cbn [lang]. fold lang. split.
  - intros (a & r1 & -> & Ha & b & r2 & -> & Hb & c & d & -> & Hc & Hd).
    apply (lang_lit "("%char a open_items) in Ha.
    apply (lang_lit ")"%char d close_items) in Hd.
    apply (@lang_one FIRST first_char b first_items) in Hb.
    apply (@lang_class MEMBER_LATER member_char 0 7 c member_later_items) in Hc.
    destruct Hb as (h & -> & Hh). destruct Hc as [Hl Hc]. subst a d.
    exists (h :: c). split; [|reflexivity].
    apply member_iff. exists h, c. repeat split; auto; lia.
  - intros (m & Hm & ->). apply member_iff in Hm.
    destruct Hm as (h & t & -> & Hh & Hl & Ht).
    exists ["("%char], (h :: t ++ [")"%char])%list. split; [reflexivity|].
    split; [apply (lang_lit "("%char _ open_items); reflexivity|].
    exists [h], (t ++ [")"%char])%list. split; [reflexivity|].
    split; [apply (@lang_one FIRST first_char [h] first_items); exists h; auto|].
    exists t, [")"%char]. split; [reflexivity|].
    split; [|apply (lang_lit ")"%char _ close_items); reflexivity].
    apply (@lang_class MEMBER_LATER member_char 0 7 t member_later_items).
    split; [lia | exact Ht].
Qed.

Lemma lang_optional_member (x : list ascii) :
  lang IGNORECASE (RRep re_member 0 (Some 1)) x
  <-> x = [] \/ exists m, member m = true
                       /\ x = ("("%char :: m ++ [")"%char])%list.
Proof.
  cbn [lang]. fold lang. split.
  - intros (k & Hk & Hx). destruct k as [|[|k]]; [| |lia]; cbn in Hx.
    + left. exact Hx.
    + right. destruct Hx as (a & b & -> & Ha & ->). rewrite app_nil_r.
      apply lang_member. exact Ha.
  - intros [-> | Hx].
    + exists 0. split; [lia | reflexivity].
    + exists 1. split; [lia|]. cbn. exists x, []. rewrite app_nil_r.
      split; [reflexivity|]. split; [apply lang_member; exact Hx | reflexivity].
Qed.

Lemma lang_member_body (s : list ascii) :
  lang IGNORECASE re_member_body s
  <-> dotted_name s = true
      \/ exists base m,
          dotted_name base = true /\ member m = true
          /\ s = (base ++ "("%char :: m ++ [")"%char])%list.
Proof.
  assert (Hsplit : lang IGNORECASE re_member_body s
                   <-> exists base d,
                       s = (base ++ d)%list
                       /\ lang IGNORECASE re_name_body base
                       /\ lang IGNORECASE (RRep re_member 0 (Some 1)) d).
  { unfold re_member_body, re_name_body.
    cbn [lang]. fold lang. split.
    - intros (u & r1 & -> & Hu & a & r2 & -> & Ha & b & d & -> & Hb & Hd).
      exists (u ++ a ++ b)%list, d. rewrite <- !app_assoc.
      split; [reflexivity|]. split; [|exact Hd].
      exists u, (a ++ b)%list. split; [reflexivity|]. split; [exact Hu|].
      exists a, b. auto.
    - intros (base & d & -> & (u & r1 & -> & Hu & a & b & -> & Ha & Hb) & Hd).
      exists u, (a ++ b ++ d)%list. rewrite <- !app_assoc.
      split; [reflexivity|]. split; [exact Hu|].
      exists a, (b ++ d)%list. split; [reflexivity|]. split; [exact Ha|].
      exists b, d. auto. }
  rewrite Hsplit. split.
  - intros (base & d & -> & Hbase & Hd).
    apply lang_name_body in Hbase. apply lang_optional_member in Hd.
    destruct Hd as [-> | (m & Hm & ->)].
    + left. rewrite app_nil_r. exact Hbase.
    + right. exists base, m. auto.
  - intros [Hs | (base & m & Hbase & Hm & ->)].
    + exists s, []. rewrite app_nil_r. split; [reflexivity|].
      split; [apply lang_name_body; exact Hs|].
      apply lang_optional_member. left. reflexivity.
    + exists base, ("("%char :: m ++ [")"%char])%list. split; [reflexivity|].
      split; [apply lang_name_body; exact Hbase|].
      apply lang_optional_member. right. exists m. auto.
Qed.

Lemma break_at_free (sep : ascii) (base rest : list ascii) :
  free_of sep base = true ->
  break_at sep (base ++ sep :: rest) = (base, Some rest).
Proof.
  induction base as [|c t IH]; intros Hb; cbn [app break_at].
  - rewrite Ascii.eqb_refl. reflexivity.
  - cbn in Hb. apply andb_true_iff in Hb. destruct Hb as [Hc Ht].
    apply negb_true_iff in Hc. rewrite Hc, (IH Ht). reflexivity.
Qed.

Lemma break_at_none (sep : ascii) (s : list ascii) :
  free_of sep s = true -> break_at sep s = (s, None).
Proof.
  induction s as [|c t IH]; intros Hs; cbn [break_at]; [reflexivity|].
  cbn in Hs. apply andb_true_iff in Hs. destruct Hs as [Hc Ht].
  apply negb_true_iff in Hc. rewrite Hc, (IH Ht). reflexivity.
Qed.

Lemma break_at_some (sep : ascii) (s before after : list ascii) :
  break_at sep s = (before, Some after) ->
  s = (before ++ sep :: after)%list.
Proof.
  revert before. induction s as [|c t IH]; intros before Hs; cbn [break_at] in Hs.
  - discriminate Hs.
  - destruct (Ascii.eqb c sep) eqn:Hc.
    + apply Ascii.eqb_eq in Hc. inversion Hs; subst. reflexivity.
    + destruct (break_at sep t) as [b a] eqn:Ht. inversion Hs; subst.
      cbn. rewrite (IH b eq_refl). reflexivity.
Qed.

Lemma free_of_app (sep : ascii) (a b : list ascii) :
  free_of sep (a ++ b) = free_of sep a && free_of sep b.
Proof. unfold free_of. apply forallb_app. Qed.

Lemma with_dots_free (init : list (list ascii)) :
  forallb (free_of "(") init = true -> free_of "(" (with_dots init) = true.
Proof.
  induction init as [|q init IH]; intros Hinit; [reflexivity|].
  cbn in Hinit. apply andb_true_iff in Hinit. destruct Hinit as [Hq Hinit].
  unfold with_dots in *. cbn [map concat].
  rewrite !free_of_app, Hq, (IH Hinit). reflexivity.
Qed.

Lemma dotted_name_free (s : list ascii) :
  dotted_name s = true -> free_of "(" s = true.
Proof.
  intros Hs. apply dotted_name_iff in Hs.
  destruct Hs as (init & v & _ & Hinit & Hv & ->).
  rewrite free_of_app.
  rewrite (with_dots_free init
             (qualifiers_free "("%char init (or_intror eq_refl) Hinit)).
  rewrite (qualifier_free "("%char v (or_intror eq_refl) Hv). reflexivity.
Qed.

Lemma member_name_iff (s : list ascii) :
  member_name s = true
  <-> exists base m,
      dotted_name base = true /\ member m = true
      /\ s = (base ++ "("%char :: m ++ [")"%char])%list.
Proof.
  unfold member_name. split.
  - destruct (break_at "(" s) as [base [rest|]] eqn:Hs; [|discriminate].
    intros Hm. apply andb_true_iff in Hm. destruct Hm as [Hbase Hm].
    destruct (rev rest) as [|c m'] eqn:Hrev; [discriminate Hm|].
    destruct (Ascii.eqb c ")") eqn:Hc.
    + apply Ascii.eqb_eq in Hc. subst c.
      exists base, (rev m'). split; [exact Hbase|]. split; [exact Hm|].
      rewrite (break_at_some "("%char s base rest Hs).
      rewrite <- (rev_involutive rest), Hrev. reflexivity.
    + exfalso. revert Hm Hc. clear. each_ascii c; intros; discriminate.
  - intros (base & m & Hbase & Hm & ->).
    rewrite (break_at_free "("%char base _ (dotted_name_free base Hbase)).
    rewrite Hbase, rev_app_distr. cbn [rev app]. rewrite rev_involutive.
    exact Hm.
Qed.

(** [re.fullmatch] with the second pattern of [data_set_name]. *)
Lemma fullmatch_member (dsname : string) :
  PyRe.fullmatch IGNORECASE ZosDataSet.DATA_SET_MEMBER_PATTERN dsname
  = Some (dotted_name (PyStr.chars dsname) || member_name (PyStr.chars dsname)).
Proof.
  unfold PyRe.fullmatch.
  assert (Hc : exists r inner,
             compile ZosDataSet.DATA_SET_MEMBER_PATTERN = Some r
             /\ after_bol r = Some inner
             /\ before_eol inner = Some re_member_body)
    by (eexists _, _; repeat split; vm_compute; reflexivity).
  destruct Hc as (r & inner & -> & Hr & Hinner). cbn [option_map]. f_equal.
  apply bool_of_iff.
  rewrite (@fullmatch_anchored IGNORECASE r inner re_member_body
             (PyStr.chars dsname) Hr Hinner eq_refl).
  rewrite lang_member_body, orb_true_iff, member_name_iff. reflexivity.
Qed.

(** What is accepted has 2 to 22 qualifiers, each a qualifier. *)
Lemma accepted_qualifiers (dsname : string) (deps : ZosDataSet.dependencies) :
  accepted dsname deps = true ->
  2 <= List.length (qualifiers (PyStr.chars dsname)) <= 22
  /\ forallb qualifier (qualifiers (PyStr.chars dsname)) = true.
Proof.
  unfold accepted, qualifiers. set (s := PyStr.chars dsname).
  assert (Hd : forall base, dotted_name base = true ->
                 2 <= List.length (split_on "." base) <= 22
                 /\ forallb qualifier (split_on "." base) = true).
  { intros base Hb. unfold dotted_name in Hb.
    apply andb_true_iff in Hb. destruct Hb as [Hb Hq].
    apply andb_true_iff in Hb. destruct Hb as [Hlo Hhi].
    apply Nat.leb_le in Hlo, Hhi. auto. }
  intros Ha. apply orb_true_iff in Ha. destruct Ha as [Hs | Hs].
  - rewrite (break_at_none "("%char s (dotted_name_free s Hs)). cbn [fst].
    apply Hd. exact Hs.
  - apply andb_true_iff in Hs. destruct Hs as [Hs _].
    apply member_name_iff in Hs. destruct Hs as (base & m & Hbase & _ & ->).
    rewrite (break_at_free "("%char base _ (dotted_name_free base Hbase)).
    cbn [fst]. apply Hd. exact Hbase.
Qed.

End NameFacts.

(* ===================================================================== *)
(** ** Properties of the reconciliation engine *)
(* ===================================================================== *)

(** One step of case analysis on the outcome of a call or of a test. *)
Ltac outcome :=
  match goal with
  | |- context [match ?m ?s with _ => _ end] =>
      lazymatch type of s with
      | st _ => let E := fresh "E" in destruct (m s) as [[?|?] ?] eqn:E
      end
  | |- context [if ?b then _ else _] =>
      lazymatch b with
      | context [match _ with _ => _ end] => fail
      | _ => let E := fresh "E" in destruct b eqn:E
      end
  end; cbv beta iota zeta.

(** Rewriting with the known outcome of a call. *)
Ltac known E := rewrite E; cbv beta iota zeta.

Section EngineFacts.
Context {W : Type} {H : Host W}.
Import DataSet.

(** C10. On every return path of
    [attempt_catalog_if_necessary_and_delete], a report of
    [changed = true] comes with [present = false]. *)
Theorem changed_implies_not_present (name : string)
  (volumes : option (list string)) (s s' : st W) (changed present : bool) :
  attempt_catalog_if_necessary_and_delete name volumes s
    = (Ok (changed, present), s') ->
  changed = true -> present = false.
Proof.
  unfold attempt_catalog_if_necessary_and_delete, catalog_or_pass,
    bind, try_except, ret.
  destruct volumes as [[|v vs]|]; cbv beta iota zeta.
  all: repeat outcome.
  all: intros Hr Hc; inversion Hr; subst; try reflexivity; try discriminate.
Qed.

(** C6. With no volumes and a data set that is not cataloged,
    [ensure_absent] returns [changed = false], raises nothing and
    makes no call besides the lookup; so a second call that finds the
    data set gone after a removal reports [changed = false]. *)
Theorem ensure_absent_idempotent (name : string)
  (volumes : option (list string)) :
  truthy volumes = false ->
  (forall s s',
      data_set_cataloged name None s = (Ok false, s') ->
      ensure_absent name volumes s = (Ok false, s'))
  /\ (forall s0 s1 s2,
         ensure_absent name volumes s0 = (Ok true, s1) ->
         data_set_cataloged name None s1 = (Ok false, s2) ->
         ensure_absent name volumes s1 = (Ok false, s2)).
Proof.
  intros Hv.
  assert (Hfirst : forall s s',
             data_set_cataloged name None s = (Ok false, s') ->
             ensure_absent name volumes s = (Ok false, s')).
  { intros s s' Hlook.
    unfold ensure_absent, attempt_catalog_if_necessary_and_delete, bind, ret.
    destruct volumes as [[|v vs]|]; try discriminate Hv;
      cbv beta iota zeta; known Hlook; reflexivity. }
  split; [exact Hfirst | intros s0 s1 s2 _ Hlook; exact (Hfirst s1 s2 Hlook)].
Qed.

(** On a non-empty volume list [catalog] either returns or raises a
    catalog error. *)
Lemma catalog_returns_or_fails (name : string) (volumes : list string)
  (s s' : st W) (outcome : result unit) :
  volumes <> [] ->
  catalog name volumes s = (outcome, s') ->
  outcome = Ok tt \/ exists m, outcome = Raise (DatasetCatalogError m).
Proof.
  intros Hne. destruct volumes as [|v0 vs]; [contradiction Hne; reflexivity|].
  unfold catalog, is_vsam, _is_vsam_from_vtoc, _catalog_vsam,
    _catalog_non_vsam, mkDatasetCatalogError, bind, ret, raise,
    vtoc_get_volume_entry, vtoc_get_data_set_entry, run_command.
  repeat (match goal with
          | |- context [host_vtoc_get_volume_entry ?a ?w] =>
              destruct (host_vtoc_get_volume_entry a w) as [? ?]
          | |- context [host_vtoc_get_data_set_entry ?a ?b ?w] =>
              destruct (host_vtoc_get_data_set_entry a b w) as [? ?]
          | |- context [host_run_command ?a ?b ?w] =>
              destruct (host_run_command a b w) as [[[? ?] ?] ?]
          | |- context [vtoc_find_data_set_in_volume_output ?a ?l] =>
              destruct (vtoc_find_data_set_in_volume_output a l)
          | |- context [if ?b then _ else _] =>
              lazymatch b with
              | context [match _ with _ => _ end] => fail
              | _ => destruct b
              end
          end; cbv beta iota zeta; cbn [world journal]).
  all: intros Hr; inversion Hr; subst; eauto.
Qed.

(** C1. When the data set is cataloged, but not on the requested
    volumes, the engine records the original volume list, uncatalogs,
    catalogs on the requested volumes, verifies, deletes and
    recatalogs on the original volumes, in this order, each step
    starting where the one before ended.  The last recatalog, on a
    non-empty original list, either returns or fails with a catalog
    error; and once the delete has succeeded the engine reports
    [changed = true], [present = false] in both cases. *)
Theorem divergence_protocol (name v : string) (vs original : list string)
  (s0 s1 s2 s3 s4 s5 s6 s7 s8 : st W) (recataloged : result unit) :
  data_set_cataloged name None s0 = (Ok true, s1) ->
  data_set_cataloged name (Some (v :: vs)) s1 = (Ok false, s2) ->
  data_set_cataloged_volume_list name s2 = (Ok original, s3) ->
  uncatalog name s3 = (Ok tt, s4) ->
  catalog name (v :: vs) s4 = (Ok tt, s5) ->
  data_set_cataloged name (Some (v :: vs)) s5 = (Ok true, s6) ->
  delete name s6 = (Ok tt, s7) ->
  catalog name original s7 = (recataloged, s8) ->
  (original <> [] ->
   recataloged = Ok tt \/ exists m, recataloged = Raise (DatasetCatalogError m))
  /\ (recataloged = Ok tt
      \/ (exists m, recataloged = Raise (DatasetCatalogError m)) ->
      attempt_catalog_if_necessary_and_delete name (Some (v :: vs)) s0
        = (Ok (true, false), s8)
      /\ ensure_absent name (Some (v :: vs)) s0 = (Ok true, s8)).
Proof.
  intros H0 H1 H2 H3 H4 H5 H6 H7.
  split; [intros Hne; exact (@catalog_returns_or_fails name original s7 s8 recataloged Hne H7)|].
  intros Hr.
  assert (Hrun : attempt_catalog_if_necessary_and_delete name (Some (v :: vs)) s0
                 = (Ok (true, false), s8)).
  { unfold attempt_catalog_if_necessary_and_delete, catalog_or_pass,
      bind, try_except, ret.
    known H0. known H1. known H2. known H3. known H4. known H5. known H6.
    known H7.
    destruct Hr as [-> | [m ->]]; reflexivity. }
  split; [exact Hrun |].
  unfold ensure_absent, bind, ret. known Hrun. reflexivity.
Qed.

(** C3, as the code has it.  [ensure_cataloged] looks the name up in
    the catalog without any volume filter: it is a no-op (returns
    [changed = false]) exactly when that lookup finds the data set;
    otherwise it attempts [catalog] on the given volumes, returns
    [changed = true] when that succeeds, and turns a catalog error
    into the catalog error "Data set was not found. Unable to
    catalog." with return code -1. *)
Theorem ensure_cataloged_looks_up_without_volumes (name : string)
  (volumes : list string) (s : st W) :
  (forall s1,
      data_set_cataloged name None s = (Ok true, s1)
      <-> ensure_cataloged name volumes s = (Ok false, s1))
  /\ (forall s1 s2 outcome,
         data_set_cataloged name None s = (Ok false, s1) ->
         catalog name volumes s1 = (outcome, s2) ->
         ensure_cataloged name volumes s
         = (match outcome with
            | Ok _ => Ok true
            | Raise (DatasetCatalogError _) =>
                Raise (mkDatasetCatalogError name volumes "-1"
                         NOT_FOUND_CANNOT_CATALOG)
            | Raise e => Raise e
            end, s2)).
Proof.
  split.
  - intros s1; split.
    + intros Hlook. unfold ensure_cataloged, bind, ret. known Hlook.
      reflexivity.
    + unfold ensure_cataloged, bind, try_except, ret, raise.
      repeat outcome; intros Hr; inversion Hr; subst; reflexivity.
  - intros s1 s2 outcome Hlook Hcat.
    unfold ensure_cataloged, bind, try_except, ret, raise.
    known Hlook. known Hcat.
    destruct outcome as [[]|e]; [reflexivity|].
    destruct e; reflexivity.
Qed.

(** C4, as the code has it.  [data_set_cataloged] never looks at the
    return code of the executor: whatever the code, it raises no
    execution error and answers from the response text alone.  Without
    volumes the answer is whether the text holds the catalog entry of
    the name; with volumes it is whether a requested volume is among
    those the catalog lists. *)
Theorem data_set_cataloged_ignores_return_code (name : string)
  (volumes : option (list string)) (s : st W)
  (rc : Z) (out err : string) (w : W) :
  host_run_command IDCAMS (Some (listcat_command name)) (world s)
    = ((rc, out, err), w) ->
  let s1 := journal (RunCommand IDCAMS (Some (listcat_command name))) w s in
  (truthy volumes = false ->
     data_set_cataloged name volumes s
     = (match PyRe.search PyRe.NOFLAGS
                ("-\s" ++ PyStr.upper name ++ "\s*\n\s+IN-CAT") out with
        | Some found => Ok found
        | None => Raise ReError
        end, s1))
  /\ (truthy volumes = true ->
        exists listed s2,
          data_set_cataloged_volume_list (PyStr.upper name) s1 = (Ok listed, s2)
          /\ data_set_cataloged name volumes s
             = (Ok (PyStr.intersects (match volumes with
                                      | Some l => l
                                      | None => []
                                      end) listed), s2))
  /\ (forall m, fst (data_set_cataloged name volumes s)
                <> Raise (MVSCmdExecError m)).
Proof.
  intros Hrun s1.
  assert (Hcmd : run_command IDCAMS (Some (listcat_command name)) s
                 = (Ok (rc, out, err), s1)).
  { unfold run_command. rewrite Hrun. reflexivity. }
  assert (Hlist : exists listed s2,
             data_set_cataloged_volume_list (PyStr.upper name) s1
             = (Ok listed, s2)).
  { unfold data_set_cataloged_volume_list, bind, ret, run_command.
    destruct (host_run_command _ _ (world s1)) as [[[rc' out'] err'] w'].
    eexists _, _. reflexivity. }
  assert (Hno : truthy volumes = false ->
            data_set_cataloged name volumes s
            = (match PyRe.search PyRe.NOFLAGS
                       ("-\s" ++ PyStr.upper name ++ "\s*\n\s+IN-CAT") out with
               | Some found => Ok found
               | None => Raise ReError
               end, s1)).
  { intros Hv. unfold data_set_cataloged, bind.
    fold (listcat_command name). known Hcmd.
    destruct volumes as [[|v vs]|]; try discriminate Hv;
      unfold of_re, ret, raise;
      destruct (PyRe.search _ _ out) as [[|]|]; reflexivity. }
  assert (Hyes : truthy volumes = true ->
            exists listed s2,
              data_set_cataloged_volume_list (PyStr.upper name) s1
              = (Ok listed, s2)
              /\ data_set_cataloged name volumes s
                 = (Ok (PyStr.intersects (match volumes with
                                          | Some l => l
                                          | None => []
                                          end) listed), s2)).
  { intros Hv. destruct Hlist as (listed & s2 & Hlist).
    exists listed, s2. split; [exact Hlist|].
    unfold data_set_cataloged, bind.
    fold (listcat_command name). known Hcmd.
    destruct volumes as [[|v vs]|]; try discriminate Hv.
    known Hlist. unfold ret.
    destruct (PyStr.intersects (v :: vs) listed); reflexivity. }
  split; [exact Hno | split; [exact Hyes |]].
  intros m. destruct (truthy volumes) eqn:Hv.
  - destruct (Hyes eq_refl) as (listed & s2 & _ & ->). discriminate.
  - rewrite (Hno eq_refl).
    destruct (PyRe.search _ _ out); discriminate.
Qed.

(** C5, as the code has it.  When the data set is not cataloged and
    [create] fails with a message that holds "Error Code: 0x4704",
    [attempt_catalog_if_necessary] is run.  If it does not report
    present and changed, the creation error is raised again.  If it
    does, the creation error is dropped: with [replace] false the call
    returns [changed = true] at once; with [replace] true it goes on
    to replace the data set (delete, create, and the format step of a
    ZFS), whose own errors reach the caller. *)
Theorem ensure_present_recovers_from_exists_on_volume (a : create_args)
  (replace' : bool) (s s1 s2 s3 : st W) (m : string)
  (present changed : bool) :
  data_set_cataloged (name a) None s = (Ok false, s1) ->
  create a s1 = (Raise (DatasetCreateError m), s2) ->
  PyStr.contains "Error Code: 0x4704" m = true ->
  attempt_catalog_if_necessary (name a) (volumes a) s2
    = (Ok (present, changed), s3) ->
  ensure_present a replace' s
  = if present && changed then
      if replace' then
        (replace a ;;
         (if String.eqb (PyStr.upper (type a)) "ZFS"
          then format_zfs (name a)
          else ret tt) ;;
         ret true) s3
      else (Ok true, s3)
    else (Raise (DatasetCreateError m), s3).
Proof.
  intros Hlook Hcreate Hsig Hrec.
  unfold ensure_present.
  unfold bind at 1. known Hlook. cbn [negb].
  unfold bind at 1. unfold try_except. cbv beta.
  unfold bind at 1. known Hcreate.
  cbn [is_DatasetCreateError exn_msg]. rewrite Hsig.
  unfold bind at 1. unfold bind at 1. known Hrec.
  destruct present, changed; cbn [andb negb]; unfold ret, raise;
    cbv beta iota zeta; try reflexivity.
  destruct replace'; cbn [andb negb]; reflexivity.
Qed.

(** C2, as the code has it.  For a VSAM data set, when the first
    recatalog attempt (indexed or non-indexed, as the volume table
    suggests) returns nonzero, a last attempt is made with the linear
    cluster command; the catalog error is raised only if that one
    returns nonzero too.  In that worst case the catalog facility has
    been invoked exactly twice, after the two volume table lookups. *)
Theorem catalog_vsam_falls_back_to_linear (name v0 : string)
  (vs : list string) (s : st W)
  (data_entry index_entry : option entry) (w1 w2 w3 w4 : W)
  (rc1 rc2 : Z) (out1 err1 out2 err2 : string) :
  let volumes := v0 :: vs in
  host_vtoc_get_data_set_entry (name ++ ".DATA") v0 (world s)
    = (data_entry, w1) ->
  host_vtoc_get_data_set_entry (name ++ ".INDEX") v0 w1
    = (index_entry, w2) ->
  host_run_command IDCAMS
    (Some (first_attempt_command name volumes data_entry index_entry)) w2
    = ((rc1, out1, err1), w3) ->
  rc1 <> 0%Z ->
  host_run_command IDCAMS (Some (linear_command name volumes)) w3
    = ((rc2, out2, err2), w4) ->
  exists s',
    _catalog_vsam name volumes s
    = (if (rc2 =? 0)%Z then Ok tt
       else Raise (mkDatasetCatalogError name volumes (PyStr.of_Z rc2)
                     "Attempt to catalog VSAM data set failed."), s')
    /\ world s' = w4
    /\ added s s'
       = [ VtocGetDataSetEntry (name ++ ".DATA") v0;
           VtocGetDataSetEntry (name ++ ".INDEX") v0;
           RunCommand IDCAMS
             (Some (first_attempt_command name volumes data_entry index_entry));
           RunCommand IDCAMS (Some (linear_command name volumes)) ]
    /\ facility_invocations (added s s') = 2.
Proof.
  intros volumes Hd Hi Hfirst Hrc1 Hlinear.
  unfold volumes in *. clear volumes.
  assert (Hneq : (rc1 =? 0)%Z = false) by (apply Z.eqb_neq; exact Hrc1).
  unfold first_attempt_command in *.
  unfold _catalog_vsam, bind, vtoc_get_data_set_entry.
  rewrite Hd. cbv beta iota zeta. cbn [world journal].
  rewrite Hi. cbv beta iota zeta.
  unfold run_command at 1. cbn [world journal].
  destruct (entry_truthy data_entry && entry_truthy index_entry);
    cbn [String.eqb Ascii.eqb Bool.eqb negb];
    rewrite Hfirst; cbv beta iota zeta; rewrite Hneq; cbn [negb];
    unfold run_command; cbn [world journal];
    fold (linear_command name (v0 :: vs)); rewrite Hlinear;
    cbv beta iota zeta; unfold ret, raise;
    (eexists; split;
     [ destruct (rc2 =? 0)%Z; cbn [negb]; reflexivity
     | split; [reflexivity |];
       match goal with
       | |- ?x = ?l /\ _ =>
           assert (Hadded : x = l)
             by (unfold added; cbn [calls journal];
                 repeat rewrite <- app_assoc;
                 rewrite skipn_app, skipn_all, Nat.sub_diag; reflexivity);
           rewrite Hadded; split; reflexivity
       end ]).
Qed.

(** C8.  Once the scratch data set of the non-VSAM uncatalog helper
    has been created, the helper ends by deleting it, whatever
    happened in between: the write failing, the command returning
    nonzero, its output lacking the "NORMAL END OF TASK RETURNED"
    line, or all going well. *)
Theorem scratch_data_set_always_deleted (name temp : string) (s s1 : st W) :
  create_temp (first_qualifier name) s = (Ok temp, s1) ->
  temp <> "" ->
  exists outcome s2 between,
    _uncatalog_non_vsam name s = (outcome, s2)
    /\ calls s2 = (calls s1 ++ between ++ [DatasetsDelete temp])%list.
Proof.
  intros Hcreate Hne.
  unfold _uncatalog_non_vsam. known Hcreate.
  destruct temp as [|c t]; [contradiction Hne; reflexivity|].
  cbn [nonempty]. unfold try_finally.
  assert (Hbody : exists r sb between,
             _uncatalog_non_vsam_body name (String c t) s1 = (r, sb)
             /\ calls sb = (calls s1 ++ between)%list).
  { unfold _uncatalog_non_vsam_body, write, bind, named_temporary_file,
      file_write, run_command, raise, ret.
    destruct (host_named_temporary_file (world s1)) as [tmp wa].
    cbv beta iota zeta. cbn [world journal calls].
    destruct (host_run_command _ None _) as [[[rca outa] erra] wb].
    cbv beta iota zeta.
    destruct (negb (rca =? 0)%Z); cbv beta iota zeta.
    - eexists _, _, _. split; [reflexivity|].
      cbn [calls journal]. repeat rewrite <- app_assoc. reflexivity.
    - cbn [world journal calls].
      destruct (host_run_command _ None _) as [[[rcb outb] errb] wc].
      cbv beta iota zeta.
      destruct (negb (rcb =? 0)%Z || negb (PyStr.contains NORMAL_END outb));
        (eexists _, _, _; split; [reflexivity|];
         cbn [calls journal]; repeat rewrite <- app_assoc; reflexivity). }
  destruct Hbody as (r & sb & between & -> & Hcalls).
  unfold bind, datasets_delete, ret.
  destruct (host_datasets_delete (String c t) (world sb)) as [rcd wd].
  cbv beta iota zeta.
  exists r, (journal (DatasetsDelete (String c t)) wd sb), between.
  split; [reflexivity|].
  cbn [calls journal]. rewrite Hcalls, <- app_assoc. reflexivity.
Qed.
End EngineFacts.

(** *** The engine on the scripted host *)

Section EngineRuns.
Import DataSet Scripted Scenario.

Lemma changed_implies_not_present_witness :
  exists present s',
    attempt_catalog_if_necessary_and_delete "USER.DATA" (Some ["VOLB"])
      (start divergence) = (Ok (true, present), s')
    /\ present = false.
Proof.
  eexists _, _. split.
  - vm_compute. reflexivity.
  - eapply (changed_implies_not_present "USER.DATA" (Some ["VOLB"])
              (start divergence)).
    + vm_compute. reflexivity.
    + reflexivity.
Defined.

Lemma ensure_absent_idempotent_witness :
  (exists s',
      ensure_absent "USER.NOPE" None (start never_existed) = (Ok false, s'))
  /\ (exists s1 s2,
         ensure_absent "USER.DATA" None (start removed_then_looked_up)
           = (Ok true, s1)
         /\ ensure_absent "USER.DATA" None s1 = (Ok false, s2)).
Proof.
  split.
  - eexists.
    refine (proj1 (@ensure_absent_idempotent _ _ "USER.NOPE" None eq_refl)
              (start never_existed) _ _).
    vm_compute. reflexivity.
  - eexists _, _. split.
    + vm_compute. reflexivity.
    + refine (proj2 (@ensure_absent_idempotent _ _ "USER.DATA" None eq_refl)
                (start removed_then_looked_up) _ _ _ _);
        vm_compute; reflexivity.
Defined.

Lemma divergence_protocol_witness :
  (exists s', ensure_absent "USER.DATA" (Some ["VOLB"]) (start divergence)
              = (Ok true, s'))
  /\ (exists s', ensure_absent "USER.DATA" (Some ["VOLB"])
                   (start divergence_recatalog_refused)
                 = (Ok true, s')).
Proof.
  assert (Hrun : forall last : reply,
             exists s', ensure_absent "USER.DATA" (Some ["VOLB"])
                          (start (divergence_before_recatalog ++ [last])%list)
                        = (Ok true, s')).
  { intros last.
    pose (s0 := start (divergence_before_recatalog ++ [last])%list).
    pose (s1 := snd (data_set_cataloged "USER.DATA" None s0)).
    pose (s2 := snd (data_set_cataloged "USER.DATA" (Some ["VOLB"]) s1)).
    pose (s3 := snd (data_set_cataloged_volume_list "USER.DATA" s2)).
    pose (s4 := snd (uncatalog "USER.DATA" s3)).
    pose (s5 := snd (catalog "USER.DATA" ["VOLB"] s4)).
    pose (s6 := snd (data_set_cataloged "USER.DATA" (Some ["VOLB"]) s5)).
    pose (s7 := snd (delete "USER.DATA" s6)).
    exists (snd (catalog "USER.DATA" ["VOLA"] s7)).
    destruct (@divergence_protocol script scripted_host
                "USER.DATA" "VOLB" [] ["VOLA"]
                s0 s1 s2 s3 s4 s5 s6 s7 (snd (catalog "USER.DATA" ["VOLA"] s7))
                (fst (catalog "USER.DATA" ["VOLA"] s7)))
      as [Heither Hreport].
    1-7: vm_compute; reflexivity.
    - apply surjective_pairing.
    - exact (proj2 (Hreport (Heither ltac:(discriminate)))). }
  split; [exact (Hrun normal_end) | exact (Hrun (CommandReply 8 "" ""))].
Defined.

(** C3 as written fails: USER.DATA is cataloged on VOLA only and the
    caller names VOLB; the data set is not cataloged under the given
    volumes, yet [ensure_cataloged] is a no-op. *)
Lemma ensure_cataloged_noop_off_the_given_volumes :
  ~ AsWritten.noop_exactly_when_cataloged_on_volumes "USER.DATA" ["VOLB"]
      (start cataloged_on_vola).
Proof.
  intros [Hnoop _].
  assert (Hrun : fst (ensure_cataloged "USER.DATA" ["VOLB"]
                        (start cataloged_on_vola)) = Ok false)
    by (vm_compute; reflexivity).
  specialize (Hnoop Hrun). vm_compute in Hnoop. discriminate Hnoop.
Qed.

Lemma ensure_cataloged_looks_up_without_volumes_witness :
  (exists s1, ensure_cataloged "USER.DATA" ["VOLB"] (start cataloged_on_vola)
              = (Ok false, s1))
  /\ (exists s2, ensure_cataloged "USER.DATA" ["VOLB"] (start cannot_catalog)
                 = (Raise (mkDatasetCatalogError "USER.DATA" ["VOLB"] "-1"
                             NOT_FOUND_CANNOT_CATALOG), s2)).
Proof.
  split; eexists.
  - refine (proj1 (proj1 (@ensure_cataloged_looks_up_without_volumes _ _
                            "USER.DATA" ["VOLB"] (start cataloged_on_vola)) _) _).
    vm_compute. reflexivity.
  - refine (eq_trans
              (proj2 (@ensure_cataloged_looks_up_without_volumes _ _
                        "USER.DATA" ["VOLB"] (start cannot_catalog))
                 _ _ _ _ _) _).
    + vm_compute. reflexivity.
    + vm_compute. reflexivity.
    + reflexivity.
Defined.

(** C4 as written fails: the facility ends with return code 12 and a
    text that names no missing entry; the lookup raises nothing and
    answers [False]. *)
Lemma data_set_cataloged_swallows_nonzero_code :
  ~ AsWritten.nonzero_code_is_an_error "USER.DATA" None
      (start facility_failure).
Proof.
  intros Hc.
  specialize (Hc 12%Z ("IDC3009I ** VSAM CATALOG RETURN CODE IS 8" ++ nl) ""
                [] eq_refl ltac:(discriminate)).
  vm_compute in Hc. destruct Hc as [m Hm]. discriminate Hm.
Qed.

Lemma data_set_cataloged_ignores_return_code_witness :
  exists s1, data_set_cataloged "USER.DATA" None (start facility_failure)
             = (Ok false, s1).
Proof.
  eexists.
  refine (eq_trans
            (proj1 (@data_set_cataloged_ignores_return_code _ _ "USER.DATA"
                      None (start facility_failure) 12%Z _ _ _ _) eq_refl) _).
  - vm_compute. reflexivity.
  - vm_compute. reflexivity.
Defined.

(** C5 as written fails: the recovery reports present and changed, the
    caller asked for [replace], and the deletion that the replacement
    starts with is refused: a deletion error is raised. *)
Lemma ensure_present_recovered_yet_raises :
  ~ AsWritten.recovery_settles_the_outcome (user_data (Some ["VOLB"])) true
      (start recovered_then_delete_refused).
Proof.
  intros Hc.
  assert (Hpath : exists s1 m s2 s3,
             data_set_cataloged "USER.DATA" None
               (start recovered_then_delete_refused) = (Ok false, s1)
             /\ create (user_data (Some ["VOLB"])) s1
                = (Raise (DatasetCreateError m), s2)
             /\ PyStr.contains "Error Code: 0x4704" m = true
             /\ attempt_catalog_if_necessary "USER.DATA" (Some ["VOLB"]) s2
                = (Ok (true, true), s3)).
  { eexists _, _, _, _. repeat split; vm_compute; reflexivity. }
  destruct Hpath as (s1 & m & s2 & s3 & H0 & H1 & H2 & H3).
  specialize (Hc s1 m s2 true true s3 H0 H1 H2 H3).
  vm_compute in Hc. discriminate Hc.
Qed.

Lemma ensure_present_recovers_from_exists_on_volume_witness :
  exists s3, ensure_present (user_data (Some ["VOLB"])) false (start recovered)
             = (Ok true, s3).
Proof.
  eexists.
  refine (eq_trans
            (@ensure_present_recovers_from_exists_on_volume _ _
               (user_data (Some ["VOLB"])) false (start recovered)
               _ _ _ _ true true _ _ _ _) _).
  1-4: vm_compute; reflexivity.
  reflexivity.
Defined.

(** C2 as written fails: every recatalog attempt of the cluster is
    refused, the catalog error is raised, and the facility has been
    invoked twice, not three times. *)
Lemma catalog_vsam_gives_up_after_two :
  ~ AsWritten.three_invocations_before_error "USER.VSAM" ["VOLB"]
      (start vsam_refused).
Proof.
  intros Hc.
  assert (Hrun : exists m s',
             _catalog_vsam "USER.VSAM" ["VOLB"] (start vsam_refused)
             = (Raise (DatasetCatalogError m), s')
             /\ facility_invocations (added (start vsam_refused) s') = 2).
  { eexists _, _. split; vm_compute; reflexivity. }
  destruct Hrun as (m & s' & Hrun & Htwo).
  specialize (Hc m s' Hrun). rewrite Htwo in Hc. discriminate Hc.
Qed.

Lemma catalog_vsam_falls_back_to_linear_witness :
  exists s',
    _catalog_vsam "USER.VSAM" ["VOLB"] (start vsam_refused)
    = (Raise (mkDatasetCatalogError "USER.VSAM" ["VOLB"] "12"
                "Attempt to catalog VSAM data set failed."), s')
    /\ facility_invocations (added (start vsam_refused) s') = 2.
Proof.
  destruct (@catalog_vsam_falls_back_to_linear script scripted_host
              "USER.VSAM" "VOLB" []
              (start vsam_refused) None None
              [EntryReply None; CommandReply 12 "" ""; CommandReply 12 "" ""]
              [CommandReply 12 "" ""; CommandReply 12 "" ""]
              [CommandReply 12 "" ""] [] 12%Z 12%Z "" "" "" ""
              eq_refl eq_refl eq_refl ltac:(discriminate) eq_refl)
    as (s' & Hrun & _ & _ & Htwo).
  exists s'. split; [exact Hrun | exact Htwo].
Defined.

Lemma scratch_data_set_always_deleted_witness :
  exists s1 outcome s2 between,
    create_temp "USER" (start uncatalog_refused)
      = (Ok "USER.T0000001.SCRATCH", s1)
    /\ _uncatalog_non_vsam "USER.DATA" (start uncatalog_refused)
       = (outcome, s2)
    /\ calls s2
       = (calls s1 ++ between ++ [DatasetsDelete "USER.T0000001.SCRATCH"])%list.
Proof.
  eexists.
  assert (Hcreate : create_temp (first_qualifier "USER.DATA")
                      (start uncatalog_refused)
                    = (Ok "USER.T0000001.SCRATCH", _))
    by (vm_compute; reflexivity).
  destruct (@scratch_data_set_always_deleted script scripted_host
              "USER.DATA" _ _ _ Hcreate ltac:(discriminate))
    as (outcome & s2 & between & Hrun & Hcalls).
  exists outcome, s2, between.
  split; [vm_compute; reflexivity | split; [exact Hrun | exact Hcalls]].
Defined.
End EngineRuns.

(* ===================================================================== *)
(** ** Properties of the argument validators *)
(* ===================================================================== *)

Section ValidatorFacts.
Context {W : Type} {H : Host W}.
Import ZosDataSet NameRules.

Lemma data_set_name_decides (dsname : string) (deps : dependencies) (s : st W) :
  truthy (dep_batch deps) = false ->
  data_set_name (Some dsname) deps s
  = (if accepted dsname deps
     then Ok (Some (PyStr.upper dsname))
     else Raise (invalid_data_set_name dsname), s).
Proof.
  intros Hb. unfold data_set_name, accepted. rewrite Hb.
  unfold bind at 1. unfold ret at 1. cbv beta iota zeta.
  unfold bind at 1. rewrite NameFacts.fullmatch_name.
  unfold of_re at 1. unfold ret at 1. cbv beta iota zeta.
  destruct (dotted_name (PyStr.chars dsname)) eqn:Hd; cbn [negb orb].
  - reflexivity.
  - unfold bind. rewrite NameFacts.fullmatch_member, Hd. cbn [orb].
    unfold of_re, ret, raise. cbv beta iota zeta.
    destruct (member_name (PyStr.chars dsname));
      destruct (opt_is (dep_type deps) "MEMBER"); reflexivity.
Qed.

(** C7, as the code has it.  [data_set_name] accepts exactly the names
    made of 2 to 22 dotted qualifiers, each of 1 to 8 characters among
    the letters of either case, the digits, the national characters
    [$ # @] and the hyphen, each starting with a letter or a national
    character, followed, only when [type] is MEMBER, by an optional
    member in parentheses (1 to 8 such characters, no hyphen); it
    returns the name in upper case.  So it accepts "A.B.C", accepts
    "A1-B2.C3(MEM1)" for [type=MEMBER], and refuses a name with a
    qualifier longer than 8 characters or with more than 22
    qualifiers. *)
Theorem data_set_name_accepts_dotted_qualifiers :
  (forall dsname deps (s : st W),
      truthy (dep_batch deps) = false ->
      data_set_name (Some dsname) deps s
      = (if dotted_name (PyStr.chars dsname)
            || (member_name (PyStr.chars dsname)
                && opt_is (dep_type deps) "MEMBER")
         then Ok (Some (PyStr.upper dsname))
         else Raise (invalid_data_set_name dsname), s))
  /\ (forall deps (s : st W),
         truthy (dep_batch deps) = false ->
         data_set_name (Some "A.B.C") deps s = (Ok (Some "A.B.C"), s))
  /\ (forall deps (s : st W),
         truthy (dep_batch deps) = false ->
         dep_type deps = Some "MEMBER" ->
         data_set_name (Some "A1-B2.C3(MEM1)") deps s
         = (Ok (Some "A1-B2.C3(MEM1)"), s))
  /\ (forall dsname deps (s : st W) q,
         truthy (dep_batch deps) = false ->
         In q (qualifiers (PyStr.chars dsname)) -> 8 < List.length q ->
         data_set_name (Some dsname) deps s
         = (Raise (invalid_data_set_name dsname), s))
  /\ (forall dsname deps (s : st W),
         truthy (dep_batch deps) = false ->
         22 < List.length (qualifiers (PyStr.chars dsname)) ->
         data_set_name (Some dsname) deps s
         = (Raise (invalid_data_set_name dsname), s)).
Proof.
  split; [exact data_set_name_decides|].
  split; [intros deps s Hb; rewrite (data_set_name_decides _ _ _ Hb);
          reflexivity|].
  split; [intros deps s Hb Ht; rewrite (data_set_name_decides _ _ _ Hb);
          unfold accepted; rewrite Ht; reflexivity|].
  split.
  - intros dsname deps s q Hb Hq Hlong.
    rewrite (data_set_name_decides _ _ _ Hb).
    destruct (accepted dsname deps) eqn:Ha; [|reflexivity].
    destruct (NameFacts.accepted_qualifiers dsname deps Ha) as [_ Hall].
    assert (Hone : qualifier q = true)
      by (apply (proj1 (forallb_forall _ _) Hall); exact Hq).
    apply NameFacts.qualifier_length in Hone. lia.
  - intros dsname deps s Hb Hmany.
    rewrite (data_set_name_decides _ _ _ Hb).
    destruct (accepted dsname deps) eqn:Ha; [|reflexivity].
    destruct (NameFacts.accepted_qualifiers dsname deps Ha) as [Hlen _]. lia.
Qed.

(** C9.  With a state other than [absent] and no record length given,
    the record formats FB, VB and U yield the record lengths 80, 137
    and 0. *)
Theorem record_length_defaults (deps : dependencies) :
  opt_is (dep_state deps) "absent" = false ->
  (dep_record_format deps = Some "FB" -> record_length None deps = Ok (Some 80%Z))
  /\ (dep_record_format deps = Some "VB" -> record_length None deps = Ok (Some 137%Z))
  /\ (dep_record_format deps = Some "U" -> record_length None deps = Ok (Some 0%Z)).
Proof.
  intros Hs. unfold record_length. rewrite Hs.
  repeat split; intros ->; vm_compute; reflexivity.
Qed.
End ValidatorFacts.

Section ValidatorRuns.
Import ZosDataSet NameRules Scripted Scenario.

(** C7 as written fails: "A" is a name of one qualifier, within the
    1 to 22 of the sentence, and the validator refuses it. *)
Lemma data_set_name_refuses_single_qualifier :
  ~ AsWritten.accepts_exactly_the_specified_names "A" sequential_present
      (start []).
Proof.
  intros [_ Hc]. destruct (Hc eq_refl) as [validated Hv].
  vm_compute in Hv. discriminate Hv.
Qed.

Lemma data_set_name_accepts_dotted_qualifiers_witness :
  data_set_name (Some "A.B.C") sequential_present (start [])
    = (Ok (Some "A.B.C"), start [])
  /\ data_set_name (Some "A1-B2.C3(MEM1)") member_present (start [])
     = (Ok (Some "A1-B2.C3(MEM1)"), start [])
  /\ data_set_name (Some "ABCDEFGHI.B") sequential_present (start [])
     = (Raise (invalid_data_set_name "ABCDEFGHI.B"), start []).
Proof.
  destruct (@data_set_name_accepts_dotted_qualifiers script scripted_host)
    as (_ & Hplain & Hmember & Hlong & _).
  split; [exact (Hplain sequential_present (start []) eq_refl)|].
  split; [exact (Hmember member_present (start []) eq_refl eq_refl)|].
  refine (Hlong "ABCDEFGHI.B" sequential_present (start [])
            (PyStr.chars "ABCDEFGHI") eq_refl _ _).
  - vm_compute. left. reflexivity.
  - vm_compute. lia.
Defined.

Lemma record_length_defaults_witness :
  record_length None (Dependencies None (Some "present") None None (Some "FB"))
    = Ok (Some 80%Z)
  /\ record_length None (Dependencies None (Some "present") None None (Some "VB"))
     = Ok (Some 137%Z)
  /\ record_length None (Dependencies None (Some "cataloged") None None (Some "U"))
     = Ok (Some 0%Z).
Proof.
  split; [|split].
  - exact (proj1 (record_length_defaults
                    (Dependencies None (Some "present") None None (Some "FB"))
                    eq_refl) eq_refl).
  - exact (proj1 (proj2 (record_length_defaults
                    (Dependencies None (Some "present") None None (Some "VB"))
                    eq_refl)) eq_refl).
  - exact (proj2 (proj2 (record_length_defaults
                    (Dependencies None (Some "cataloged") None None (Some "U"))
                    eq_refl)) eq_refl).
Defined.
End ValidatorRuns.

(* ===================================================================== *)
(** * Further properties of the code *)
(* ===================================================================== *)

Unset Implicit Arguments.

(* ===================================================================== *)
(** ** Properties of the name and command text helpers *)
(* ===================================================================== *)

Section TextFacts.
Import PyMore DataSetRest.

Lemma prefix_one (c : ascii) (s : string) :
  prefix (String c "") s
  = match s with
    | EmptyString => false
    | String x _ => Ascii.eqb x c
    end.
Proof.
  destruct s as [|x t]; cbn; [reflexivity|].
  destruct (ascii_dec c x) as [->|Hne].
  - rewrite Ascii.eqb_refl. destruct t; reflexivity.
  - assert (Ascii.eqb x c = false) as ->; [|reflexivity].
    apply Ascii.eqb_neq. congruence.
Qed.

Lemma contains_one (c x : ascii) (t : string) :
  PyStr.contains (String c "") (String x t)
  = Ascii.eqb x c || PyStr.contains (String c "") t.
Proof.
  cbn [PyStr.contains]. rewrite prefix_one.
  destruct (Ascii.eqb x c); reflexivity.
Qed.

Lemma until_char_app (c : ascii) (a b : string) :
  PyStr.contains (String c "") a = false ->
  until_char c (a ++ String c b) = a.
Proof.
  induction a as [|x t IH]; intros Ha; cbn [append until_char].
  - rewrite Ascii.eqb_refl. reflexivity.
  - rewrite contains_one in Ha. apply orb_false_iff in Ha.
    destruct Ha as [Hx Ht]. rewrite Hx, (IH Ht). reflexivity.
Qed.

Lemma until_char_all (c : ascii) (a : string) :
  PyStr.contains (String c "") a = false -> until_char c a = a.
Proof.
  induction a as [|x t IH]; intros Ha; cbn [until_char]; [reflexivity|].
  rewrite contains_one in Ha. apply orb_false_iff in Ha.
  destruct Ha as [Hx Ht]. rewrite Hx, (IH Ht). reflexivity.
Qed.

Lemma find_from_app (c : ascii) (a b : string) (i : nat) :
  PyStr.contains (String c "") a = false ->
  PyStr.find_from (String c "") (a ++ String c b) i = Some (i + String.length a).
Proof.
  revert i. induction a as [|x t IH]; intros i Ha;
    cbn [append PyStr.find_from String.length].
  - rewrite prefix_one, Ascii.eqb_refl. f_equal. lia.
  - rewrite contains_one in Ha. apply orb_false_iff in Ha.
    destruct Ha as [Hx Ht]. rewrite prefix_one, Hx, (IH (S i) Ht).
    f_equal. lia.
Qed.

Lemma find_from_none (c : ascii) (a : string) (i : nat) :
  PyStr.contains (String c "") a = false ->
  PyStr.find_from (String c "") a i = None.
Proof.
  revert i. induction a as [|x t IH]; intros i Ha; cbn [PyStr.find_from].
  - reflexivity.
  - rewrite contains_one in Ha. apply orb_false_iff in Ha.
    destruct Ha as [Hx Ht]. rewrite prefix_one, Hx. apply IH. exact Ht.
Qed.

(** X1.  A data set name and a member name put together as
    [name(member)] come apart again: [extract_dsname] gives back the
    name and [extract_member_name] the member, provided the name holds
    no opening and the member no closing parenthesis. *)
Theorem extract_round_trip (dsname member : string) :
  PyStr.contains "(" dsname = false ->
  PyStr.contains ")" member = false ->
  extract_dsname (dsname ++ "(" ++ member ++ ")") = dsname
  /\ extract_member_name (dsname ++ "(" ++ member ++ ")") = member.
Proof.
  intros Hd Hm. unfold extract_dsname, extract_member_name, PyStr.find.
  change ("(" ++ member ++ ")") with (String "(" (member ++ ")")).
  split; [apply until_char_app; exact Hd|].
  rewrite (find_from_app "(" dsname (member ++ ")") 0 Hd). cbn [Nat.add].
  change (S (String.length dsname)) with (String.length (String "(" dsname)).
  assert (Hdrop : PyStr.drop (S (String.length dsname))
                    (dsname ++ String "(" (member ++ ")")) = member ++ ")").
  { clear. induction dsname as [|x t IH]; [destruct member; reflexivity|].
    exact IH. }
  cbn [String.length]. rewrite Hdrop.
  apply (until_char_app ")" member "" Hm).
Qed.

(** X2.  On a name without parentheses [extract_dsname] changes
    nothing, and [extract_member_name] does not answer the empty text:
    it answers the whole name. *)
Theorem extract_without_member (data_set : string) :
  PyStr.contains "(" data_set = false ->
  PyStr.contains ")" data_set = false ->
  extract_dsname data_set = data_set
  /\ extract_member_name data_set = data_set.
Proof.
  intros Ho Hc. unfold extract_dsname, extract_member_name, PyStr.find.
  split; [apply until_char_all; exact Ho|].
  rewrite (find_from_none "(" data_set 0 Ho). cbn [PyStr.drop].
  apply until_char_all. exact Hc.
Qed.


Lemma substring_length_le (n : nat) (s : string) :
  String.length (substring 0 n s) <= n.
Proof.
  revert s. induction n as [|n IH]; intros [|x t]; cbn; try lia.
  specialize (IH t). lia.
Qed.

Lemma substring_free (c : ascii) (n : nat) (s : string) :
  PyStr.contains (String c "") s = false ->
  PyStr.contains (String c "") (substring 0 n s) = false.
Proof.
  revert s. induction n as [|n IH]; intros [|x t] Hs; cbn [substring];
    try reflexivity.
  rewrite contains_one in *. apply orb_false_iff in Hs.
  destruct Hs as [Hx Ht]. rewrite Hx, (IH t Ht). reflexivity.
Qed.

Lemma remove_char_free (c : ascii) (s : string) :
  PyStr.contains (String c "") (remove_char c s) = false.
Proof.
  induction s as [|x t IH]; cbn [remove_char]; [reflexivity|].
  destruct (Ascii.eqb x c) eqn:Hx; [exact IH|].
  rewrite contains_one, Hx, IH. reflexivity.
Qed.

Lemma remove_char_none (c : ascii) (s : string) :
  PyStr.contains (String c "") s = false -> remove_char c s = s.
Proof.
  induction s as [|x t IH]; intros Hs; cbn [remove_char]; [reflexivity|].
  rewrite contains_one in Hs. apply orb_false_iff in Hs.
  destruct Hs as [Hx Ht]. rewrite Hx, (IH Ht). reflexivity.
Qed.

Lemma rfind_char_none (c : ascii) (s : string) :
  PyStr.contains (String c "") s = false -> rfind_char c s = None.
Proof.
  induction s as [|x t IH]; intros Hs; cbn [rfind_char]; [reflexivity|].
  rewrite contains_one in Hs. apply orb_false_iff in Hs.
  destruct Hs as [Hx Ht]. rewrite (IH Ht), Hx. reflexivity.
Qed.

Lemma rfind_char_last (c : ascii) (a b : string) :
  PyStr.contains (String c "") b = false ->
  rfind_char c (a ++ String c b) = Some (String.length a).
Proof.
  intros Hb. induction a as [|x t IH]; cbn [append rfind_char String.length].
  - rewrite (rfind_char_none c b Hb), Ascii.eqb_refl. reflexivity.
  - rewrite IH. reflexivity.
Qed.

Lemma contains_app_one (c : ascii) (a b : string) :
  PyStr.contains (String c "") (a ++ b)
  = PyStr.contains (String c "") a || PyStr.contains (String c "") b.
Proof.
  induction a as [|x t IH]; cbn [append].
  - destruct b; reflexivity.
  - rewrite !contains_one, IH, orb_assoc. reflexivity.
Qed.

Lemma substring_app (a b : string) : substring 0 (String.length a) (a ++ b) = a.
Proof.
  induction a as [|x t IH]; cbn.
  - destruct b; reflexivity.
  - rewrite IH. reflexivity.
Qed.

(** X3.  The member name made from a file name never has more than 8
    characters and never holds a dot; for a plain file name with one
    extension it is the first 8 characters of what comes before the
    dot. *)
Theorem get_member_name_from_file_fits (file_name : string) :
  String.length (get_member_name_from_file file_name) <= 8
  /\ PyStr.contains "." (get_member_name_from_file file_name) = false
  /\ (forall stem ext,
         file_name = stem ++ "." ++ ext ->
         stem <> "" ->
         PyStr.contains "." stem = false -> PyStr.contains "/" stem = false ->
         PyStr.contains "." ext = false -> PyStr.contains "/" ext = false ->
         get_member_name_from_file file_name = substring 0 8 stem).
Proof.
  unfold get_member_name_from_file. split; [apply substring_length_le|].
  split; [apply substring_free, remove_char_free|].
  intros stem ext -> Hne Hds Hss Hde Hse.
  change ("." ++ ext) with (String "." ext).
  unfold splitext.
  rewrite (rfind_char_last "." stem ext Hde).
  assert (Hsep : rfind_char "/" (stem ++ String "." ext) = None).
  { apply rfind_char_none. rewrite contains_app_one, Hss.
    rewrite contains_one, Hse. reflexivity. }
  rewrite Hsep. cbn [Nat.leb andb]. rewrite Nat.sub_0_r, substring_app.
  assert (Hsome : existsb (fun x => negb (Ascii.eqb x ".")) (PyStr.chars stem) = true).
  { destruct stem as [|x t]; [contradiction Hne; reflexivity|].
    rewrite contains_one in Hds. apply orb_false_iff in Hds.
    destruct Hds as [Hx _]. cbn. rewrite Hx. reflexivity. }
  rewrite Hsome. cbn [fst]. unfold PyStr.take. rewrite substring_app.
  rewrite (remove_char_none "." stem Hds). reflexivity.
Qed.

End TextFacts.

(* ===================================================================== *)
(** ** Properties of the job-control text builders *)
(* ===================================================================== *)

Section JclFacts.
Import NameRules JclLines.

Lemma length_append (a b : string) :
  String.length (a ++ b) = String.length a + String.length b.
Proof. induction a as [|x t IH]; cbn; [reflexivity | rewrite IH; reflexivity]. Qed.

Lemma length_blanks (n : nat) : String.length (PyStr.blanks n) = n.
Proof. induction n as [|n IH]; cbn; [reflexivity | rewrite IH; reflexivity]. Qed.

Lemma length_upper (s : string) : String.length (PyStr.upper s) = String.length s.
Proof. induction s as [|x t IH]; cbn; [reflexivity | rewrite IH; reflexivity]. Qed.

Lemma chars_append (a b : string) :
  PyStr.chars (a ++ b) = (PyStr.chars a ++ PyStr.chars b)%list.
Proof.
  unfold PyStr.chars. induction a as [|x t IH]; cbn; [reflexivity|].
  rewrite IH. reflexivity.
Qed.

Lemma length_chars (s : string) : List.length (PyStr.chars s) = String.length s.
Proof.
  unfold PyStr.chars. induction s as [|x t IH]; cbn; [reflexivity|].
  rewrite IH. reflexivity.
Qed.

Lemma get_chars (n : nat) (s : string) : nth_error (PyStr.chars s) n = String.get n s.
Proof.
  unfold PyStr.chars. revert n. induction s as [|x t IH]; intros [|n]; cbn;
    try reflexivity. apply IH.
Qed.

(** A short line is padded up to column 71. *)
Lemma format_jcl_line_padded (s : string) :
  String.length s <= 71 ->
  String.length (DataSet._format_jcl_line s) = 73
  /\ String.get 71 (DataSet._format_jcl_line s) = Some "X"%char
  /\ String.get 72 (DataSet._format_jcl_line s) = Some PyRe.newline
  /\ substring 0 (String.length s) (DataSet._format_jcl_line s) = s.
Proof.
  unfold DataSet._format_jcl_line, PyStr.ljust.
  - intros Hs.
    set (padded := s ++ PyStr.blanks (71 - String.length s)).
    assert (Hp : String.length padded = 71)
      by (unfold padded; rewrite length_append, length_blanks; lia).
    split; [rewrite !length_append, Hp; reflexivity|].
    split.
    + change ((padded ++ "X") ++ nl) with ((padded ++ "X") ++ nl).
      rewrite <- (append_correct1 (padded ++ "X") nl 71)
        by (rewrite length_append, Hp; cbn; lia).
      rewrite <- Hp.
      change (String.length padded) with (0 + String.length padded).
      rewrite <- (append_correct2 padded "X" 0). reflexivity.
    + split.
      * assert (Hl : String.length (padded ++ "X") = 72)
          by (rewrite length_append, Hp; reflexivity).
        rewrite <- Hl.
        change (String.length (padded ++ "X"))
          with (0 + String.length (padded ++ "X")).
        rewrite <- (append_correct2 (padded ++ "X") nl 0). reflexivity.
      * unfold padded.
        assert (Ha : forall a b c : string, (a ++ b) ++ c = a ++ (b ++ c))
          by (intros a b c; induction a as [|x t IH]; cbn;
              [reflexivity | rewrite IH; reflexivity]).
        rewrite !Ha. apply substring_app.
Qed.



Lemma split_on_line (sep : ascii) (l rest : list ascii) :
  free_of sep l = true ->
  split_on sep (l ++ sep :: rest) = l :: split_on sep rest.
Proof.
  induction l as [|c t IH]; intros Hl; cbn [app split_on].
  - rewrite Ascii.eqb_refl. reflexivity.
  - cbn in Hl. apply andb_true_iff in Hl. destruct Hl as [Hc Ht].
    apply negb_true_iff in Hc. rewrite Hc, (IH Ht). reflexivity.
Qed.

Lemma free_of_chars (c : ascii) (s : string) :
  PyStr.contains (String c "") s = false -> free_of c (PyStr.chars s) = true.
Proof.
  unfold PyStr.chars, free_of.
  induction s as [|x t IH]; intros Hs; [reflexivity|].
  rewrite contains_one in Hs. apply orb_false_iff in Hs.
  destruct Hs as [Hx Ht]. cbn [list_ascii_of_string forallb].
  rewrite Hx, (IH Ht). reflexivity.
Qed.

Lemma chars_free_of (c : ascii) (s : string) :
  free_of c (PyStr.chars s) = true -> PyStr.contains (String c "") s = false.
Proof.
  unfold PyStr.chars, free_of.
  induction s as [|x t IH]; intros Hs; [reflexivity|].
  cbn [list_ascii_of_string forallb] in Hs.
  apply andb_true_iff in Hs. destruct Hs as [Hx Ht].
  apply negb_true_iff in Hx.
  rewrite contains_one, Hx, (IH Ht). reflexivity.
Qed.

Lemma upper_char_newline (x : ascii) :
  Ascii.eqb (PyStr.upper_char x) PyRe.newline = Ascii.eqb x PyRe.newline.
Proof. destruct x as [[] [] [] [] [] [] [] []]; vm_compute; reflexivity. Qed.

Lemma upper_free_of_newline (s : string) :
  PyStr.contains nl s = false -> PyStr.contains nl (PyStr.upper s) = false.
Proof.
  unfold nl. induction s as [|x t IH]; intros Hs; [reflexivity|].
  rewrite contains_one in Hs. apply orb_false_iff in Hs.
  destruct Hs as [Hx Ht]. cbn [PyStr.upper].
  rewrite contains_one.
  change (ascii_of_nat 10) with PyRe.newline in *.
  rewrite upper_char_newline, Hx, (IH Ht). reflexivity.
Qed.

Lemma contains_nl_app (a b : string) :
  PyStr.contains nl (a ++ b) = PyStr.contains nl a || PyStr.contains nl b.
Proof. exact (contains_app_one (ascii_of_nat 10) a b). Qed.

Lemma blanks_free_of_newline (n : nat) : PyStr.contains nl (PyStr.blanks n) = false.
Proof.
  unfold nl. induction n as [|n IH]; [reflexivity|].
  cbn [PyStr.blanks]. rewrite contains_one, IH. reflexivity.
Qed.

(** A formatted line, apart from its newline, is a continued line. *)
Lemma format_jcl_line_chars (s : string) :
  String.length s <= 71 -> PyStr.contains nl s = false ->
  exists line,
    PyStr.chars (DataSet._format_jcl_line s) = (line ++ [PyRe.newline])%list
    /\ continued line /\ free_of PyRe.newline line = true.
Proof.
  intros Hs Hn.
  exists (PyStr.chars (PyStr.ljust 71 s ++ "X")).
  unfold DataSet._format_jcl_line. split; [apply chars_append|].
  destruct (format_jcl_line_padded s Hs) as (Hlen & Hx & _ & _).
  unfold DataSet._format_jcl_line in Hlen, Hx.
  rewrite length_append in Hlen. cbn in Hlen.
  split; [split|].
  - rewrite length_chars. lia.
  - rewrite get_chars.
    rewrite (append_correct1 (PyStr.ljust 71 s ++ "X") nl 71) by lia.
    exact Hx.
  - apply (free_of_chars (ascii_of_nat 10)). change (String (ascii_of_nat 10) "") with nl.
    unfold PyStr.ljust.
    rewrite !contains_nl_app, Hn, blanks_free_of_newline.
    reflexivity.
Qed.

(** The volume part: as many lines as volumes, all continued but the
    last, which ends with the closing parenthesis. *)
Lemma volume_lines (index : nat) (volumes : list string) :
  volumes <> [] ->
  Forall (fun v => String.length v <= 6) volumes ->
  Forall (fun v => PyStr.contains nl v = false) volumes ->
  exists heads body,
    split_on PyRe.newline
      (PyStr.chars (DataSet._build_volume_string_iehprogm_from index
                      (index + List.length volumes) volumes))
    = (heads ++ [(body ++ [")"%char])%list; []])%list
    /\ S (List.length heads) = List.length volumes
    /\ Forall continued heads
    /\ free_of PyRe.newline body = true.
Proof.
  revert index. induction volumes as [|v rest IH]; intros index Hne Hshort Hfree;
    [contradiction Hne; reflexivity|].
  inversion Hshort as [|? ? Hv Hrest]; subst.
  inversion Hfree as [|? ? Hvn Hrestn]; subst.
  cbn [DataSet._build_volume_string_iehprogm_from List.length].
  set (single := if (index =? 0)%nat
                 then "               VOL=3390=(" ++ PyStr.upper v
                 else "               " ++ PyStr.upper v).
  assert (Hlen : String.length single <= 31).
  { unfold single. destruct (index =? 0)%nat;
      rewrite length_append, length_upper; cbn [String.length]; lia. }
  assert (Hnl : PyStr.contains nl single = false).
  { unfold single. destruct (index =? 0)%nat;
      rewrite contains_nl_app, (upper_free_of_newline v Hvn);
      reflexivity. }
  destruct rest as [|v' rest'].
  - (* the last volume *)
    assert (Hlast : (index + 1 =? index + 1)%nat = true) by apply Nat.eqb_refl.
    cbn [List.length]. rewrite Hlast. cbn [negb].
    cbn [DataSet._build_volume_string_iehprogm_from].
    exists [], (PyStr.chars single).
    split; [|split; [reflexivity | split; [constructor|]]].
    + assert (Hs : (single ++ ")" ++ nl) ++ "" = single ++ String ")" nl).
      { clear. induction single as [|x t IHs]; cbn; [reflexivity|].
        cbn in IHs. rewrite IHs. reflexivity. }
      rewrite Hs, chars_append. unfold nl. cbn [PyStr.chars list_ascii_of_string].
      change ((PyStr.chars single ++ [")"%char; ascii_of_nat 10])%list)
        with ((PyStr.chars single ++ ")"%char :: PyRe.newline :: [])%list).
      replace (PyStr.chars single ++ ")"%char :: PyRe.newline :: [])%list
        with ((PyStr.chars single ++ [")"%char]) ++ PyRe.newline :: [])%list
        by (rewrite <- app_assoc; reflexivity).
      rewrite split_on_line; [reflexivity|].
      unfold free_of. rewrite forallb_app.
      fold (free_of PyRe.newline (PyStr.chars single)).
      rewrite (free_of_chars PyRe.newline single Hnl). reflexivity.
    + apply (free_of_chars PyRe.newline single Hnl).
  - (* a volume followed by others *)
    assert (Hmore : (index + 1 =? index + S (S (List.length rest')))%nat = false)
      by (apply Nat.eqb_neq; lia).
    cbn [List.length]. rewrite Hmore. cbn [negb].
    destruct (format_jcl_line_chars (single ++ ","))
      as (line & Hline & Hcont & Hlfree).
    { rewrite length_append. cbn [String.length]. lia. }
    { rewrite contains_nl_app, Hnl. reflexivity. }
    destruct (IH (S index) ltac:(discriminate) Hrest Hrestn)
      as (heads & body & Hsplit & Hcount & Hheads & Hbody).
    exists (line :: heads), body.
    replace (index + S (S (List.length rest')))
      with (S index + List.length (v' :: rest')) by (cbn [List.length]; lia).
    rewrite chars_append, Hline, <- app_assoc. cbn [app].
    rewrite (split_on_line PyRe.newline line _ Hlfree), Hsplit.
    split; [reflexivity|]. split; [cbn [List.length] in *; lia|].
    split; [constructor; assumption | exact Hbody].
Qed.

(** X5.  For a name of at most 44 characters and volumes of at most 6,
    the IEHPROGM catalog command has one line for the name and one for
    each volume; every line but the last is exactly 72 characters long
    with the continuation mark [X] in column 72, and the last line ends
    with the closing parenthesis. *)
Theorem catalog_command_lines (name : string) (volumes : list string) :
  volumes <> [] ->
  String.length name <= 44 ->
  Forall (fun v => String.length v <= 6) volumes ->
  PyStr.contains nl name = false ->
  Forall (fun v => PyStr.contains nl v = false) volumes ->
  exists heads body,
    split_on PyRe.newline
      (PyStr.chars (DataSet._build_non_vsam_catalog_command name volumes))
    = (heads ++ [(body ++ [")"%char])%list; []])%list
    /\ List.length heads = List.length volumes
    /\ Forall continued heads
    /\ free_of PyRe.newline body = true.
Proof.
  intros Hne Hname Hshort Hnn Hvn.
  unfold DataSet._build_non_vsam_catalog_command,
    DataSet._build_volume_string_iehprogm.
  destruct (format_jcl_line_chars ("    CATLG DSNAME=" ++ name ++ ","))
    as (line & Hline & Hcont & Hlfree).
  { rewrite !length_append. cbn [String.length]. lia. }
  { rewrite !contains_nl_app, Hnn. reflexivity. }
  destruct (volume_lines 0 volumes Hne Hshort Hvn)
    as (heads & body & Hsplit & Hcount & Hheads & Hbody).
  cbn [Nat.add] in Hsplit.
  exists (line :: heads), body.
  rewrite chars_append, Hline, <- app_assoc. cbn [app].
  rewrite (split_on_line PyRe.newline line _ Hlfree), Hsplit.
  split; [reflexivity|]. split; [cbn [List.length]; lia|].
  split; [constructor; assumption | exact Hbody].
Qed.

End JclFacts.

(* ===================================================================== *)
(** ** Properties of the ZOAU keyword arguments *)
(* ===================================================================== *)

Section ZoauArgsFacts.
Import ZoauArgs.

Lemma subsequence_nil (full : list string) : subsequence [] full.
Proof. destruct full; exact I. Qed.

Lemma subsequence_skip (l full : list string) (k : string) :
  subsequence l full -> subsequence l (k :: full).
Proof. intros Hl. destruct l; [exact I | right; exact Hl]. Qed.

Lemma subsequence_In (l full : list string) (x : string) :
  subsequence l full -> In x l -> In x full.
Proof.
  revert l. induction full as [|y full IH]; intros [|z l] Hs Hx;
    cbn in *; try contradiction.
  destruct Hs as [[-> Hs] | Hs].
  - destruct Hx as [-> | Hx]; [left; reflexivity | right; exact (IH l Hs Hx)].
  - right. apply (IH (z :: l) Hs). exact Hx.
Qed.

Lemma subsequence_NoDup (l full : list string) :
  NoDup full -> subsequence l full -> NoDup l.
Proof.
  revert l. induction full as [|y full IH]; intros [|z l] Hn Hs;
    try constructor; cbn in Hs; try contradiction.
  - inversion Hn as [|? ? Hy Hfull]; subst.
    destruct Hs as [[-> Hs] | Hs].
    + intros Hin. apply Hy. exact (subsequence_In l full y Hs Hin).
    + pose proof (IH (z :: l) Hfull Hs) as Hzl. inversion Hzl. assumption.
  - inversion Hn as [|? ? Hy Hfull]; subst.
    destruct Hs as [[-> Hs] | Hs].
    + exact (IH l Hfull Hs).
    + pose proof (IH (z :: l) Hfull Hs) as Hzl. inversion Hzl. assumption.
Qed.

(** A keyword with at most one value takes its place in the order. *)
Lemma subsequence_keyed (k : string) (v : list pyval) (l full : list string) :
  List.length v <= 1 -> subsequence l full ->
  subsequence (map fst (DataSet.keyed k v) ++ l) (k :: full).
Proof.
  intros Hv Hl. destruct v as [|x [|y v]]; cbn in *; try lia.
  - apply subsequence_skip. exact Hl.
  - left. auto.
Qed.

Lemma opt_str_short (o : option string) : List.length (DataSet.opt_str o) <= 1.
Proof. destruct o; cbn; lia. Qed.
Lemma opt_int_short (o : option Z) : List.length (DataSet.opt_int o) <= 1.
Proof. destruct o; cbn; lia. Qed.
Lemma opt_bool_short (o : option bool) : List.length (DataSet.opt_bool o) <= 1.
Proof. destruct o; cbn; lia. Qed.

Lemma lookup_other (key k : string) (v : list pyval) (rest : list (string * pyval)) :
  String.eqb k key = false ->
  lookup key (DataSet.keyed k v ++ rest) = lookup key rest.
Proof.
  intros Hk. induction v as [|x v IH]; [reflexivity|].
  cbn [DataSet.keyed map app lookup]. rewrite Hk. exact IH.
Qed.

Lemma lookup_last_other (key k : string) (v : list pyval) :
  String.eqb k key = false -> lookup key (DataSet.keyed k v) = None.
Proof.
  intros Hk. rewrite <- (app_nil_r (DataSet.keyed k v)).
  rewrite lookup_other by exact Hk. reflexivity.
Qed.

Lemma lookup_here (k : string) (v : list pyval) (rest : list (string * pyval)) :
  lookup k (DataSet.keyed k v ++ rest)
  = match v with
    | x :: _ => Some x
    | [] => lookup k rest
    end.
Proof. destruct v; cbn; [reflexivity | rewrite String.eqb_refl; reflexivity]. Qed.

Ltac skip_keys :=
  repeat (rewrite lookup_other by reflexivity);
  try (rewrite lookup_last_other by reflexivity).

(** X6.  The keyword arguments built for ZOAU's create come in a fixed
    order without any keyword twice; the name is always there; the type
    is there with ZFS turned into LDS; the space unit is never a keyword
    of its own but the suffix of the primary and secondary space; the
    volumes are one text, joined by commas, and left out when there are
    none. *)
Theorem build_zoau_args_keywords (a : create_args) :
  let d := DataSet._build_zoau_args a in
  let unit := match space_type a with Some u => u | None => "" end in
  subsequence (map fst d) KEYWORDS
  /\ NoDup (map fst d)
  /\ lookup "name" d = Some (VStr (name a))
  /\ lookup "type" d
     = Some (VStr (if String.eqb (type a) "ZFS" then "LDS" else type a))
  /\ lookup "space_type" d = None
  /\ lookup "primary_space" d
     = option_map (fun z => VStr (PyStr.of_Z z ++ unit)) (space_primary a)
  /\ lookup "secondary_space" d
     = option_map (fun z => VStr (PyStr.of_Z z ++ unit)) (space_secondary a)
  /\ lookup "volumes" d
     = match volumes a with
       | Some (v :: vs) => Some (VStr (PyStr.join "," (v :: vs)))
       | _ => None
       end.
Proof.
  intros d unit.
  assert (Hsub : subsequence (map fst d) KEYWORDS).
  { unfold d, DataSet._build_zoau_args, KEYWORDS. rewrite !map_app.
    repeat (apply subsequence_keyed;
            [first [ apply opt_str_short | apply opt_int_short
                   | apply opt_bool_short | cbn; lia ] |]).
    rewrite <- (app_nil_r (map fst (DataSet.keyed "force" _))).
    apply subsequence_keyed; [apply opt_bool_short | exact I]. }
  split; [exact Hsub|].
  split.
  { apply (subsequence_NoDup (map fst d) KEYWORDS); [|exact Hsub].
    unfold KEYWORDS.
    repeat (constructor;
            [cbn [In]; intros Hin;
             repeat (destruct Hin as [Hin | Hin]; [discriminate Hin|]);
             exact Hin |]).
    constructor. }
  assert (Hunit : forall o : option Z,
             option_map (fun z => VStr (PyStr.of_Z z ++ unit)) o
             = match DataSet.opt_str
                       (match o with
                        | Some z =>
                            Some (PyStr.of_Z z
                                  ++ match space_type a with
                                     | Some u => if nonempty u then u else ""
                                     | None => ""
                                     end)
                        | None => None
                        end) with
               | x :: _ => Some x
               | [] => None
               end).
  { intros [z|]; [|reflexivity]. unfold unit. cbn.
    destruct (space_type a) as [[|c u]|]; reflexivity. }
  unfold d, DataSet._build_zoau_args.
  split; [rewrite lookup_here; reflexivity|].
  split; [skip_keys; rewrite lookup_here; reflexivity|].
  split; [skip_keys; reflexivity|].
  split.
  { skip_keys. rewrite lookup_here, (Hunit (space_primary a)).
    destruct (space_primary a); [reflexivity|]. cbn [DataSet.opt_str].
    skip_keys. reflexivity. }
  split.
  { skip_keys. rewrite lookup_here, (Hunit (space_secondary a)).
    destruct (space_secondary a); [reflexivity|]. cbn [DataSet.opt_str].
    skip_keys. reflexivity. }
  skip_keys. rewrite lookup_here.
  destruct (volumes a) as [[|v vs]|]; cbn [truthy option_map DataSet.opt_str];
    try reflexivity; skip_keys; reflexivity.
Qed.

End ZoauArgsFacts.

(* ===================================================================== *)
(** ** Properties of the catalog inspection *)
(* ===================================================================== *)

Section InspectionFacts.
Context {W : Type} {H : Host W}.
Import DataSet.

Lemma distinct_NoDup (l : list string) : NoDup (PyStr.distinct l).
Proof.
  induction l as [|x t IH]; cbn [PyStr.distinct]; constructor.
  - intros Hin. apply filter_In in Hin. destruct Hin as [_ Hx].
    rewrite String.eqb_refl in Hx. discriminate Hx.
  - apply NoDup_filter. exact IH.
Qed.

Lemma contains_step (sep : string) (c : ascii) (t : string) :
  PyStr.contains sep (String c t) = false ->
  prefix sep (String c t) = false /\ PyStr.contains sep t = false.
Proof.
  cbn [PyStr.contains]. destruct (prefix sep (String c t)); [discriminate|].
  auto.
Qed.

(** A text without the separator is one piece. *)
Lemma split_one_piece (sep s : string) :
  PyStr.contains sep s = false -> exists piece, PyStr.split sep s = [piece].
Proof.
  intros Hs. unfold PyStr.split.
  generalize (@nil ascii) as acc. generalize (S (String.length s)) as fuel.
  intros fuel. revert fuel. induction s as [|c t IH]; intros fuel acc.
  - destruct fuel; eexists; reflexivity.
  - destruct fuel as [|fuel]; [eexists; reflexivity|].
    destruct (contains_step sep c t Hs) as [Hp Ht].
    cbn [PyStr.split_aux]. rewrite Hp. apply IH. exact Ht.
Qed.

(** X7.  The list of cataloged volumes names no volume twice, whatever
    the listing repeats, and is empty when the listing holds no
    [VOLSER] field; the return code plays no part. *)
Theorem cataloged_volume_list_distinct (name : string) (s : st W)
  (rc : Z) (out err : string) (w : W) :
  host_run_command IDCAMS
    (Some (" LISTCAT ENTRIES('" ++ PyStr.upper name ++ "') ALL")) (world s)
    = ((rc, out, err), w) ->
  exists listed s',
    data_set_cataloged_volume_list name s = (Ok listed, s')
    /\ NoDup listed
    /\ (PyStr.contains "VOLSER------------" out = false -> listed = []).
Proof.
  intros Hrun.
  unfold data_set_cataloged_volume_list, bind, ret, run_command.
  rewrite Hrun. cbv beta iota zeta.
  eexists _, _. split; [reflexivity|].
  split; [apply distinct_NoDup|].
  intros Hnone. destruct (split_one_piece _ _ Hnone) as [piece ->].
  reflexivity.
Qed.
End InspectionFacts.

(* ===================================================================== *)
(** ** Properties of the other validators *)
(* ===================================================================== *)

Section WordFacts.
Import PyRe ReLang ReFacts Words.

(** [re.fullmatch] with an anchor-free bounded expression. *)
Lemma fullmatch_bounded (fl : flags) (r : regex) (s : list ascii) :
  bounded r = true -> fullmatch_re fl r s = true <-> lang fl r s.
Proof.
  intros Hb. unfold fullmatch_re. rewrite existsb_exists. split.
  - intros ([prev rest] & Hin & Hend).
    apply (@rmatch_reads fl r Hb) in Hin.
    destruct Hin as (x & rest' & -> & Hx & E). inversion E; subst; clear E.
    unfold at_end in Hend. cbn [snd] in Hend.
    destruct rest'; [|discriminate Hend]. rewrite app_nil_r. exact Hx.
  - intros Hx. exists (advance None s, []). split; [|reflexivity].
    apply (@rmatch_reads fl r Hb). exists s, []. rewrite app_nil_r. auto.
Qed.

Lemma eqb_code (a b : ascii) :
  Ascii.eqb a b = (nat_of_ascii a =? nat_of_ascii b)%nat.
Proof.
  destruct (Ascii.eqb_spec a b) as [->|Hne].
  - symmetry. apply Nat.eqb_refl.
  - symmetry. apply Nat.eqb_neq. intros E. apply Hne.
    rewrite <- (ascii_nat_embedding a), <- (ascii_nat_embedding b), E.
    reflexivity.
Qed.

Lemma upper_code (c : ascii) :
  nat_of_ascii (PyStr.upper_char c)
  = if PyStr.is_lower c then nat_of_ascii c - 32 else nat_of_ascii c.
Proof.
  unfold PyStr.upper_char. destruct (PyStr.is_lower c); [|reflexivity].
  apply nat_ascii_embedding. pose proof (nat_ascii_bounded c). lia.
Qed.

Lemma lower_code (c : ascii) :
  nat_of_ascii (PyStr.lower_char c)
  = if PyStr.is_upper c then nat_of_ascii c + 32 else nat_of_ascii c.
Proof.
  unfold PyStr.lower_char. destruct (PyStr.is_upper c) eqn:Hu; [|reflexivity].
  apply nat_ascii_embedding. unfold PyStr.is_upper in Hu.
  apply andb_true_iff in Hu. destruct Hu as [_ Hu].
  apply Nat.leb_le in Hu. lia.
Qed.

(** Ignoring case, an upper-case letter of a pattern stands for the
    characters whose upper case it is. *)
Lemma letter_items (k c : ascii) :
  PyStr.is_upper k = true ->
  in_items IGNORECASE [(k, k)] c = Ascii.eqb (PyStr.upper_char c) k.
Proof.
  intros Hk. unfold in_items, in_range.
  cbn [existsb fst snd ignorecase IGNORECASE andb].
  rewrite !orb_false_r, eqb_code, upper_code, lower_code.
  unfold PyStr.is_upper, PyStr.is_lower in *.
  apply andb_true_iff in Hk. destruct Hk as [Hk1 Hk2].
  apply Nat.leb_le in Hk1. apply Nat.leb_le in Hk2.
  set (n := nat_of_ascii c) in *. set (m := nat_of_ascii k) in *.
  destruct (97 <=? n)%nat eqn:E1; destruct (n <=? 122)%nat eqn:E2;
    destruct (65 <=? n)%nat eqn:E3; destruct (n <=? 90)%nat eqn:E4;
    cbn [andb];
    repeat match goal with
           | E : (_ <=? _)%nat = true |- _ => apply Nat.leb_le in E
           | E : (_ <=? _)%nat = false |- _ => apply Nat.leb_gt in E
           end;
    try lia;
    repeat match goal with
           | |- context [(?a <=? ?b)%nat] => destruct (Nat.leb_spec a b)
           | |- context [(?a =? ?b)%nat] => destruct (Nat.eqb_spec a b)
           end; cbn; try reflexivity; try lia.
Qed.

Lemma lang_letter (k : ascii) (u : list ascii) :
  PyStr.is_upper k = true ->
  lang IGNORECASE (lit k) u <-> exists c, u = [c] /\ PyStr.upper_char c = k.
Proof.
  intros Hk. unfold lit. cbn [lang xorb]. split.
  - intros (c & -> & Hc). rewrite (letter_items k c Hk) in Hc.
    apply Ascii.eqb_eq in Hc. exists c. auto.
  - intros (c & -> & Hc). exists c. split; [reflexivity|].
    rewrite (letter_items k c Hk). apply Ascii.eqb_eq. exact Hc.
Qed.

Lemma lang_word (w x : list ascii) :
  w <> [] -> forallb PyStr.is_upper w = true ->
  lang IGNORECASE (word_re w) x <-> map PyStr.upper_char x = w.
Proof.
  revert x. induction w as [|k t IH]; intros x Hne Hw;
    [contradiction Hne; reflexivity|].
  cbn [forallb] in Hw. apply andb_true_iff in Hw. destruct Hw as [Hk Ht].
  destruct t as [|k2 t].
  - cbn [word_re]. rewrite (lang_letter k x Hk). split.
    + intros (c & -> & <-). reflexivity.
    + intros Hx. destruct x as [|c [|d x]]; try discriminate Hx.
      injection Hx as Hc. exists c. auto.
  - change (word_re (k :: k2 :: t)) with (RCat (lit k) (word_re (k2 :: t))).
    cbn [lang]. split.
    + intros (u & v & -> & Hu & Hv).
      apply (lang_letter k u Hk) in Hu. destruct Hu as (c & -> & <-).
      apply IH in Hv; [|discriminate|exact Ht].
      cbn [app map]. rewrite Hv. reflexivity.
    + intros Hx. destruct x as [|c x]; [discriminate Hx|].
      cbn [map] in Hx. injection Hx as Hc Hx'.
      exists [c], x. split; [reflexivity|]. split.
      * apply (lang_letter k [c] Hk). exists c. auto.
      * apply IH; [discriminate|exact Ht|exact Hx'].
Qed.

Lemma bounded_word (w : list ascii) : bounded (word_re w) = true.
Proof.
  induction w as [|k t IH]; [reflexivity|].
  destruct t as [|k2 t]; [reflexivity|].
  change (word_re (k :: k2 :: t)) with (RCat (lit k) (word_re (k2 :: t))).
  cbn [bounded lit andb]. exact IH.
Qed.

Lemma lang_any_of (ws : list (list ascii)) (x : list ascii) :
  ws <> [] -> forallb upper_word ws = true ->
  lang IGNORECASE (any_of ws) x <-> In (map PyStr.upper_char x) ws.
Proof.
  induction ws as [|w t IH]; intros Hne Hws; [contradiction Hne; reflexivity|].
  cbn [forallb] in Hws. apply andb_true_iff in Hws. destruct Hws as [Hw Ht].
  assert (Hword : lang IGNORECASE (word_re w) x <-> map PyStr.upper_char x = w).
  { apply lang_word; destruct w; try discriminate Hw; [discriminate | exact Hw]. }
  destruct t as [|w2 t].
  - cbn [any_of In]. rewrite Hword. split; [auto | intros [E|[]]; auto].
  - change (any_of (w :: w2 :: t)) with (RAlt (word_re w) (any_of (w2 :: t))).
    cbn [lang]. rewrite Hword, (IH ltac:(discriminate) Ht).
    cbn [In]. split; intros [E|E]; auto.
Qed.

Lemma bounded_any_of (ws : list (list ascii)) : bounded (any_of ws) = true.
Proof.
  induction ws as [|w t IH]; [reflexivity|].
  destruct t as [|w2 t]; [apply bounded_word|].
  change (any_of (w :: w2 :: t)) with (RAlt (word_re w) (any_of (w2 :: t))).
  cbn [bounded]. rewrite bounded_word. exact IH.
Qed.

Lemma chars_upper (s : string) :
  PyStr.chars (PyStr.upper s) = map PyStr.upper_char (PyStr.chars s).
Proof.
  unfold PyStr.chars. induction s as [|c t IH]; cbn; [reflexivity|].
  rewrite IH. reflexivity.
Qed.

Lemma chars_inj (a b : string) : PyStr.chars a = PyStr.chars b -> a = b.
Proof.
  unfold PyStr.chars. intros E.
  rewrite <- (string_of_list_ascii_of_string a),
          <- (string_of_list_ascii_of_string b), E.
  reflexivity.
Qed.

(** A pattern of upper-case words joined by bars accepts, ignoring
    case, the texts whose upper case is one of the words. *)
Lemma fullmatch_words (pattern : string) (words : list string) (c : string) :
  words <> [] ->
  forallb upper_word (map PyStr.chars words) = true ->
  compile pattern = Some (any_of (map PyStr.chars words)) ->
  fullmatch IGNORECASE pattern c = Some (listed words c).
Proof.
  intros Hne Hws Hc. unfold fullmatch. rewrite Hc. cbn [option_map].
  f_equal. apply NameFacts.bool_of_iff.
  rewrite (fullmatch_bounded IGNORECASE _ (PyStr.chars c)
             (bounded_any_of (map PyStr.chars words))).
  rewrite lang_any_of; [|destruct words; [contradiction Hne; reflexivity
                                          | discriminate] | exact Hws].
  unfold listed. rewrite existsb_exists, in_map_iff, <- chars_upper.
  split.
  - intros (w & E & Hin). apply chars_inj in E. subst w.
    exists (PyStr.upper c). split; [exact Hin | apply String.eqb_refl].
  - intros (w & Hin & E). apply String.eqb_eq in E. subst w.
    exists (PyStr.upper c). auto.
Qed.

End WordFacts.

Section ValidatorRestFacts.
Import PyRe ReLang ReFacts Words ZosDataSet ZosDataSetRest.

Lemma digit_items_plain (c : ascii) :
  in_items NOFLAGS [("0", "9")%char] c = is_digit c.
Proof. NameFacts.each_ascii c. Qed.

Lemma alnum_items (c : ascii) :
  in_items IGNORECASE [("A", "Z"); ("0", "9")]%char c = is_alnum c.
Proof. NameFacts.each_ascii c. Qed.

Lemma digit_is_digit (n : nat) : is_digit (PyStr.digit (n mod 10)) = true.
Proof.
  pose proof (Nat.mod_upper_bound n 10 ltac:(discriminate)) as Hlt.
  destruct (n mod 10) as [|[|[|[|[|[|[|[|[|[|k]]]]]]]]]]; try reflexivity; lia.
Qed.

Lemma digits_of_digits (fuel n : nat) (acc : string) :
  forallb is_digit (PyStr.chars acc) = true ->
  forallb is_digit (PyStr.chars (PyStr.digits_of fuel n acc)) = true.
Proof.
  revert n acc. induction fuel as [|fuel IH]; intros n acc Hacc;
    cbn [PyStr.digits_of]; [exact Hacc|].
  assert (Hnext : forallb is_digit
                    (PyStr.chars (String (PyStr.digit (n mod 10)) acc)) = true).
  { unfold PyStr.chars in *. cbn [list_ascii_of_string forallb].
    rewrite digit_is_digit. exact Hacc. }
  destruct (n / 10 =? 0)%nat; [exact Hnext | apply IH; exact Hnext].
Qed.

(** The decimal text of a natural number is made of digits. *)
Lemma of_nat_digits (n : nat) :
  forallb is_digit (PyStr.chars (PyStr.of_nat n)) = true.
Proof. unfold PyStr.of_nat. apply digits_of_digits. reflexivity. Qed.

Lemma of_Z_digits (c : Z) :
  (0 <= c)%Z -> forallb is_digit (PyStr.chars (PyStr.of_Z c)) = true.
Proof.
  intros Hc. destruct c as [|p|p]; [reflexivity | apply of_nat_digits | lia].
Qed.

(** A run of digits is read to its end by [[0-9]*]. *)
Lemma star_reads_digits (x : list ascii) (prev : option ascii) (n : nat) :
  forallb is_digit x = true -> List.length x <= n ->
  existsb at_end
    (iter_upto (rmatch NOFLAGS (RSet false [("0", "9")%char])) n (prev, x))
  = true.
Proof.
  revert prev n. induction x as [|c t IH]; intros prev n Hx Hn.
  - destruct n; reflexivity.
  - destruct n as [|n]; [cbn in Hn; lia|].
    cbn [forallb] in Hx. apply andb_true_iff in Hx. destruct Hx as [Hc Ht].
    cbn [iter_upto existsb rmatch snd xorb]. rewrite digit_items_plain, Hc.
    cbn [flat_map at_end snd orb]. rewrite app_nil_r.
    apply IH; [exact Ht | cbn in Hn; lia].
Qed.

Lemma fullmatch_digits (c : Z) :
  (0 <= c)%Z -> fullmatch NOFLAGS "[0-9]*" (PyStr.of_Z c) = Some true.
Proof.
  intros Hc. unfold fullmatch.
  change (compile "[0-9]*")
    with (Some (RRep (RSet false [("0", "9")%char]) 0 None)).
  cbn [option_map]. f_equal. unfold fullmatch_re.
  cbn [rmatch repeat iter_exact flat_map snd]. rewrite app_nil_r.
  apply star_reads_digits; [apply of_Z_digits; exact Hc | apply Nat.le_refl].
Qed.

(** X8.  For a data set that is not being removed, a given record
    length is accepted exactly when it lies between 0 and 32768, both
    included; the test of its decimal text against [[0-9]*] never
    decides anything. *)
Theorem record_length_range (c : Z) (deps : dependencies) :
  opt_is (dep_state deps) "absent" = false ->
  record_length (Some c) deps
  = if ((0 <=? c) && (c <=? 32768))%Z
    then Ok (Some c)
    else Raise (invalid_record_length c).
Proof.
  intros Hstate. unfold record_length. rewrite Hstate.
  destruct (Z.leb_spec 0 c) as [Hlo|Hlo]; cbn [andb].
  - rewrite (fullmatch_digits c Hlo). cbn [negb orb].
    assert (Hneg : (c <? 0)%Z = false) by (apply Z.ltb_ge; exact Hlo).
    rewrite Hneg. cbn [orb]. rewrite Z.gtb_ltb.
    destruct (Z.leb_spec c 32768) as [Hhi|Hhi].
    + assert (E : (32768 <? c)%Z = false) by (apply Z.ltb_ge; exact Hhi).
      rewrite E. reflexivity.
    + assert (E : (32768 <? c)%Z = true) by (apply Z.ltb_lt; exact Hhi).
      rewrite E. reflexivity.
  - assert (Hneg : (c <? 0)%Z = true) by (apply Z.ltb_lt; exact Hlo).
    rewrite Hneg. cbn [orb].
    unfold fullmatch.
    change (compile "[0-9]*")
      with (Some (RRep (RSet false [("0", "9")%char]) 0 None)).
    cbn [option_map]. rewrite orb_true_r. reflexivity.
Qed.

Lemma space_type_pattern (c : string) :
  fullmatch IGNORECASE SPACE_TYPE_PATTERN c = Some (listed SPACE_TYPES c).
Proof.
  apply fullmatch_words; [discriminate | reflexivity | vm_compute; reflexivity].
Qed.

Lemma formats_pattern (c : string) :
  fullmatch IGNORECASE (PyStr.join "|" DATA_SET_FORMATS) c
  = Some (listed DATA_SET_FORMATS c).
Proof.
  apply fullmatch_words; [discriminate | reflexivity | vm_compute; reflexivity].
Qed.

Lemma types_pattern (c : string) :
  fullmatch IGNORECASE (PyStr.join "|" DATA_SET_TYPES) c
  = Some (listed DATA_SET_TYPES c).
Proof.
  apply fullmatch_words; [discriminate | reflexivity | vm_compute; reflexivity].
Qed.

Lemma listed_In (words : list string) (c : string) :
  listed words c = true -> In (PyStr.upper c) words.
Proof.
  unfold listed. rewrite existsb_exists. intros (w & Hin & E).
  apply String.eqb_eq in E. subst w. exact Hin.
Qed.

(** X9.  For a data set that is not being removed, a unit of space is
    accepted exactly when it is, whatever its case, one of M, G, K,
    TRK and CYL; an accepted unit is returned as it was typed, not in
    upper case. *)
Theorem space_type_listed (c : string) (deps : dependencies) :
  opt_is (dep_state deps) "absent" = false ->
  space_type (Some c) deps
  = if listed SPACE_TYPES c then Ok (Some c) else Raise (invalid_space_type c).
Proof.
  intros Hstate. unfold space_type. rewrite Hstate, space_type_pattern.
  unfold matching. destruct (listed SPACE_TYPES c); reflexivity.
Qed.

(** X10.  For a data set that is not being removed, a record format is
    accepted exactly when it is, whatever its case, one of
    [DATA_SET_FORMATS]; the value returned is then that format in
    upper case, hence a member of the list. *)
Theorem record_format_listed (c : string) (deps : dependencies) :
  opt_is (dep_state deps) "absent" = false ->
  record_format (Some c) deps
  = (if listed DATA_SET_FORMATS c
     then Ok (Some (PyStr.upper c))
     else Raise (invalid_record_format c))
  /\ (forall r, record_format (Some c) deps = Ok (Some r) ->
                In r DATA_SET_FORMATS).
Proof.
  intros Hstate.
  assert (Hrun : record_format (Some c) deps
                 = if listed DATA_SET_FORMATS c
                   then Ok (Some (PyStr.upper c))
                   else Raise (invalid_record_format c)).
  { unfold record_format. rewrite Hstate, formats_pattern.
    unfold matching. destruct (listed DATA_SET_FORMATS c); reflexivity. }
  split; [exact Hrun|].
  intros r. rewrite Hrun.
  destruct (listed DATA_SET_FORMATS c) eqn:Hl; [|discriminate].
  intros E. injection E as <-. apply listed_In. exact Hl.
Qed.

(** X11.  Whatever the state, a missing type becomes PDS; a given type
    is accepted exactly when it is, whatever its case, one of
    [DATA_SET_TYPES]; and every value returned is a member of that
    list, in upper case. *)
Theorem data_set_type_listed (contents : option string) (deps : dependencies) :
  ZosDataSetRest.data_set_type contents deps
  = match contents with
    | None => Ok (Some "PDS")
    | Some c => if listed DATA_SET_TYPES c
                then Ok (Some (PyStr.upper c))
                else Raise (invalid_data_set_type c)
    end
  /\ (forall r, ZosDataSetRest.data_set_type contents deps = Ok r ->
                exists t, r = Some t /\ In t DATA_SET_TYPES).
Proof.
  assert (Hrun : ZosDataSetRest.data_set_type contents deps
                 = match contents with
                   | None => Ok (Some "PDS")
                   | Some c => if listed DATA_SET_TYPES c
                               then Ok (Some (PyStr.upper c))
                               else Raise (invalid_data_set_type c)
                   end).
  { unfold ZosDataSetRest.data_set_type. destruct contents as [c|]; [|reflexivity].
    rewrite types_pattern. unfold matching.
    destruct (listed DATA_SET_TYPES c); reflexivity. }
  split; [exact Hrun|].
  intros r. rewrite Hrun. destruct contents as [c|].
  - destruct (listed DATA_SET_TYPES c) eqn:Hl; [|discriminate].
    intros E. injection E as <-. exists (PyStr.upper c).
    split; [reflexivity | apply listed_In; exact Hl].
  - intros E. injection E as <-. exists "PDS".
    split; [reflexivity | cbn; tauto].
Qed.

Lemma volume_pattern (vol : string) :
  fullmatch IGNORECASE VOLUME_PATTERN vol = Some (volume_serial vol).
Proof.
  unfold fullmatch.
  change (compile VOLUME_PATTERN)
    with (Some (RCat RBol
                  (RCat (RRep (RSet false [("A", "Z"); ("0", "9")]%char)
                           1 (Some 6))
                     REol))).
  cbn [option_map]. f_equal. apply NameFacts.bool_of_iff.
  rewrite (@fullmatch_anchored IGNORECASE
             (RCat RBol
                (RCat (RRep (RSet false [("A", "Z"); ("0", "9")]%char)
                         1 (Some 6))
                   REol))
             (RCat (RRep (RSet false [("A", "Z"); ("0", "9")]%char) 1 (Some 6))
                REol)
             (RRep (RSet false [("A", "Z"); ("0", "9")]%char) 1 (Some 6))
             (PyStr.chars vol) eq_refl eq_refl eq_refl).
  rewrite (NameFacts.lang_class _ is_alnum 1 6 (PyStr.chars vol) alnum_items).
  unfold volume_serial. rewrite length_chars.
  rewrite !andb_true_iff, !Nat.leb_le. split.
  - intros [[Hlo Hhi] Hx]. repeat split; [exact Hlo | cbn in Hhi; lia | exact Hx].
  - intros [[Hlo Hhi] Hx]. repeat split; [exact Hlo | cbn; lia | exact Hx].
Qed.

Lemma check_volumes_find (contents : list string) :
  check_volumes contents
  = match List.find (fun v => negb (volume_serial v)) contents with
    | Some bad => Raise (invalid_volume bad)
    | None => Ok tt
    end.
Proof.
  induction contents as [|vol rest IH]; [reflexivity|].
  cbn [check_volumes List.find]. rewrite volume_pattern.
  destruct (volume_serial vol); cbn [negb]; [exact IH | reflexivity].
Qed.

(** X12.  Given volumes are checked from the first on: the first one
    that is not one to six letters or digits is refused by name;
    otherwise the value returned is the list as it was given, a single
    text having become a list of one.  Lower-case serials are accepted
    and come back in lower case. *)
Theorem volumes_as_given (given : string + list string) (deps : dependencies) :
  let contents := match given with inl one => [one] | inr several => several end in
  ZosDataSetRest.volumes (Some given) deps
  = match List.find (fun v => negb (volume_serial v)) contents with
    | Some bad => Raise (invalid_volume bad)
    | None => Ok (Some contents)
    end.
Proof.
  intros contents. unfold ZosDataSetRest.volumes. fold contents.
  rewrite check_volumes_find.
  destruct (List.find _ contents); reflexivity.
Qed.

End ValidatorRestFacts.

(* ===================================================================== *)
(** ** More properties of the reconciliation engine *)
(* ===================================================================== *)

Section EngineRestFacts.
Context {W : Type} {H : Host W}.
Import DataSet DataSetRest.

(** The catalog lookup raises nothing but [re.error]. *)
Lemma data_set_cataloged_raises (name : string) (volumes : option (list string))
  (s s' : st W) (e : exn) :
  data_set_cataloged name volumes s = (Raise e, s') -> e = ReError.
Proof.
  unfold data_set_cataloged, data_set_cataloged_volume_list, bind, ret,
    of_re, raise, run_command.
  destruct (host_run_command _ _ (world s)) as [[[rc out] err] w].
  cbv beta iota zeta.
  destruct volumes as [[|v vs]|]; cbv beta iota zeta; cbn [world journal].
  2: { destruct (host_run_command _ _ w) as [[[rc' out'] err'] w'].
       cbv beta iota zeta. destruct (PyStr.intersects _ _); discriminate. }
  all: destruct (PyRe.search _ _ out) as [[|]|]; intros E; inversion E;
    reflexivity.
Qed.

(** X13.  [replace] deletes first: when the deletion answers a positive
    code the deletion error is raised and no creation is attempted; a
    code that is zero or negative counts as done, and the creation
    follows from the state the deletion left. *)
Theorem replace_stops_at_refused_delete (a : create_args) (s : st W)
  (rc : Z) (w : W) :
  host_datasets_delete (name a) (world s) = (rc, w) ->
  let s1 := journal (DatasetsDelete (name a)) w s in
  replace a s
  = if (rc >? 0)%Z
    then (Raise (mkDatasetDeleteError (name a) rc), s1)
    else match create a s1 with
         | (Ok _, s2) => (Ok tt, s2)
         | (Raise e, s2) => (Raise e, s2)
         end.
Proof.
  intros Hdel s1. unfold replace, delete, bind, datasets_delete, raise, ret.
  rewrite Hdel. cbv beta iota zeta. fold s1.
  destruct (rc >? 0)%Z; cbv beta iota zeta; [reflexivity|].
  destruct (create a s1) as [[z|e] s2]; reflexivity.
Qed.

(** X14.  A data set that the catalog already lists is left alone by
    [ensure_present] unless a replacement is asked for: the call
    returns [changed = false] after the lookup alone.  With a
    replacement asked for, no creation is attempted before the
    replacement. *)
Theorem ensure_present_leaves_cataloged_alone (a : create_args)
  (s s1 : st W) :
  data_set_cataloged (name a) None s = (Ok true, s1) ->
  ensure_present a false s = (Ok false, s1)
  /\ ensure_present a true s
     = (replace a ;;
        (if String.eqb (PyStr.upper (type a)) "ZFS"
         then format_zfs (name a)
         else ret tt) ;;
        ret true)%py s1.
Proof.
  intros Hlook. unfold ensure_present. split.
  - unfold bind at 1. known Hlook. cbn [negb]. reflexivity.
  - unfold bind at 1. known Hlook. cbn [negb]. reflexivity.
Qed.

(** X15.  [ensure_uncataloged] is a no-op exactly when the lookup does
    not find the name; when the lookup finds it, the outcome is that of
    [uncatalog]: [changed = true] when it returns, its error
    otherwise. *)
Theorem ensure_uncataloged_follows_lookup (name : string) (s : st W) :
  (forall s1,
      data_set_cataloged name None s = (Ok false, s1)
      <-> ensure_uncataloged name s = (Ok false, s1))
  /\ (forall s1 s2 outcome,
         data_set_cataloged name None s = (Ok true, s1) ->
         uncatalog name s1 = (outcome, s2) ->
         ensure_uncataloged name s
         = (match outcome with
            | Ok _ => Ok true
            | Raise e => Raise e
            end, s2)).
Proof.
  split.
  - intros s1; split.
    + intros Hlook. unfold ensure_uncataloged, bind, ret. known Hlook.
      reflexivity.
    + unfold ensure_uncataloged, bind, ret.
      repeat outcome; intros Hr; inversion Hr; subst; reflexivity.
  - intros s1 s2 outcome Hlook Hun.
    unfold ensure_uncataloged, bind, ret. known Hlook. known Hun.
    destruct outcome as [[]|e]; reflexivity.
Qed.

(** X16.  Whenever [attempt_catalog_if_necessary] returns, a report of
    [changed] comes with [present] and with a volume list having been
    given; [present] without [changed] means that the lookup found the
    name and nothing else was done; and no catalog error ever leaves
    the function. *)
Theorem attempt_catalog_if_necessary_reports (name : string)
  (volumes : option (list string)) (s : st W) :
  (forall present changed s',
      attempt_catalog_if_necessary name volumes s
        = (Ok (present, changed), s') ->
      (changed = true -> present = true /\ volumes <> None)
      /\ (present = true -> changed = false ->
          data_set_cataloged name None s = (Ok true, s'))
      /\ (present = false ->
          exists s1, data_set_cataloged name None s = (Ok false, s1)))
  /\ (forall m, fst (attempt_catalog_if_necessary name volumes s)
                <> Raise (DatasetCatalogError m)).
Proof.
  split.
  - intros present changed s'.
    unfold attempt_catalog_if_necessary, bind, try_except, ret.
    destruct (data_set_cataloged name None s) as [[[|]|e] s1] eqn:Hlook;
      cbv beta iota zeta.
    + intros Hr; inversion Hr; subst.
      repeat split; try discriminate; reflexivity.
    + destruct volumes as [vols|]; cbv beta iota zeta.
      * destruct (catalog name vols s1) as [[[]|e] s2]; cbv beta iota zeta.
        -- intros Hr; inversion Hr; subst.
           repeat split; try discriminate.
        -- destruct (is_DatasetCatalogError e); cbv beta iota zeta;
             intros Hr; inversion Hr; subst.
           repeat split; try discriminate. intros _. eexists. reflexivity.
      * intros Hr; inversion Hr; subst.
        repeat split; try discriminate. intros _. eexists. reflexivity.
    + discriminate.
  - intros m.
    unfold attempt_catalog_if_necessary, bind, try_except, ret.
    destruct (data_set_cataloged name None s) as [[[|]|e] s1] eqn:Hlook;
      cbv beta iota zeta; cbn [fst].
    + discriminate.
    + destruct volumes as [vols|]; cbv beta iota zeta; [|discriminate].
      destruct (catalog name vols s1) as [[[]|e] s2]; cbv beta iota zeta;
        [discriminate|].
      destruct e; cbn [is_DatasetCatalogError]; cbv beta iota zeta;
        discriminate.
    + rewrite (data_set_cataloged_raises _ _ _ _ _ Hlook). discriminate.
Qed.

(** X17.  For a data set that the catalog does not list,
    [ensure_present] creates it once and, whether or not a replacement
    was asked for, does not delete or recreate what it has just
    created; only the format step of a ZFS follows.  A creation error
    whose message lacks "Error Code: 0x4704" is raised again as it is,
    without any attempt to catalog. *)
Theorem ensure_present_creates_once (a : create_args) (replace' : bool)
  (s s1 s2 : st W) :
  data_set_cataloged (name a) None s = (Ok false, s1) ->
  (forall rc,
      create a s1 = (Ok rc, s2) ->
      ensure_present a replace' s
      = ((if String.eqb (PyStr.upper (type a)) "ZFS"
          then format_zfs (name a)
          else ret tt) ;;
         ret true)%py s2)
  /\ (forall m,
         create a s1 = (Raise (DatasetCreateError m), s2) ->
         PyStr.contains "Error Code: 0x4704" m = false ->
         ensure_present a replace' s = (Raise (DatasetCreateError m), s2)).
Proof.
  intros Hlook. split.
  - intros rc Hcreate. unfold ensure_present.
    unfold bind at 1. known Hlook. cbn [negb].
    unfold bind at 1. unfold try_except. cbv beta.
    unfold bind at 1. known Hcreate. unfold ret at 1. cbv beta iota zeta.
    cbn [andb negb]. unfold ret at 1. unfold bind at 1. cbv beta iota zeta.
    reflexivity.
  - intros m Hcreate Hsig. unfold ensure_present.
    unfold bind at 1. known Hlook. cbn [negb].
    unfold bind at 1. unfold try_except. cbv beta.
    unfold bind at 1. known Hcreate.
    cbn [is_DatasetCreateError exn_msg]. rewrite Hsig.
    unfold bind at 1. unfold ret at 1. cbv beta iota zeta.
    unfold raise. reflexivity.
Qed.
End EngineRestFacts.

Section DivergenceFailures.
Context {W : Type} {H : Host W}.
Import DataSet.

(** X18.  A deletion that is refused is passed over in silence when no
    volumes are given: [ensure_absent] reports [changed = false] and
    raises nothing.  When the catalog lists the data set on the given
    volumes, the same refusal reaches the caller as an error. *)
Theorem refused_delete_silent_without_volumes (name v : string)
  (vs : list string) (volumes : option (list string)) (m : string) :
  (truthy volumes = false ->
   forall s s1 s2,
     data_set_cataloged name None s = (Ok true, s1) ->
     delete name s1 = (Raise (DatasetDeleteError m), s2) ->
     ensure_absent name volumes s = (Ok false, s2))
  /\ (forall s s1 s2 s3,
         data_set_cataloged name None s = (Ok true, s1) ->
         data_set_cataloged name (Some (v :: vs)) s1 = (Ok true, s2) ->
         delete name s2 = (Raise (DatasetDeleteError m), s3) ->
         ensure_absent name (Some (v :: vs)) s
         = (Raise (DatasetDeleteError m), s3)).
Proof.
  split.
  - intros Hv s s1 s2 Hlook Hdel.
    unfold ensure_absent, attempt_catalog_if_necessary_and_delete,
      bind, try_except, ret.
    destruct volumes as [[|v' vs']|]; try discriminate Hv;
      cbv beta iota zeta; known Hlook; known Hdel; reflexivity.
  - intros s s1 s2 s3 Hlook Hon Hdel.
    unfold ensure_absent, attempt_catalog_if_necessary_and_delete,
      bind, try_except, ret.
    known Hlook. known Hon. known Hdel. reflexivity.
Qed.

(** X19.  The data set is cataloged, but not on the requested volumes,
    and the uncatalog step fails.  An uncatalog error ends the call
    quietly with [changed = false], [present = false] and nothing
    further is attempted; any other error of the step (the scratch
    data set that cannot be created, the command text that cannot be
    written) reaches the caller. *)
Theorem divergence_stops_when_uncatalog_fails (name v : string)
  (vs original : list string) (s0 s1 s2 s3 s4 : st W) (e : exn) :
  data_set_cataloged name None s0 = (Ok true, s1) ->
  data_set_cataloged name (Some (v :: vs)) s1 = (Ok false, s2) ->
  data_set_cataloged_volume_list name s2 = (Ok original, s3) ->
  uncatalog name s3 = (Raise e, s4) ->
  attempt_catalog_if_necessary_and_delete name (Some (v :: vs)) s0
  = (if is_DatasetUncatalogError e then Ok (false, false) else Raise e, s4)
  /\ ensure_absent name (Some (v :: vs)) s0
     = (if is_DatasetUncatalogError e then Ok false else Raise e, s4).
Proof.
  intros H0 H1 H2 H3.
  assert (Hrun : attempt_catalog_if_necessary_and_delete name (Some (v :: vs)) s0
                 = (if is_DatasetUncatalogError e
                    then Ok (false, false) else Raise e, s4)).
  { unfold attempt_catalog_if_necessary_and_delete, catalog_or_pass,
      bind, try_except, ret.
    known H0. known H1. known H2. known H3.
    destruct (is_DatasetUncatalogError e); reflexivity. }
  split; [exact Hrun|].
  unfold ensure_absent, bind, ret. known Hrun.
  destruct (is_DatasetUncatalogError e); reflexivity.
Qed.

(** X20.  The data set is cataloged elsewhere, has been uncataloged,
    and cannot be cataloged on the requested volumes: the engine
    catalogs it back on the volumes it had recorded, passes over a
    catalog error of that step, and reports [changed = false],
    [present = false]; only an error of another kind reaches the
    caller. *)
Theorem divergence_restores_catalog_entry (name v : string)
  (vs original : list string) (s0 s1 s2 s3 s4 s5 s6 : st W) (m : string)
  (back : result unit) :
  data_set_cataloged name None s0 = (Ok true, s1) ->
  data_set_cataloged name (Some (v :: vs)) s1 = (Ok false, s2) ->
  data_set_cataloged_volume_list name s2 = (Ok original, s3) ->
  uncatalog name s3 = (Ok tt, s4) ->
  catalog name (v :: vs) s4 = (Raise (DatasetCatalogError m), s5) ->
  catalog name original s5 = (back, s6) ->
  attempt_catalog_if_necessary_and_delete name (Some (v :: vs)) s0
  = (match back with
     | Ok _ => Ok (false, false)
     | Raise e => if is_DatasetCatalogError e then Ok (false, false) else Raise e
     end, s6).
Proof.
  intros H0 H1 H2 H3 H4 H5.
  unfold attempt_catalog_if_necessary_and_delete, catalog_or_pass,
    bind, try_except, ret.
  known H0. known H1. known H2. known H3. known H4.
  cbn [is_DatasetCatalogError]. known H5.
  destruct back as [[]|e]; [reflexivity|].
  destruct (is_DatasetCatalogError e); reflexivity.
Qed.

(** X21.  The data set has been moved to the requested volumes, and
    the verification does not find it there: the call ends at once
    with [changed = false], [present = false]; the entry on the
    recorded volumes is not restored. *)
Theorem divergence_unverified_is_left_as_is (name v : string)
  (vs original : list string) (s0 s1 s2 s3 s4 s5 s6 : st W) :
  data_set_cataloged name None s0 = (Ok true, s1) ->
  data_set_cataloged name (Some (v :: vs)) s1 = (Ok false, s2) ->
  data_set_cataloged_volume_list name s2 = (Ok original, s3) ->
  uncatalog name s3 = (Ok tt, s4) ->
  catalog name (v :: vs) s4 = (Ok tt, s5) ->
  data_set_cataloged name (Some (v :: vs)) s5 = (Ok false, s6) ->
  attempt_catalog_if_necessary_and_delete name (Some (v :: vs)) s0
  = (Ok (false, false), s6).
Proof.
  intros H0 H1 H2 H3 H4 H5.
  unfold attempt_catalog_if_necessary_and_delete, catalog_or_pass,
    bind, try_except, ret.
  known H0. known H1. known H2. known H3. known H4. known H5. reflexivity.
Qed.

(** X22.  The data set has been moved to the requested volumes,
    verified there, and its deletion is refused.  The engine then
    uncatalogs it and reports [changed = false], [present = true].  It
    catalogs the data set back on the recorded volumes only when that
    uncatalog step itself fails with an uncatalog error; when the step
    succeeds the recorded entry is not restored. *)
Theorem divergence_after_refused_delete (name v : string)
  (vs original : list string) (s0 s1 s2 s3 s4 s5 s6 s7 s8 : st W)
  (m : string) (undone : result unit) :
  data_set_cataloged name None s0 = (Ok true, s1) ->
  data_set_cataloged name (Some (v :: vs)) s1 = (Ok false, s2) ->
  data_set_cataloged_volume_list name s2 = (Ok original, s3) ->
  uncatalog name s3 = (Ok tt, s4) ->
  catalog name (v :: vs) s4 = (Ok tt, s5) ->
  data_set_cataloged name (Some (v :: vs)) s5 = (Ok true, s6) ->
  delete name s6 = (Raise (DatasetDeleteError m), s7) ->
  uncatalog name s7 = (undone, s8) ->
  attempt_catalog_if_necessary_and_delete name (Some (v :: vs)) s0
  = match undone with
    | Ok _ => (Ok (false, true), s8)
    | Raise e =>
        if is_DatasetUncatalogError e then
          match catalog name original s8 with
          | (Ok _, s9) => (Ok (false, true), s9)
          | (Raise e', s9) =>
              (if is_DatasetCatalogError e' then Ok (false, true) else Raise e',
               s9)
          end
        else (Raise e, s8)
    end.
Proof.
  intros H0 H1 H2 H3 H4 H5 H6 H7.
  unfold attempt_catalog_if_necessary_and_delete, catalog_or_pass,
    bind, try_except, ret.
  known H0. known H1. known H2. known H3. known H4. known H5. known H6.
  cbn [is_DatasetDeleteError]. known H7.
  destruct undone as [[]|e]; [reflexivity|].
  destruct (is_DatasetUncatalogError e); [|reflexivity].
  destruct (catalog name original s8) as [[[]|e'] s9]; [reflexivity|].
  destruct (is_DatasetCatalogError e'); reflexivity.
Qed.

(** X23.  The catalog does not list the data set and volumes are
    given: the engine tries to catalog it from those volumes.  A
    catalog error means there is nothing to remove: [changed = false],
    [present = false], no error.  After a successful catalog the data
    set is deleted only if the lookup then finds it on the given
    volumes, and a refused deletion reaches the caller. *)
Theorem absent_catalogs_from_given_volumes (name v : string)
  (vs : list string) (s0 s1 s2 : st W) (cataloged : result unit) :
  data_set_cataloged name None s0 = (Ok false, s1) ->
  catalog name (v :: vs) s1 = (cataloged, s2) ->
  attempt_catalog_if_necessary_and_delete name (Some (v :: vs)) s0
  = match cataloged with
    | Raise e =>
        (if is_DatasetCatalogError e then Ok (false, false) else Raise e, s2)
    | Ok _ =>
        match data_set_cataloged name (Some (v :: vs)) s2 with
        | (Ok true, s3) =>
            match delete name s3 with
            | (Ok _, s4) => (Ok (true, false), s4)
            | (Raise e, s4) => (Raise e, s4)
            end
        | (Ok false, s3) => (Ok (false, false), s3)
        | (Raise e, s3) => (Raise e, s3)
        end
    end.
Proof.
  intros H0 H1.
  unfold attempt_catalog_if_necessary_and_delete, catalog_or_pass,
    bind, try_except, ret.
  known H0. known H1.
  destruct cataloged as [[]|e].
  - destruct (data_set_cataloged name (Some (v :: vs)) s2) as [[[|]|e] s3];
      reflexivity.
  - destruct (is_DatasetCatalogError e); reflexivity.
Qed.
End DivergenceFailures.

(* ===================================================================== *)
(** ** The journal of a run *)
(* ===================================================================== *)

Section JournalFacts.
Context {W : Type} {H : Host W}.
Import DataSet Journal.

Lemma grows_refl (s : st W) : grows s s.
Proof. exists []. symmetry. apply app_nil_r. Qed.

Lemma grows_trans (s1 s2 s3 : st W) : grows s1 s2 -> grows s2 s3 -> grows s1 s3.
Proof.
  intros [l1 E1] [l2 E2]. exists (l1 ++ l2)%list.
  rewrite E2, E1, app_assoc. reflexivity.
Qed.

Lemma grows_journal (c : call) (w : W) (s : st W) : grows s (journal c w s).
Proof. exists [c]. reflexivity. Qed.

Lemma appends_ret (A : Type) (a : A) : appends (@ret W A a).
Proof. intros s r s' E. inversion E. apply grows_refl. Qed.

Lemma appends_raise (A : Type) (e : exn) : appends (@raise W A e).
Proof. intros s r s' E. inversion E. apply grows_refl. Qed.

Lemma appends_bind (A B : Type) (m : M W A) (k : A -> M W B) :
  appends m -> (forall a, appends (k a)) -> appends (bind m k).
Proof.
  intros Hm Hk s r s' E. unfold bind in E.
  destruct (m s) as [[a|e] s1] eqn:Em.
  - exact (grows_trans _ _ _ (Hm _ _ _ Em) (Hk a _ _ _ E)).
  - inversion E; subst. exact (Hm _ _ _ Em).
Qed.

Lemma appends_try_except (A : Type) (body : M W A) (handles : exn -> bool)
  (handler : exn -> M W A) :
  appends body -> (forall e, appends (handler e)) ->
  appends (try_except body handles handler).
Proof.
  intros Hb Hh s r s' E. unfold try_except in E.
  destruct (body s) as [[a|e] s1] eqn:Eb.
  - inversion E; subst. exact (Hb _ _ _ Eb).
  - destruct (handles e).
    + exact (grows_trans _ _ _ (Hb _ _ _ Eb) (Hh e _ _ _ E)).
    + inversion E; subst. exact (Hb _ _ _ Eb).
Qed.

Lemma appends_try_finally (A : Type) (body : M W A) (cleanup : M W unit) :
  appends body -> appends cleanup -> appends (try_finally body cleanup).
Proof.
  intros Hb Hc s r s' E. unfold try_finally in E.
  destruct (body s) as [rb s1] eqn:Eb.
  destruct (cleanup s1) as [[u|e] s2] eqn:Ec; inversion E; subst;
    exact (grows_trans _ _ _ (Hb _ _ _ Eb) (Hc _ _ _ Ec)).
Qed.

Lemma appends_of_re (r : option bool) : appends (@of_re W r).
Proof. destruct r; [apply appends_ret | apply appends_raise]. Qed.

Lemma run_command_appends (cmd : string) (data : option string) :
  appends (run_command cmd data).
Proof.
  intros s r s' E. unfold run_command in E.
  destruct (host_run_command cmd data (world s)) as [x w].
  inversion E. apply grows_journal.
Qed.

Lemma datasets_create_appends (args : list (string * pyval)) :
  appends (datasets_create args).
Proof.
  intros s r s' E. unfold datasets_create in E.
  destruct (host_datasets_create args (world s)) as [x w].
  inversion E. apply grows_journal.
Qed.

Lemma datasets_delete_appends (name : string) : appends (datasets_delete name).
Proof.
  intros s r s' E. unfold datasets_delete in E.
  destruct (host_datasets_delete name (world s)) as [x w].
  inversion E. apply grows_journal.
Qed.

Lemma datasets_hlq_appends : appends (@datasets_hlq W H).
Proof.
  intros s r s' E. unfold datasets_hlq in E.
  destruct (host_datasets_hlq (world s)) as [x w].
  inversion E. apply grows_journal.
Qed.

Lemma datasets_tmp_name_appends (hlq : string) : appends (datasets_tmp_name hlq).
Proof.
  intros s r s' E. unfold datasets_tmp_name in E.
  destruct (host_datasets_tmp_name hlq (world s)) as [x w].
  inversion E. apply grows_journal.
Qed.

Lemma vtoc_get_volume_entry_appends (volume : string) :
  appends (vtoc_get_volume_entry volume).
Proof.
  intros s r s' E. unfold vtoc_get_volume_entry in E.
  destruct (host_vtoc_get_volume_entry volume (world s)) as [x w].
  inversion E. apply grows_journal.
Qed.

Lemma vtoc_get_data_set_entry_appends (name volume : string) :
  appends (vtoc_get_data_set_entry name volume).
Proof.
  intros s r s' E. unfold vtoc_get_data_set_entry in E.
  destruct (host_vtoc_get_data_set_entry name volume (world s)) as [x w].
  inversion E. apply grows_journal.
Qed.

Lemma named_temporary_file_appends : appends (@named_temporary_file W H).
Proof.
  intros s r s' E. unfold named_temporary_file in E.
  destruct (host_named_temporary_file (world s)) as [x w].
  inversion E. apply grows_journal.
Qed.

Lemma file_write_appends (path contents : string) :
  appends (file_write path contents).
Proof. intros s r s' E. inversion E. apply grows_journal. Qed.

(** The journal only grows along a program put together from the
    boundary calls. *)
Ltac only_appends :=
  cbv zeta;
  repeat first
    [ apply appends_ret
    | apply appends_raise
    | apply appends_of_re
    | apply run_command_appends
    | apply datasets_create_appends
    | apply datasets_delete_appends
    | apply datasets_hlq_appends
    | apply datasets_tmp_name_appends
    | apply vtoc_get_volume_entry_appends
    | apply vtoc_get_data_set_entry_appends
    | apply named_temporary_file_appends
    | apply file_write_appends
    | apply appends_bind; [|intros ?]
    | apply appends_try_except; [|intros ?]
    | apply appends_try_finally
    | match goal with
      | |- appends (match ?x with _ => _ end) => destruct x
      | |- appends (if ?b then _ else _) => destruct b
      end ].

Lemma data_set_cataloged_volume_list_appends (name : string) :
  appends (data_set_cataloged_volume_list name).
Proof. unfold data_set_cataloged_volume_list. only_appends. Qed.

Lemma data_set_cataloged_appends (name : string) (volumes : option (list string)) :
  appends (data_set_cataloged name volumes).
Proof.
  unfold data_set_cataloged. only_appends.
Qed.

Lemma is_vsam_appends (name : string) (volumes : option (list string)) :
  appends (is_vsam name volumes).
Proof.
  unfold is_vsam, _is_vsam_from_vtoc, _is_vsam_from_listcat. only_appends.
Qed.

Lemma catalog_appends (name : string) (volumes : list string) :
  appends (catalog name volumes).
Proof.
  unfold catalog. apply appends_bind; [apply is_vsam_appends|].
  intros vsam. unfold _catalog_vsam, _catalog_non_vsam. only_appends.
Qed.

Lemma delete_appends (name : string) : appends (delete name).
Proof. unfold delete. only_appends. Qed.

Lemma create_appends (a : create_args) : appends (create a).
Proof. unfold create. only_appends. Qed.

Lemma create_temp_appends (hlq : string) : appends (create_temp hlq).
Proof.
  unfold create_temp, temp_name. only_appends.
Qed.

Lemma write_appends (name contents : string) : appends (write name contents).
Proof. unfold write. only_appends. Qed.

Lemma uncatalog_appends (name : string) : appends (uncatalog name).
Proof.
  unfold uncatalog. apply appends_bind; [apply is_vsam_appends|].
  intros [|].
  - unfold _uncatalog_vsam. only_appends.
  - intros s r s' E. unfold _uncatalog_non_vsam in E.
    destruct (create_temp (first_qualifier name) s) as [[temp|e] s1] eqn:Ec.
    + apply (grows_trans _ _ _ (create_temp_appends _ _ _ _ Ec)).
      revert E. generalize s1 r s'.
      change (appends
                (try_finally (_uncatalog_non_vsam_body name temp)
                   (if nonempty temp
                    then bind (datasets_delete temp) (fun _ => ret tt)
                    else ret tt))).
      unfold _uncatalog_non_vsam_body. only_appends.
    + inversion E; subst. exact (create_temp_appends _ _ _ _ Ec).
Qed.

(** A deletion that returns has put its call in the journal. *)
Lemma delete_journal (name : string) (s s' : st W) (r : result unit) :
  delete name s = (r, s') -> calls s' = (calls s ++ [DatasetsDelete name])%list.
Proof.
  unfold delete, bind, datasets_delete, raise, ret.
  destruct (host_datasets_delete name (world s)) as [rc w].
  cbv beta iota zeta. destruct (rc >? 0)%Z; intros E; inversion E; reflexivity.
Qed.

Lemma deleted_between (name : string) (s a b s' : st W) :
  grows s a -> calls b = (calls a ++ [DatasetsDelete name])%list -> grows b s' ->
  exists before after,
    calls s' = (calls s ++ before ++ DatasetsDelete name :: after)%list.
Proof.
  intros [l1 E1] Eb [l2 E2]. exists l1, l2.
  rewrite E2, Eb, E1, <- !app_assoc. reflexivity.
Qed.

Ltac journal_chain :=
  first [ apply grows_refl
        | eapply grows_trans; [eassumption | journal_chain] ].

Ltac journal_facts :=
  repeat match goal with
         | E : data_set_cataloged ?n ?v ?a = (?r, ?b) |- _ =>
             apply (data_set_cataloged_appends n v a r b) in E
         | E : data_set_cataloged_volume_list ?n ?a = (?r, ?b) |- _ =>
             apply (data_set_cataloged_volume_list_appends n a r b) in E
         | E : catalog ?n ?v ?a = (?r, ?b) |- _ =>
             apply (catalog_appends n v a r b) in E
         | E : uncatalog ?n ?a = (?r, ?b) |- _ =>
             apply (uncatalog_appends n a r b) in E
         | E : delete ?n ?a = (?r, ?b) |- _ =>
             apply (delete_appends n a r b) in E
         end.

Lemma changed_after_delete (name : string)
  (volumes : option (list string)) (s s' : st W) (present : bool) :
  attempt_catalog_if_necessary_and_delete name volumes s
    = (Ok (true, present), s') ->
  exists before after,
    calls s' = (calls s ++ before ++ DatasetsDelete name :: after)%list.
Proof.
  unfold attempt_catalog_if_necessary_and_delete,
    catalog_or_pass, bind, try_except, ret.
  destruct volumes as [[|v vs]|]; cbv beta iota zeta.
  all: repeat outcome.
  all: intros Hr; inversion Hr; subst; clear Hr.
  all: lazymatch goal with
       | E : delete ?n ?a = (Ok ?u, ?b) |- _ =>
           pose proof (delete_journal n a b (Ok u) E) as Hdel;
           apply (deleted_between n _ a b _);
           journal_facts; first [exact Hdel | journal_chain]
       end.
Qed.

(** X24.  [ensure_absent] reports [changed = true] only after it has
    asked the host to delete the data set: the deletion call for that
    name is among the calls the run added to the journal. *)
Theorem changed_only_after_delete (name : string)
  (volumes : option (list string)) (s s' : st W) :
  ensure_absent name volumes s = (Ok true, s') ->
  exists before after,
    calls s' = (calls s ++ before ++ DatasetsDelete name :: after)%list.
Proof.
  unfold ensure_absent, bind, ret.
  destruct (attempt_catalog_if_necessary_and_delete name volumes s)
    as [[[changed present]|e] s1] eqn:Hrun; intros Hr; inversion Hr; subst.
  exact (changed_after_delete name volumes s s' present Hrun).
Qed.
End JournalFacts.

Section CatalogFacts.
Context {W : Type} {H : Host W}.
Import DataSet DataSetRest.

(** X25.  For a VSAM data set whose first recatalog attempt returns
    zero, [_catalog_vsam] returns without a second attempt: the catalog
    facility has been invoked once, after the two volume table
    lookups, and the linear cluster command has not been issued. *)
Theorem catalog_vsam_first_attempt_suffices (name v0 : string)
  (vs : list string) (s : st W)
  (data_entry index_entry : option entry) (w1 w2 w3 : W)
  (out1 err1 : string) :
  host_vtoc_get_data_set_entry (name ++ ".DATA") v0 (world s)
    = (data_entry, w1) ->
  host_vtoc_get_data_set_entry (name ++ ".INDEX") v0 w1
    = (index_entry, w2) ->
  host_run_command IDCAMS
    (Some (first_attempt_command name (v0 :: vs) data_entry index_entry)) w2
    = ((0%Z, out1, err1), w3) ->
  exists s',
    _catalog_vsam name (v0 :: vs) s = (Ok tt, s')
    /\ world s' = w3
    /\ added s s'
       = [ VtocGetDataSetEntry (name ++ ".DATA") v0;
           VtocGetDataSetEntry (name ++ ".INDEX") v0;
           RunCommand IDCAMS
             (Some (first_attempt_command name (v0 :: vs)
                      data_entry index_entry)) ]
    /\ facility_invocations (added s s') = 1.
Proof.
  intros Hd Hi Hfirst.
  unfold first_attempt_command in *.
  unfold _catalog_vsam, bind, vtoc_get_data_set_entry.
  rewrite Hd. cbv beta iota zeta. cbn [world journal].
  rewrite Hi. cbv beta iota zeta.
  unfold run_command at 1. cbn [world journal].
  destruct (entry_truthy data_entry && entry_truthy index_entry);
    cbn [String.eqb Ascii.eqb Bool.eqb negb];
    rewrite Hfirst; cbv beta iota zeta; cbn [Z.eqb negb];
    unfold ret; cbv beta iota zeta;
    (eexists; split; [reflexivity|]; split; [reflexivity|];
     match goal with
     | |- ?x = ?l /\ _ =>
         assert (Hadded : x = l)
           by (unfold added; cbn [calls journal];
               repeat rewrite <- app_assoc;
               rewrite skipn_app, skipn_all, Nat.sub_diag; reflexivity);
         rewrite Hadded; split; reflexivity
     end).
Qed.

(** X26.  A data set that the volume table of the first volume does
    not show as VSAM (or does not show at all) is cataloged with one
    run of IEHPROGM on the command text of
    [_build_non_vsam_catalog_command]; the run counts as a success only
    when the code is zero and the output holds the "NORMAL END OF TASK
    RETURNED" line as well. *)
Theorem catalog_non_vsam_needs_normal_end (name v0 : string)
  (vs : list string) (s : st W) (entries : list entry) (w1 w2 : W)
  (rc : Z) (out err : string) :
  host_vtoc_get_volume_entry v0 (world s) = (entries, w1) ->
  match (match vtoc_find_data_set_in_volume_output (name ++ ".DATA") entries with
         | Some e => Some e
         | None => vtoc_find_data_set_in_volume_output name entries
         end) with
  | Some e => String.eqb (entry_get "data_set_organization" "" e) "VS"
  | None => false
  end = false ->
  host_run_command IEHPROGM
    (Some (_build_non_vsam_catalog_command (PyStr.upper name) (v0 :: vs))) w1
    = ((rc, out, err), w2) ->
  exists s',
    catalog name (v0 :: vs) s
    = (if (rc =? 0)%Z && PyStr.contains NORMAL_END out
       then Ok tt
       else Raise (mkDatasetCatalogError name (v0 :: vs) (PyStr.of_Z rc) ""),
       s')
    /\ world s' = w2
    /\ added s s'
       = [ VtocGetVolumeEntry v0;
           RunCommand IEHPROGM
             (Some (_build_non_vsam_catalog_command (PyStr.upper name)
                      (v0 :: vs))) ].
Proof.
  intros Hvtoc Hplain Hrun.
  assert (Hvsam : is_vsam name (Some (v0 :: vs)) s
                  = (Ok false, journal (VtocGetVolumeEntry v0) w1 s)).
  { unfold is_vsam, _is_vsam_from_vtoc, bind, vtoc_get_volume_entry, ret.
    rewrite Hvtoc. cbv beta iota zeta.
    destruct (vtoc_find_data_set_in_volume_output (name ++ ".DATA") entries)
      as [e|].
    - rewrite Hplain. reflexivity.
    - destruct (vtoc_find_data_set_in_volume_output name entries) as [e|];
        [rewrite Hplain|]; reflexivity. }
  unfold catalog. unfold bind at 1. known Hvsam.
  unfold _catalog_non_vsam, bind, run_command, raise, ret.
  cbn [world journal]. rewrite Hrun. cbv beta iota zeta.
  eexists. split; [|split].
  - destruct (rc =? 0)%Z; cbn [negb orb andb]; [|reflexivity].
    destruct (PyStr.contains NORMAL_END out); reflexivity.
  - reflexivity.
  - unfold added. cbn [calls journal]. repeat rewrite <- app_assoc.
    rewrite skipn_app, skipn_all, Nat.sub_diag. reflexivity.
Qed.

(** X27.  On a non-empty volume list [ensure_cataloged] has four
    outcomes only: [changed = false], [changed = true], the error of a
    name that is no valid pattern for the lookup, and the catalog error
    "Data set was not found. Unable to catalog." with code -1.  The
    code that the catalog facility gave never reaches the caller. *)
Theorem ensure_cataloged_outcomes (name v : string) (vs : list string)
  (s : st W) :
  let outcome := fst (ensure_cataloged name (v :: vs) s) in
  outcome = Ok false \/ outcome = Ok true \/ outcome = Raise ReError
  \/ outcome = Raise (mkDatasetCatalogError name (v :: vs) "-1"
                        NOT_FOUND_CANNOT_CATALOG).
Proof.
  unfold ensure_cataloged, bind, try_except, ret, raise.
  destruct (data_set_cataloged name None s) as [[[|]|e] s1] eqn:Hlook;
    cbv beta iota zeta; cbn [fst].
  - left. reflexivity.
  - destruct (catalog name (v :: vs) s1) as [r s2] eqn:Hcat.
    destruct (@catalog_returns_or_fails W H name (v :: vs) s1 s2 r
                ltac:(discriminate) Hcat) as [-> | [m ->]];
      cbv beta iota zeta; cbn [is_DatasetCatalogError fst].
    + right. left. reflexivity.
    + right. right. right. reflexivity.
  - rewrite (data_set_cataloged_raises _ _ _ _ _ Hlook).
    right. right. left. reflexivity.
Qed.

(** X28.  [data_set_exists] asks the catalog first.  Without a volume
    its answer is that of the catalog lookup; with a volume, a data
    set that the catalog lists is reported without the volume table
    being read, and one that it does not list is looked for in the
    volume table from the state the lookup left. *)
Theorem data_set_exists_asks_catalog_first (name : string) (s : st W) :
  data_set_exists name None s = data_set_cataloged name None s
  /\ (forall volume s1,
         data_set_cataloged name None s = (Ok true, s1) ->
         data_set_exists name (Some volume) s = (Ok true, s1))
  /\ (forall volume s1,
         data_set_cataloged name None s = (Ok false, s1) ->
         data_set_exists name (Some volume) s = _is_in_vtoc name volume s1).
Proof.
  unfold data_set_exists, bind, ret. repeat split.
  - destruct (data_set_cataloged name None s) as [[[|]|e] s1]; reflexivity.
  - intros volume s1 Hlook. known Hlook. reflexivity.
  - intros volume s1 Hlook. known Hlook. reflexivity.
Qed.
End CatalogFacts.

Section NameDefaultFacts.
Context {W : Type} {H : Host W}.
Import ZosDataSet.

(** X29.  A missing name is an error, raised before any call to the
    host, unless the state is [present] and the type is not MEMBER; in
    that case a temporary name is asked of the host under the given
    high level qualifier and then checked and put in upper case exactly
    as a given name is. *)
Theorem missing_name_is_generated_then_validated (deps : dependencies)
  (s : st W) :
  truthy (dep_batch deps) = false ->
  (opt_is (dep_state deps) "present" = false ->
   exists m, data_set_name None deps s = (Raise (ValueError m), s))
  /\ (opt_is (dep_state deps) "present" = true ->
      opt_is (dep_type deps) "MEMBER" = true ->
      exists m, data_set_name None deps s = (Raise (ValueError m), s))
  /\ (opt_is (dep_state deps) "present" = true ->
      opt_is (dep_type deps) "MEMBER" = false ->
      data_set_name None deps s
      = (generated <- DataSet.temp_name (match dep_tmp_hlq deps with
                                         | Some h => h
                                         | None => ""
                                         end) ;;
         data_set_name (Some generated) deps)%py s).
Proof.
  intros Hbatch. unfold data_set_name. rewrite Hbatch. repeat split.
  - intros Hstate. rewrite Hstate. cbn [negb]. eexists. reflexivity.
  - intros Hstate Htype. rewrite Hstate, Htype. cbn [negb].
    eexists. reflexivity.
  - intros Hstate Htype. rewrite Hstate, Htype. cbn [negb].
    unfold bind, ret.
    destruct (DataSet.temp_name _ s) as [[generated|e] s1]; reflexivity.
Qed.
End NameDefaultFacts.

(* ===================================================================== *)
(** ** The further properties on concrete inputs *)
(* ===================================================================== *)

Section TextRuns.
Import DataSetRest.

Lemma extract_round_trip_witness :
  extract_dsname "USER.PDS(MEM1)" = "USER.PDS"
  /\ extract_member_name "USER.PDS(MEM1)" = "MEM1".
Proof. exact (extract_round_trip "USER.PDS" "MEM1" eq_refl eq_refl). Defined.

Lemma extract_without_member_witness :
  extract_dsname "USER.DATA" = "USER.DATA"
  /\ extract_member_name "USER.DATA" = "USER.DATA".
Proof. exact (extract_without_member "USER.DATA" eq_refl eq_refl). Defined.

Lemma get_member_name_from_file_fits_witness :
  get_member_name_from_file "inventory.cobol" = "inventor"
  /\ String.length (get_member_name_from_file "inventory.cobol") <= 8.
Proof.
  destruct (get_member_name_from_file_fits "inventory.cobol")
    as (Hlen & _ & Hstem).
  split; [|exact Hlen].
  exact (Hstem "inventory" "cobol" eq_refl ltac:(discriminate)
           eq_refl eq_refl eq_refl eq_refl).
Defined.


Lemma catalog_command_lines_witness :
  exists heads body,
    NameRules.split_on PyRe.newline
      (PyStr.chars
         (DataSet._build_non_vsam_catalog_command "USER.DATA" ["VOLA"; "VOLB"]))
    = (heads ++ [(body ++ [")"%char])%list; []])%list
    /\ List.length heads = 2
    /\ Forall JclLines.continued heads.
Proof.
  destruct (catalog_command_lines "USER.DATA" ["VOLA"; "VOLB"]
              ltac:(discriminate) ltac:(simpl; lia)
              ltac:(repeat constructor; simpl; lia) eq_refl
              ltac:(repeat constructor))
    as (heads & body & Hsplit & Hcount & Hcont & _).
  exists heads, body. split; [exact Hsplit | split; [exact Hcount | exact Hcont]].
Defined.
End TextRuns.

Section ValidatorRestRuns.
Import ZosDataSet ZosDataSetRest Scenario Words.

Lemma record_length_range_witness :
  record_length (Some 32768%Z) sequential_present = Ok (Some 32768%Z)
  /\ record_length (Some 32769%Z) sequential_present
     = Raise (invalid_record_length 32769%Z)
  /\ record_length (Some (-1)%Z) sequential_present
     = Raise (invalid_record_length (-1)%Z).
Proof.
  split; [|split].
  - exact (record_length_range 32768%Z sequential_present eq_refl).
  - exact (record_length_range 32769%Z sequential_present eq_refl).
  - exact (record_length_range (-1)%Z sequential_present eq_refl).
Defined.

Lemma space_type_listed_witness :
  space_type (Some "cyl") sequential_present = Ok (Some "cyl")
  /\ space_type (Some "KB") sequential_present = Raise (invalid_space_type "KB").
Proof.
  split.
  - exact (space_type_listed "cyl" sequential_present eq_refl).
  - exact (space_type_listed "KB" sequential_present eq_refl).
Defined.

Lemma record_format_listed_witness :
  record_format (Some "vba") sequential_present = Ok (Some "VBA")
  /\ In "VBA" DATA_SET_FORMATS.
Proof.
  destruct (record_format_listed "vba" sequential_present eq_refl)
    as [Hrun Hin].
  split; [exact Hrun | exact (Hin "VBA" Hrun)].
Defined.

Lemma data_set_type_listed_witness :
  ZosDataSetRest.data_set_type (Some "pdse") sequential_present
    = Ok (Some "PDSE")
  /\ exists t, Some "PDSE" = Some t /\ In t DATA_SET_TYPES.
Proof.
  destruct (data_set_type_listed (Some "pdse") sequential_present)
    as [Hrun Hin].
  split; [exact Hrun | exact (Hin (Some "PDSE") Hrun)].
Defined.
End ValidatorRestRuns.

Section EngineRestRuns.
Import DataSet DataSetRest Scripted Scenario MoreScenarios.

Lemma cataloged_volume_list_distinct_witness :
  exists s',
    data_set_cataloged_volume_list "USER.NOPE" (start never_existed)
    = (Ok [], s').
Proof.
  destruct (@cataloged_volume_list_distinct script scripted_host
              "USER.NOPE" (start never_existed)
              4%Z (listcat_missing "USER.NOPE") "" [] eq_refl)
    as (listed & s' & Hrun & _ & Hnone).
  exists s'. rewrite Hrun, (Hnone ltac:(vm_compute; reflexivity)).
  reflexivity.
Defined.

Lemma replace_stops_at_refused_delete_witness :
  exists s1,
    replace (user_data None) (start [CodeReply 8])
    = (Raise (mkDatasetDeleteError "USER.DATA" 8), s1)
    /\ calls s1 = [DatasetsDelete "USER.DATA"].
Proof.
  eexists. split.
  - exact (@replace_stops_at_refused_delete script scripted_host
             (user_data None) (start [CodeReply 8]) 8%Z [] eq_refl).
  - reflexivity.
Defined.

Lemma ensure_present_leaves_cataloged_alone_witness :
  exists s1,
    ensure_present (user_data None) false (start [found "USER.DATA"])
    = (Ok false, s1).
Proof.
  eexists.
  refine (proj1 (@ensure_present_leaves_cataloged_alone script scripted_host
                   (user_data None) (start [found "USER.DATA"]) _ _)).
  vm_compute. reflexivity.
Defined.

Lemma ensure_present_creates_once_witness :
  (exists s2, ensure_present (user_data None) true (start created)
              = (Ok true, s2))
  /\ (exists m s2, ensure_present (user_data None) false (start creation_refused)
                   = (Raise (DatasetCreateError m), s2)).
Proof.
  split.
  - pose (s0 := start created).
    pose (s1 := snd (data_set_cataloged "USER.DATA" None s0)).
    pose (s2 := snd (create (user_data None) s1)).
    exists s2.
    refine (eq_trans
              (proj1 (@ensure_present_creates_once script scripted_host
                        (user_data None) true s0 s1 s2 _) 0%Z _) _);
      vm_compute; reflexivity.
  - pose (s0 := start creation_refused).
    pose (s1 := snd (data_set_cataloged "USER.DATA" None s0)).
    pose (s2 := snd (create (user_data None) s1)).
    exists (exn_msg (mkDatasetCreateError "USER.DATA" 8
                       "BGYSC1506E Allocation failed. No space.")), s2.
    refine (proj2 (@ensure_present_creates_once script scripted_host
                     (user_data None) false s0 s1 s2 _) _ _ _);
      vm_compute; reflexivity.
Defined.

Lemma ensure_uncataloged_follows_lookup_witness :
  exists s1, ensure_uncataloged "USER.NOPE" (start never_existed) = (Ok false, s1).
Proof.
  eexists.
  refine (proj1 (proj1 (@ensure_uncataloged_follows_lookup script scripted_host
                          "USER.NOPE" (start never_existed)) _) _).
  vm_compute. reflexivity.
Defined.

Lemma attempt_catalog_if_necessary_reports_witness :
  exists present s',
    attempt_catalog_if_necessary "USER.DATA" (Some ["VOLB"])
      (start cataloged_from_volb) = (Ok (present, true), s')
    /\ present = true.
Proof.
  pose (s' := snd (attempt_catalog_if_necessary "USER.DATA" (Some ["VOLB"])
                     (start cataloged_from_volb))).
  assert (Hrun : attempt_catalog_if_necessary "USER.DATA" (Some ["VOLB"])
                   (start cataloged_from_volb) = (Ok (true, true), s'))
    by (vm_compute; reflexivity).
  exists true, s'. split; [exact Hrun|].
  exact (proj1 (proj1 (proj1 (@attempt_catalog_if_necessary_reports
                                script scripted_host "USER.DATA"
                                (Some ["VOLB"]) (start cataloged_from_volb))
                         true true s' Hrun) eq_refl)).
Defined.

Lemma refused_delete_silent_without_volumes_witness :
  (exists s2, ensure_absent "USER.DATA" None (start delete_refused)
              = (Ok false, s2))
  /\ (exists s3, ensure_absent "USER.DATA" (Some ["VOLB"])
                   (start delete_refused_on_volb)
                 = (Raise (mkDatasetDeleteError "USER.DATA" 8), s3)).
Proof.
  pose (m := exn_msg (mkDatasetDeleteError "USER.DATA" 8)).
  split.
  - pose (s0 := start delete_refused).
    pose (s1 := snd (data_set_cataloged "USER.DATA" None s0)).
    exists (snd (delete "USER.DATA" s1)).
    refine (proj1 (@refused_delete_silent_without_volumes script scripted_host
                     "USER.DATA" "VOLB" [] None m) eq_refl
              s0 s1 (snd (delete "USER.DATA" s1)) _ _);
      vm_compute; reflexivity.
  - pose (s0 := start delete_refused_on_volb).
    pose (s1 := snd (data_set_cataloged "USER.DATA" None s0)).
    pose (s2 := snd (data_set_cataloged "USER.DATA" (Some ["VOLB"]) s1)).
    exists (snd (delete "USER.DATA" s2)).
    refine (proj2 (@refused_delete_silent_without_volumes script scripted_host
                     "USER.DATA" "VOLB" [] None m)
              s0 s1 s2 (snd (delete "USER.DATA" s2)) _ _ _);
      vm_compute; reflexivity.
Defined.

Lemma divergence_stops_when_uncatalog_fails_witness :
  (exists s4, ensure_absent "USER.DATA" (Some ["VOLB"])
                (start divergence_uncatalog_refused) = (Ok false, s4))
  /\ (exists m s4, ensure_absent "USER.DATA" (Some ["VOLB"])
                     (start divergence_scratch_refused)
                   = (Raise (DatasetCreateError m), s4)).
Proof.
  assert (Hrun : forall (sc : script) (e : exn),
             let s0 := start sc in
             let s1 := snd (data_set_cataloged "USER.DATA" None s0) in
             let s2 := snd (data_set_cataloged "USER.DATA" (Some ["VOLB"]) s1) in
             let s3 := snd (data_set_cataloged_volume_list "USER.DATA" s2) in
             let s4 := snd (uncatalog "USER.DATA" s3) in
             data_set_cataloged "USER.DATA" None s0 = (Ok true, s1) ->
             data_set_cataloged "USER.DATA" (Some ["VOLB"]) s1 = (Ok false, s2) ->
             data_set_cataloged_volume_list "USER.DATA" s2 = (Ok ["VOLA"], s3) ->
             uncatalog "USER.DATA" s3 = (Raise e, s4) ->
             ensure_absent "USER.DATA" (Some ["VOLB"]) s0
             = (if is_DatasetUncatalogError e then Ok false else Raise e, s4)).
  { intros sc e s0 s1 s2 s3 s4 H0 H1 H2 H3.
    exact (proj2 (@divergence_stops_when_uncatalog_fails script scripted_host
                    "USER.DATA" "VOLB" [] ["VOLA"] s0 s1 s2 s3 s4 e
                    H0 H1 H2 H3)). }
  split.
  - eexists.
    refine (eq_trans (Hrun divergence_uncatalog_refused
                        (mkDatasetUncatalogError "USER.DATA" 8) _ _ _ _) _).
    1-4: vm_compute; reflexivity.
    reflexivity.
  - eexists _, _.
    refine (eq_trans (Hrun divergence_scratch_refused
                        (mkDatasetCreateError "USER.T0000001.SCRATCH" 8 "")
                        _ _ _ _) _).
    1-4: vm_compute; reflexivity.
    reflexivity.
Defined.

Lemma divergence_restores_catalog_entry_witness :
  exists s6,
    attempt_catalog_if_necessary_and_delete "USER.DATA" (Some ["VOLB"])
      (start divergence_catalog_refused) = (Ok (false, false), s6)
    /\ facility_invocations (added (start divergence_catalog_refused) s6) = 9.
Proof.
  pose (s0 := start divergence_catalog_refused).
  pose (s1 := snd (data_set_cataloged "USER.DATA" None s0)).
  pose (s2 := snd (data_set_cataloged "USER.DATA" (Some ["VOLB"]) s1)).
  pose (s3 := snd (data_set_cataloged_volume_list "USER.DATA" s2)).
  pose (s4 := snd (uncatalog "USER.DATA" s3)).
  pose (s5 := snd (catalog "USER.DATA" ["VOLB"] s4)).
  pose (s6 := snd (catalog "USER.DATA" ["VOLA"] s5)).
  exists s6. split.
  - refine (eq_trans
              (@divergence_restores_catalog_entry script scripted_host
                 "USER.DATA" "VOLB" [] ["VOLA"] s0 s1 s2 s3 s4 s5 s6
                 (exn_msg (mkDatasetCatalogError "USER.DATA" ["VOLB"] "8" ""))
                 (Ok tt) _ _ _ _ _ _) _).
    1-6: vm_compute; reflexivity.
    reflexivity.
  - vm_compute. reflexivity.
Defined.

Lemma divergence_unverified_is_left_as_is_witness :
  exists s6,
    attempt_catalog_if_necessary_and_delete "USER.DATA" (Some ["VOLB"])
      (start divergence_unverified) = (Ok (false, false), s6).
Proof.
  pose (s0 := start divergence_unverified).
  pose (s1 := snd (data_set_cataloged "USER.DATA" None s0)).
  pose (s2 := snd (data_set_cataloged "USER.DATA" (Some ["VOLB"]) s1)).
  pose (s3 := snd (data_set_cataloged_volume_list "USER.DATA" s2)).
  pose (s4 := snd (uncatalog "USER.DATA" s3)).
  pose (s5 := snd (catalog "USER.DATA" ["VOLB"] s4)).
  exists (snd (data_set_cataloged "USER.DATA" (Some ["VOLB"]) s5)).
  refine (@divergence_unverified_is_left_as_is script scripted_host
            "USER.DATA" "VOLB" [] ["VOLA"] s0 s1 s2 s3 s4 s5 _ _ _ _ _ _ _);
    vm_compute; reflexivity.
Defined.

Lemma divergence_after_refused_delete_witness :
  exists s8,
    attempt_catalog_if_necessary_and_delete "USER.DATA" (Some ["VOLB"])
      (start divergence_delete_refused) = (Ok (false, true), s8).
Proof.
  pose (s0 := start divergence_delete_refused).
  pose (s1 := snd (data_set_cataloged "USER.DATA" None s0)).
  pose (s2 := snd (data_set_cataloged "USER.DATA" (Some ["VOLB"]) s1)).
  pose (s3 := snd (data_set_cataloged_volume_list "USER.DATA" s2)).
  pose (s4 := snd (uncatalog "USER.DATA" s3)).
  pose (s5 := snd (catalog "USER.DATA" ["VOLB"] s4)).
  pose (s6 := snd (data_set_cataloged "USER.DATA" (Some ["VOLB"]) s5)).
  pose (s7 := snd (delete "USER.DATA" s6)).
  exists (snd (uncatalog "USER.DATA" s7)).
  refine (@divergence_after_refused_delete script scripted_host
            "USER.DATA" "VOLB" [] ["VOLA"] s0 s1 s2 s3 s4 s5 s6 s7
            (snd (uncatalog "USER.DATA" s7))
            (exn_msg (mkDatasetDeleteError "USER.DATA" 8)) (Ok tt)
            _ _ _ _ _ _ _ _);
    vm_compute; reflexivity.
Defined.

Lemma absent_catalogs_from_given_volumes_witness :
  exists s2,
    attempt_catalog_if_necessary_and_delete "USER.DATA" (Some ["VOLB"])
      (start cannot_catalog) = (Ok (false, false), s2).
Proof.
  pose (s0 := start cannot_catalog).
  pose (s1 := snd (data_set_cataloged "USER.DATA" None s0)).
  exists (snd (catalog "USER.DATA" ["VOLB"] s1)).
  refine (@absent_catalogs_from_given_volumes script scripted_host
            "USER.DATA" "VOLB" [] s0 s1 (snd (catalog "USER.DATA" ["VOLB"] s1))
            (Raise (mkDatasetCatalogError "USER.DATA" ["VOLB"] "8" ""))
            _ _);
    vm_compute; reflexivity.
Defined.

Lemma changed_only_after_delete_witness :
  exists s' before after,
    ensure_absent "USER.DATA" None (start removed) = (Ok true, s')
    /\ calls s' = (before ++ DatasetsDelete "USER.DATA" :: after)%list.
Proof.
  pose (s' := snd (ensure_absent "USER.DATA" None (start removed))).
  assert (Hrun : ensure_absent "USER.DATA" None (start removed) = (Ok true, s'))
    by (vm_compute; reflexivity).
  destruct (@changed_only_after_delete script scripted_host
              "USER.DATA" None (start removed) s' Hrun)
    as (before & after & Hcalls).
  exists s', before, after. split; [exact Hrun | exact Hcalls].
Defined.

Lemma catalog_vsam_first_attempt_suffices_witness :
  exists s',
    _catalog_vsam "USER.VSAM" ["VOLB"] (start vsam_cataloged) = (Ok tt, s')
    /\ facility_invocations (added (start vsam_cataloged) s') = 1.
Proof.
  destruct (@catalog_vsam_first_attempt_suffices script scripted_host
              "USER.VSAM" "VOLB" [] (start vsam_cataloged) None None
              [EntryReply None; CommandReply 0 "" ""]
              [CommandReply 0 "" ""] [] "" ""
              eq_refl eq_refl eq_refl)
    as (s' & Hrun & _ & _ & Hone).
  exists s'. split; [exact Hrun | exact Hone].
Defined.

Lemma catalog_non_vsam_needs_normal_end_witness :
  exists s',
    catalog "USER.DATA" ["VOLB"] (start no_normal_end)
    = (Raise (mkDatasetCatalogError "USER.DATA" ["VOLB"] "0" ""), s').
Proof.
  destruct (@catalog_non_vsam_needs_normal_end script scripted_host
              "USER.DATA" "VOLB" [] (start no_normal_end)
              [[("data_set_name", "USER.DATA"); ("data_set_organization", "PS")]]
              [CommandReply 0 " SYSTEM SUPPORT UTILITIES" ""] []
              0%Z " SYSTEM SUPPORT UTILITIES" ""
              eq_refl eq_refl eq_refl)
    as (s' & Hrun & _).
  exists s'. exact Hrun.
Defined.

Lemma data_set_exists_asks_catalog_first_witness :
  exists s1,
    data_set_exists "USER.DATA" (Some "VOLA") (start [found "USER.DATA"])
    = (Ok true, s1)
    /\ List.length (calls s1) = 1.
Proof.
  pose (s1 := snd (DataSet.data_set_cataloged "USER.DATA" None
                     (start [found "USER.DATA"]))).
  exists s1. split; [|reflexivity].
  refine (proj1 (proj2 (@data_set_exists_asks_catalog_first script scripted_host
                          "USER.DATA" (start [found "USER.DATA"])))
            "VOLA" s1 _).
  vm_compute. reflexivity.
Defined.

Lemma missing_name_is_generated_then_validated_witness :
  exists s',
    ZosDataSet.data_set_name None present_without_type (start temporary_name)
    = (Ok (Some "USER.T0000001.SCRATCH"), s').
Proof.
  eexists.
  refine (eq_trans
            (proj2 (proj2 (@missing_name_is_generated_then_validated
                             script scripted_host present_without_type
                             (start temporary_name) eq_refl))
               eq_refl eq_refl) _).
  vm_compute. reflexivity.
Defined.
End EngineRestRuns.
